(** * Configuration resolution of the C/C++ extension: providers and properties

    A shallow embedding of
      - [src/LanguageServer/customProviders.ts]: the wrapper that lifts a
        third-party configuration provider to one interface, and the
        collection that registers wrappers by identity;
      - [src/LanguageServer/configurations.ts]: the [CppProperties] store
        (parsing of [c_cpp_properties.json], selection index, defaulting,
        per-property merge, version migration).

    JavaScript values are kept as the code sees them: a string-valued
    property that may be missing is an [option string], truthiness is
    written out, a [Map] is a finite map, an object used as a dictionary is
    a finite map, arrays are lists, and the persisted selection index is an
    integer. A field of a configuration holds a value of the type its
    interface declares or is absent ([None]); a settings default or a
    compiler default that is [null] is [None] as well. Methods of
    [CppProperties] run on an explicit state, may throw, and record what
    they show, write and fire in the field [effects]. *)

From stdpp Require Import base option list strings gmap fin_maps.
From Stdlib Require Import ZArith Ascii.

Local Open Scope string_scope.
Local Open Scope nat_scope.
Local Open Scope list_scope.

(** ** JavaScript truthiness of a possibly missing string *)

(** [!!s] for a value that is [undefined] or a string: the empty string and
    [undefined] are falsy. *)
Definition truthy (s : option string) : bool :=
  match s with
  | Some x => negb (String.eqb x "")
  | None => false
  end.

(** ** [Version] of the provider protocol

    The enumeration comes from the [vscode-cpptools] package; the code only
    compares its numeric values. *)
Module Version.
Definition t : Type := nat.
Definition v0 : t := 0.
Definition v1 : t := 1.
Definition v2 : t := 2.
End Version.

(** ** The provider object handed in by a third-party extension

    [ref] stands for the identity of the JavaScript object; a method is
    recorded by whether the object has it. *)
Module CustomConfigurationProvider.
Record t : Type := {
  ref : nat;
  name : option string;
  extensionId : option string;
  canProvideConfiguration : bool;
  provideConfigurations : bool;
  dispose : bool;
  canProvideBrowseConfiguration : bool;
  provideBrowseConfiguration : bool
}.
End CustomConfigurationProvider.

(** What [console] receives. *)
Inductive ConsoleMessage : Type :=
| WarnIntelliSenseDisabled
| ErrorNotRegistered (missing : list string)
| ErrorAlreadyRegistered (id : option string)
| ErrorInvalidProvider
| WarnNotRegistered (id : string)
| WarnDuplicateProviderName.

(** ** [class CustomProviderWrapper] *)
Module CustomProviderWrapper.

Import CustomConfigurationProvider.

Record t : Type := {
  provider : CustomConfigurationProvider.t;
  _isReady : bool;
  _version : Version.t
}.

(** [constructor(provider, version)]: readiness is computed from the
    declared version, before the promotion of a provider that carries an
    [extensionId] but registered through the version-0 interface. *)
Definition new (provider : CustomConfigurationProvider.t) (version : Version.t) : t :=
  let ready := version <? Version.v2 in
  let version :=
    if truthy (extensionId provider) && (version =? Version.v0)
    then Version.v1 else version in
  {| provider := provider; _isReady := ready; _version := version |}.

Definition isReady (w : t) : bool := _isReady w.

Definition set_isReady (ready : bool) (w : t) : t :=
  {| provider := provider w; _isReady := ready; _version := _version w |}.

Definition isValid (w : t) : bool :=
  let p := provider w in
  let valid := truthy (name p) && canProvideConfiguration p && provideConfigurations p in
  let valid :=
    if valid && (Version.v0 <? _version w)
    then truthy (extensionId p) && dispose p else valid in
  let valid :=
    if valid && (Version.v1 <? _version w)
    then canProvideBrowseConfiguration p && provideBrowseConfiguration p else valid in
  valid.

Definition version (w : t) : Version.t := _version w.

Definition get_name (w : t) : option string := name (provider w).

Definition get_extensionId (w : t) : option string :=
  if _version w =? Version.v0 then name (provider w) else extensionId (provider w).

(** [dispose()]: what happens to the wrapped provider. Calling a missing
    method is a [TypeError]. *)
Inductive DisposeEffect : Type :=
| DisposeNothing
| DisposeCalledThrough (target : nat)
| DisposeTypeError.

Definition do_dispose (w : t) : DisposeEffect :=
  if negb (_version w =? Version.v0) then
    if dispose (provider w) then DisposeCalledThrough (ref (provider w))
    else DisposeTypeError
  else DisposeNothing.

(** The four provider methods of the wrapper: each answers by itself or
    calls the method of the provider, and calling a method the provider
    lacks is a [TypeError]. ([console.assert] in [provideBrowseConfiguration]
    only logs.) *)
Inductive Delegation (A : Type) : Type :=
| Answers (a : A)
| CallsProvider (target : nat)
| NotAFunction.
Arguments Answers {A} a.
Arguments CallsProvider {A} target.
Arguments NotAFunction {A}.

Definition do_canProvideConfiguration (w : t) : Delegation bool :=
  if canProvideConfiguration (provider w) then CallsProvider (ref (provider w))
  else NotAFunction.

Definition do_provideConfigurations (w : t) : Delegation (list string) :=
  if provideConfigurations (provider w) then CallsProvider (ref (provider w))
  else NotAFunction.

Definition do_canProvideBrowseConfiguration (w : t) : Delegation bool :=
  if _version w <? Version.v2 then Answers false
  else if canProvideBrowseConfiguration (provider w) then CallsProvider (ref (provider w))
  else NotAFunction.

(** The synthesized answer is [{browsePath: []}], given by its path. *)
Definition do_provideBrowseConfiguration (w : t) : Delegation (list string) :=
  if _version w <? Version.v2 then Answers []
  else if provideBrowseConfiguration (provider w) then CallsProvider (ref (provider w))
  else NotAFunction.

End CustomProviderWrapper.

(** ** [class CustomConfigurationProviderCollection]

    [providers] is a [Map] from identity to wrapper. [forEach] visits a
    [Map] in insertion order; the finite map enumerates its entries in an
    order of its own; the one function that iterates, [checkId], gives the
    same answer in every order ([checkId_over_Permutation] below). *)
Module CustomConfigurationProviderCollection.

Import CustomConfigurationProvider CustomProviderWrapper.

Abbreviation Providers := (gmap (option string) CustomProviderWrapper.t).

(** The list [missing] built by [logProblems]; the entry pushed when
    [provideConfigurations] is missing is the one the source pushes. *)
Definition logProblems (p : CustomConfigurationProvider.t) (version : Version.t) : ConsoleMessage :=
  let missing : list string := [] in
  let missing := if negb (truthy (name p)) then missing ++ ["'name'"] else missing in
  let missing :=
    if negb (version =? Version.v0) && negb (truthy (extensionId p))
    then missing ++ ["'extensionId'"] else missing in
  let missing :=
    if negb (canProvideConfiguration p) then missing ++ ["'canProvideConfiguration'"] else missing in
  let missing :=
    if negb (provideConfigurations p) then missing ++ ["'canProvideConfiguration'"] else missing in
  let missing :=
    if negb (version =? Version.v0) && negb (dispose p)
    then missing ++ ["'dispose'"] else missing in
  let missing :=
    if (Version.v2 <=? version) && negb (canProvideBrowseConfiguration p)
    then missing ++ ["'canProvideBrowseConfiguration'"] else missing in
  let missing :=
    if (Version.v2 <=? version) && negb (provideBrowseConfiguration p)
    then missing ++ ["'provideBrowseConfiguration'"] else missing in
  ErrorNotRegistered missing.

(** [getId(provider: string | CustomConfigurationProvider)]. *)
Definition getId (provider : string + CustomConfigurationProvider.t) : string * list ConsoleMessage :=
  match provider with
  | inl s => (s, [])
  | inr p =>
      if truthy (extensionId p) then (default "" (extensionId p), [])
      else if truthy (name p) then (default "" (name p), [])
      else ("", [ErrorInvalidProvider])
  end.

Definition size (providers : Providers) : nat := base.size providers.

(** [add(provider, version)]: the result, the map afterwards, and the
    console output. [intelliSenseEngine] is the editor setting read through
    [new CppSettings()]. *)
Definition add (intelliSenseEngine : string)
    (provider : CustomConfigurationProvider.t) (version : Version.t)
    (providers : Providers) : bool * Providers * list ConsoleMessage :=
  if String.eqb intelliSenseEngine "Disabled" then
    (false, providers, [WarnIntelliSenseDisabled])
  else
    let wrapper := CustomProviderWrapper.new provider version in
    if negb (isValid wrapper) then
      (false, providers, [logProblems provider version])
    else
      let exists_ :=
        match providers !! get_extensionId wrapper with
        | Some existing =>
            (CustomProviderWrapper.version existing =? Version.v0)
            && (CustomProviderWrapper.version wrapper =? Version.v0)
        | None => false
        end in
      if negb exists_ then
        (true, <[get_extensionId wrapper := wrapper]> providers, [])
      else
        (false, providers, [ErrorAlreadyRegistered (get_extensionId wrapper)]).

Definition get (provider : string + CustomConfigurationProvider.t)
    (providers : Providers) : option CustomProviderWrapper.t :=
  let id := (getId provider).1 in
  providers !! Some id.

(** The wrappers [forEach] passes to its callback. *)
Definition forEach (providers : Providers) : list CustomProviderWrapper.t :=
  (map_to_list providers).*2.

Definition remove (provider : CustomConfigurationProvider.t)
    (providers : Providers) : Providers * list ConsoleMessage :=
  let '(id, log) := getId (inr provider) in
  match providers !! Some id with
  | Some _ => (delete (Some id) providers, log)
  | None => (providers, log ++ [WarnNotRegistered id])
  end.

(** The callback of the [forEach] in [checkId], acting on the two local
    variables [found] and [noUpdate]. *)
Definition checkId_visit (providerId : option string)
    (acc : list CustomProviderWrapper.t * bool) (provider : CustomProviderWrapper.t)
    : list CustomProviderWrapper.t * bool :=
  let '(found, noUpdate) := acc in
  if bool_decide (get_extensionId provider = providerId) then (found, true)
  else if bool_decide (get_name provider = providerId)
          && negb (CustomProviderWrapper.version provider =? Version.v0)
  then (found ++ [provider], noUpdate)
  else (found, noUpdate).

(** [checkId(providerId?)] over the wrappers in the order [forEach] gives. *)
Definition checkId_over (visited : list CustomProviderWrapper.t)
    (providerId : option string) : option string * list ConsoleMessage :=
  if negb (truthy providerId) then (providerId, [])
  else
    let '(found, noUpdate) := foldl (checkId_visit providerId) ([], false) visited in
    if noUpdate then (providerId, [])
    else
      match found with
      | [p] => (get_extensionId p, [])
      | _ :: _ :: _ => (providerId, [WarnDuplicateProviderName])
      | [] => (providerId, [])
      end.

Definition checkId (providers : Providers) (providerId : option string) : option string :=
  (checkId_over (forEach providers) providerId).1.

End CustomConfigurationProviderCollection.

(** * [configurations.ts] *)

Definition configVersion : Z := 4.

(** [process.platform], as far as the code tells platforms apart. *)
Inductive Platform : Type := darwin | win32 | other_platform.

#[global] Instance Platform_eq_dec : EqDecision Platform.
Proof. solve_decision. Defined.

(** [type Environment = { [key: string]: string | string[] }] *)
Inductive EnvironmentValue : Type :=
| EnvString (s : string)
| EnvStrings (l : list string).

Abbreviation Environment := (gmap string EnvironmentValue).

(** [interface Browse]. A field holds a value of its declared type or is
    absent ([None]). *)
Module Browse.
Record t : Type := {
  path : option (list string);
  limitSymbolsToIncludedHeaders : option (bool + string);
  databaseFilename : option string
}.
Definition empty : t :=
  {| path := None; limitSymbolsToIncludedHeaders := None; databaseFilename := None |}.
End Browse.

(** [interface Configuration] *)
Module Configuration.
Record t : Type := {
  name : string;
  compilerPath : option string;
  cStandard : option string;
  cppStandard : option string;
  includePath : option (list string);
  macFrameworkPath : option (list string);
  windowsSdkVersion : option string;
  defines : option (list string);
  intelliSenseMode : option string;
  compileCommands : option string;
  forcedInclude : option (list string);
  configurationProvider : option string;
  browse : option Browse.t
}.

(** [{ name: n }] *)
Definition named (n : string) : t :=
  {| name := n; compilerPath := None; cStandard := None; cppStandard := None;
     includePath := None; macFrameworkPath := None; windowsSdkVersion := None;
     defines := None; intelliSenseMode := None; compileCommands := None;
     forcedInclude := None; configurationProvider := None; browse := None |}.

Definition set_macFrameworkPath (v : option (list string)) (c : t) : t :=
  {| name := name c; compilerPath := compilerPath c; cStandard := cStandard c;
     cppStandard := cppStandard c; includePath := includePath c;
     macFrameworkPath := v; windowsSdkVersion := windowsSdkVersion c;
     defines := defines c; intelliSenseMode := intelliSenseMode c;
     compileCommands := compileCommands c; forcedInclude := forcedInclude c;
     configurationProvider := configurationProvider c; browse := browse c |}.

Definition set_configurationProvider (v : option string) (c : t) : t :=
  {| name := name c; compilerPath := compilerPath c; cStandard := cStandard c;
     cppStandard := cppStandard c; includePath := includePath c;
     macFrameworkPath := macFrameworkPath c; windowsSdkVersion := windowsSdkVersion c;
     defines := defines c; intelliSenseMode := intelliSenseMode c;
     compileCommands := compileCommands c; forcedInclude := forcedInclude c;
     configurationProvider := v; browse := browse c |}.
End Configuration.

(** [interface ConfigurationJson], once the parse has checked that
    [configurations] is there. [version] is [None] when the file has none. *)
Module ConfigurationJson.
Record t : Type := {
  configurations : list Configuration.t;
  env : option Environment;
  version : option Z
}.
Definition set_version (v : option Z) (d : t) : t :=
  {| configurations := configurations d; env := env d; version := v |}.
Definition set_configurations (l : list Configuration.t) (d : t) : t :=
  {| configurations := l; env := env d; version := version d |}.
Definition set_env (e : option Environment) (d : t) : t :=
  {| configurations := configurations d; env := e; version := version d |}.
End ConfigurationJson.

(** The property [configurations] of what [JSON.parse] returns. The cast
    to [ConfigurationJson] checks nothing: the property is missing or
    falsy, or it is an array of configurations, or it is an object without
    properties, [{}], which is truthy and has no [length], no entries and
    no [forEach]. (Other values, such as a string or an array with entries
    that are not objects, are not covered.) *)
Inductive ConfigurationsProperty : Type :=
| Falsy
| ArrayOf (entries : list Configuration.t)
| ObjectWithoutEntries.

(** What [JSON.parse] returns for the file: a falsy value ([null], [false],
    [0], the empty string), or a value with its properties. *)
Module ParsedJson.
Record t : Type := {
  configurations : ConfigurationsProperty;
  env : option Environment;
  version : option Z
}.
End ParsedJson.

(** [interface CompilerDefaults] *)
Module CompilerDefaults.
Record t : Type := {
  compilerPath : string;
  cStandard : string;
  cppStandard : string;
  includes : list string;
  frameworks : list string;
  windowsSdkVersion : string;
  intelliSenseMode : string
}.
End CompilerDefaults.

(** Modelled from the spec: the Settings Facade ([class CppSettings] of
    [./settings], whose source is not part of these files): one typed
    read-only accessor per defaultable property, returning a concrete value
    or the sentinel for unset ([null], here [None]), and the IntelliSense
    engine setting. *)
Module CppSettings.
Record t : Type := {
  intelliSenseEngine : string;
  defaultIncludePath : option (list string);
  defaultDefines : option (list string);
  defaultMacFrameworkPath : option (list string);
  defaultWindowsSdkVersion : option string;
  defaultCompileCommands : option string;
  defaultForcedInclude : option (list string);
  defaultIntelliSenseMode : option string;
  defaultCompilerPath : option string;
  defaultCStandard : option string;
  defaultCppStandard : option string;
  defaultConfigurationProvider : option string;
  defaultBrowsePath : option (list string);
  defaultDatabaseFilename : option string;
  defaultLimitSymbolsToIncludedHeaders : option bool
}.
End CppSettings.

(** ** Exceptions, messages and other effects *)

Inductive Exception : Type :=
| TypeError
| ReadError (message : string)
| SyntaxError (message : string)
| InvalidConfigurationFile.

Inductive UserMessage : Type :=
| FailedToParse (file : string) (err : Exception)
| UnknownVersionNumber
| UpdateFailed (file : string).

Inductive Effect : Type :=
| ShowErrorMessage (m : UserMessage)
| ShowWarningMessage (m : UserMessage)
| WriteFileSync (file : string) (content : ConfigurationJson.t)
| WriteFileSyncWithoutEntries (file : string) (env : option Environment) (version : option Z)
| WatchCompileCommands (files : list string)
| FireConfigurationsChanged (configurations : list Configuration.t)
| FireSelectionChanged (index : Z)
| EditConfigurationsRequested.

(** What reading and parsing the properties file gives on one call:
    [fs.readFileSync] throws, or returns the empty string, or [JSON.parse]
    throws, or it returns a value. *)
Inductive ReadResult : Type :=
| ReadThrows (message : string)
| ReadEmptyString
| ParseThrows (message : string)
| Parsed (newJson : option ParsedJson.t).

(** ** The collaborators of one call

    What a call of a [CppProperties] method finds outside the object: the
    platform, the settings, the registered providers, the A/B test flag,
    the file system, and the resolver [util.resolveVariables] of
    [../common] (not part of these files, taken as it is). [fs_watch] tells
    for a path whether [fs.watch] returns a watcher; it throws
    otherwise. *)
Record Host : Type := {
  platform : Platform;
  settings : CppSettings.t;
  providerCollection : CustomConfigurationProviderCollection.Providers;
  useRecursiveIncludes : bool;
  workspaceFolderBasename : string;
  util_resolveVariables : option string -> Environment -> string;
  fs_existsSync : string -> bool;
  fs_watch : string -> bool;
  configFileExists : option string;
  readPropertiesFile : ReadResult;
  writeSucceeds : bool
}.

(** ** The state of a [CppProperties] object *)

(** The field [configurationJson]: initialised to [null], tested against
    [undefined], a document once a file was parsed or the defaults were
    taken. [DocumentWithoutEntries] is the parsed value whose
    [configurations] is [{}]. *)
Inductive DocumentSlot : Type :=
| JsUndefined
| JsNull
| Document (d : ConfigurationJson.t)
| DocumentWithoutEntries (env : option Environment) (version : option Z).

Record CppProperties : Type := {
  propertiesFile : option string;
  configurationJson : DocumentSlot;
  currentConfigurationIndex : Z;
  defaultCompilerPath : option string;
  defaultCStandard : option string;
  defaultCppStandard : option string;
  defaultIncludes : option (list string);
  defaultFrameworks : option (list string);
  defaultWindowsSdkVersion : option string;
  vcpkgIncludes : list string;
  vcpkgPathReady : bool;
  defaultIntelliSenseMode : option string;
  configurationIncomplete : bool;
  effects : list Effect
}.

Definition set_propertiesFile (v : option string) (s : CppProperties) : CppProperties :=
  {| propertiesFile := v; configurationJson := configurationJson s;
     currentConfigurationIndex := currentConfigurationIndex s;
     defaultCompilerPath := defaultCompilerPath s; defaultCStandard := defaultCStandard s;
     defaultCppStandard := defaultCppStandard s; defaultIncludes := defaultIncludes s;
     defaultFrameworks := defaultFrameworks s;
     defaultWindowsSdkVersion := defaultWindowsSdkVersion s;
     vcpkgIncludes := vcpkgIncludes s; vcpkgPathReady := vcpkgPathReady s;
     defaultIntelliSenseMode := defaultIntelliSenseMode s;
     configurationIncomplete := configurationIncomplete s; effects := effects s |}.

Definition set_configurationJson (v : DocumentSlot) (s : CppProperties) : CppProperties :=
  {| propertiesFile := propertiesFile s; configurationJson := v;
     currentConfigurationIndex := currentConfigurationIndex s;
     defaultCompilerPath := defaultCompilerPath s; defaultCStandard := defaultCStandard s;
     defaultCppStandard := defaultCppStandard s; defaultIncludes := defaultIncludes s;
     defaultFrameworks := defaultFrameworks s;
     defaultWindowsSdkVersion := defaultWindowsSdkVersion s;
     vcpkgIncludes := vcpkgIncludes s; vcpkgPathReady := vcpkgPathReady s;
     defaultIntelliSenseMode := defaultIntelliSenseMode s;
     configurationIncomplete := configurationIncomplete s; effects := effects s |}.

Definition set_currentConfigurationIndex (v : Z) (s : CppProperties) : CppProperties :=
  {| propertiesFile := propertiesFile s; configurationJson := configurationJson s;
     currentConfigurationIndex := v;
     defaultCompilerPath := defaultCompilerPath s; defaultCStandard := defaultCStandard s;
     defaultCppStandard := defaultCppStandard s; defaultIncludes := defaultIncludes s;
     defaultFrameworks := defaultFrameworks s;
     defaultWindowsSdkVersion := defaultWindowsSdkVersion s;
     vcpkgIncludes := vcpkgIncludes s; vcpkgPathReady := vcpkgPathReady s;
     defaultIntelliSenseMode := defaultIntelliSenseMode s;
     configurationIncomplete := configurationIncomplete s; effects := effects s |}.

Definition set_configurationIncomplete (v : bool) (s : CppProperties) : CppProperties :=
  {| propertiesFile := propertiesFile s; configurationJson := configurationJson s;
     currentConfigurationIndex := currentConfigurationIndex s;
     defaultCompilerPath := defaultCompilerPath s; defaultCStandard := defaultCStandard s;
     defaultCppStandard := defaultCppStandard s; defaultIncludes := defaultIncludes s;
     defaultFrameworks := defaultFrameworks s;
     defaultWindowsSdkVersion := defaultWindowsSdkVersion s;
     vcpkgIncludes := vcpkgIncludes s; vcpkgPathReady := vcpkgPathReady s;
     defaultIntelliSenseMode := defaultIntelliSenseMode s;
     configurationIncomplete := v; effects := effects s |}.

Definition add_effect (e : Effect) (s : CppProperties) : CppProperties :=
  {| propertiesFile := propertiesFile s; configurationJson := configurationJson s;
     currentConfigurationIndex := currentConfigurationIndex s;
     defaultCompilerPath := defaultCompilerPath s; defaultCStandard := defaultCStandard s;
     defaultCppStandard := defaultCppStandard s; defaultIncludes := defaultIncludes s;
     defaultFrameworks := defaultFrameworks s;
     defaultWindowsSdkVersion := defaultWindowsSdkVersion s;
     vcpkgIncludes := vcpkgIncludes s; vcpkgPathReady := vcpkgPathReady s;
     defaultIntelliSenseMode := defaultIntelliSenseMode s;
     configurationIncomplete := configurationIncomplete s;
     effects := effects s ++ [e] |}.

(** The [set CompilerDefaults] accessor stores its seven values. *)
Definition store_CompilerDefaults (cd : CompilerDefaults.t) (s : CppProperties) : CppProperties :=
  {| propertiesFile := propertiesFile s; configurationJson := configurationJson s;
     currentConfigurationIndex := currentConfigurationIndex s;
     defaultCompilerPath := Some (CompilerDefaults.compilerPath cd);
     defaultCStandard := Some (CompilerDefaults.cStandard cd);
     defaultCppStandard := Some (CompilerDefaults.cppStandard cd);
     defaultIncludes := Some (CompilerDefaults.includes cd);
     defaultFrameworks := Some (CompilerDefaults.frameworks cd);
     defaultWindowsSdkVersion := Some (CompilerDefaults.windowsSdkVersion cd);
     vcpkgIncludes := vcpkgIncludes s; vcpkgPathReady := vcpkgPathReady s;
     defaultIntelliSenseMode := Some (CompilerDefaults.intelliSenseMode cd);
     configurationIncomplete := configurationIncomplete s; effects := effects s |}.

(** The field initialisers; [persistedIndex] is what the persistent folder
    state holds for [CppProperties.currentConfigurationIndex] (-1 when
    nothing was persisted). *)
Definition initial (persistedIndex : Z) : CppProperties :=
  {| propertiesFile := None; configurationJson := JsNull;
     currentConfigurationIndex := persistedIndex;
     defaultCompilerPath := None; defaultCStandard := None; defaultCppStandard := None;
     defaultIncludes := None; defaultFrameworks := None; defaultWindowsSdkVersion := None;
     vcpkgIncludes := []; vcpkgPathReady := false; defaultIntelliSenseMode := None;
     configurationIncomplete := true; effects := [] |}.

(** ** Methods run on the state and may throw *)

(** A method returns, or throws, or reaches the one number the integers of
    the model do not have: [NotANumber] says that the run computed the
    index [undefined - 1] over a document without entries and went on with
    it. The store of the model has no place for it, and what the run does
    from there is not described. *)
Inductive Completion (A : Type) : Type :=
| Normal (a : A)
| Throw (e : Exception)
| NotANumber.
Arguments Normal {A} a.
Arguments Throw {A} e.
Arguments NotANumber {A}.

Definition M (A : Type) : Type := CppProperties -> Completion A * CppProperties.

Definition ret {A} (a : A) : M A := fun s => (Normal a, s).
Definition bind {A B} (m : M A) (k : A -> M B) : M B :=
  fun s => match m s with
           | (Normal a, s') => k a s'
           | (Throw e, s') => (Throw e, s')
           | (NotANumber, s') => (NotANumber, s')
           end.
Definition throw {A} (e : Exception) : M A := fun s => (Throw e, s).
Definition get_state : M CppProperties := fun s => (Normal s, s).
Definition modify (f : CppProperties -> CppProperties) : M unit := fun s => (Normal tt, f s).
Definition try_catch {A} (m : M A) (handler : Exception -> M A) : M A :=
  fun s => match m s with
           | (Normal a, s') => (Normal a, s')
           | (Throw e, s') => handler e s'
           | (NotANumber, s') => (NotANumber, s')
           end.
Definition not_a_number {A} : M A := fun s => (NotANumber, s).
Definition when (b : bool) (m : M unit) : M unit := if b then m else ret tt.

#[global] Instance M_ret : MRet M := @ret.
#[global] Instance M_bind : MBind M := fun A B k m => bind m k.

Local Open Scope Z_scope.

(** ** Helpers for JavaScript arrays and strings *)

(** [a[i]] for an integer [i]: [undefined] outside of the array. *)
Definition array_get {A} (a : list A) (i : Z) : option A :=
  if i <? 0 then None else a !! Z.to_nat i.

Definition array_length {A} (a : list A) : Z := Z.of_nat (length a).

(** [index < 0 || index >= a.length] *)
Definition out_of_bounds {A} (index : Z) (a : list A) : bool :=
  (index <? 0) || (array_length a <=? index).

(** [s.split(";")] *)
Fixpoint split_semicolon (s : string) : list string :=
  match s with
  | EmptyString => [EmptyString]
  | String c rest =>
      if Ascii.eqb c ";"%char then EmptyString :: split_semicolon rest
      else match split_semicolon rest with
           | piece :: pieces => String c piece :: pieces
           | [] => [String c EmptyString]
           end
  end.

(** A [Set] filled by successive [add]: first occurrences, in order. *)
Definition set_of_added (l : list string) : list string :=
  foldl (fun acc x => if bool_decide (x ∈ acc) then acc else acc ++ [x]) [] l.

(** ** Defaults for the host platform *)

Definition platformConfigurationName (p : Platform) : string :=
  match p with
  | darwin => "Mac"
  | win32 => "Win32"
  | other_platform => "Linux"
  end.

Definition getDefaultConfig (h : Host) : Configuration.t :=
  Configuration.named (platformConfigurationName (platform h)).

Definition getDefaultCppProperties (h : Host) : ConfigurationJson.t :=
  {| ConfigurationJson.configurations := [getDefaultConfig h];
     ConfigurationJson.env := None;
     ConfigurationJson.version := Some configVersion |}.

(** ** Accessors *)

(** [this.configurationJson.configurations]; reading a property of [null]
    or [undefined] throws. Of the object [{}] the callers that index it or
    loop up to its [length] find no entry, which is what the empty list
    gives them; the callers that use its [length] as a number or call its
    [forEach] look at the slot themselves. *)
Definition Configurations : M (list Configuration.t) :=
  s ← get_state;
  match configurationJson s with
  | Document d => mret (ConfigurationJson.configurations d)
  | DocumentWithoutEntries _ _ => mret []
  | _ => throw TypeError
  end.

(** [get CurrentConfiguration()] *)
Definition CurrentConfiguration : M (option Configuration.t) :=
  l ← Configurations;
  s ← get_state;
  mret (array_get l (currentConfigurationIndex s)).

(** [get CurrentConfigurationProvider()]; reading a property of the
    [undefined] current configuration throws. *)
Definition CurrentConfigurationProvider (h : Host) : M (option string) :=
  configuration ← CurrentConfiguration;
  match configuration with
  | Some c =>
      if truthy (Configuration.configurationProvider c)
      then mret (Configuration.configurationProvider c)
      else mret (CppSettings.defaultConfigurationProvider (settings h))
  | None => throw TypeError
  end.

(** Run [f], which rewrites entries of [configurations], on the document
    held in [configurationJson]; without entries there is nothing to
    rewrite. *)
Definition update_document (f : ConfigurationJson.t -> ConfigurationJson.t) : M unit :=
  s ← get_state;
  match configurationJson s with
  | Document d => modify (set_configurationJson (Document (f d)))
  | DocumentWithoutEntries _ _ => mret tt
  | _ => throw TypeError
  end.

(** ** [getConfigIndexForPlatform(config)]

    The loop runs [i] up to the length of [this.configurationJson] and reads
    the names from the argument [config]; reading [name] of a missing entry
    throws. When the store holds the document without entries, the length
    is [undefined], the loop does not run and the result is
    [undefined - 1]. *)
Fixpoint getConfigIndexForPlatform_loop (plat : string) (config : list Configuration.t)
    (remaining : nat) (i : nat) : Completion (option nat) :=
  match remaining with
  | O => Normal None
  | S remaining' =>
      match config !! i with
      | None => Throw TypeError
      | Some c =>
          if String.eqb (Configuration.name c) plat then Normal (Some i)
          else getConfigIndexForPlatform_loop plat config remaining' (S i)
      end
  end.

Definition getConfigIndexForPlatform (h : Host) (config : ConfigurationJson.t) : M Z :=
  let plat := platformConfigurationName (platform h) in
  s ← get_state;
  match configurationJson s with
  | DocumentWithoutEntries _ _ => not_a_number
  | _ =>
      this ← Configurations;
      match getConfigIndexForPlatform_loop plat (ConfigurationJson.configurations config)
              (length this) 0%nat with
      | Normal (Some i) => mret (Z.of_nat i)
      | Normal None => mret (array_length this - 1)
      | Throw e => throw e
      | NotANumber => not_a_number
      end
  end.

Definition getIntelliSenseModeForPlatform (h : Host) (name : string) : string :=
  if String.eqb name "Linux" then "gcc-x64"
  else if String.eqb name "Mac" then "clang-x64"
  else if String.eqb name "Win32" then "msvc-x64"
  else match platform h with
       | win32 => "msvc-x64"
       | darwin => "clang-x64"
       | other_platform => "gcc-x64"
       end.

(** ** [resetToDefaultSettings(resetIndex)] *)
Definition resetToDefaultSettings (h : Host) (resetIndex : bool) : M unit :=
  let d := getDefaultCppProperties h in
  modify (set_configurationJson (Document d));;
  s ← get_state;
  when (resetIndex
        || out_of_bounds (currentConfigurationIndex s) (ConfigurationJson.configurations d))
       (i ← getConfigIndexForPlatform h d; modify (set_currentConfigurationIndex i));;
  modify (set_configurationIncomplete true).

(** ** [select(index)]

    With the sentinel [index === length] the method hands over to the
    asynchronous edit command, of which only the request is recorded. No
    index is the [undefined] length of the document without entries. *)
Definition select (index : Z) : M unit :=
  s ← get_state;
  match configurationJson s with
  | DocumentWithoutEntries _ _ =>
      modify (set_currentConfigurationIndex index);;
      modify (add_effect (FireSelectionChanged index))
  | _ =>
      l ← Configurations;
      if index =? array_length l then modify (add_effect EditConfigurationsRequested)
      else
        modify (set_currentConfigurationIndex index);;
        modify (add_effect (FireSelectionChanged index))
  end.

(** ** [applyDefaultIncludePathsAndFrameworks()] *)

(** [isUnset]: the default of a "default" setting is [null]. *)
Definition isUnset {A} (input : option A) : bool :=
  match input with None => true | Some _ => false end.

(** Truthiness of a value that is an array or object when it is there. *)
Definition present {A} (input : option A) : bool :=
  match input with None => false | Some _ => true end.

(** Whether the body executes at least one assignment to a property of
    [configuration]; the conditions do not depend on the configuration. *)
Definition applyDefaults_assigns (h : Host) (s : CppProperties) : bool :=
  let st := settings h in
  isUnset (CppSettings.defaultIncludePath st)
  || isUnset (CppSettings.defaultDefines st)
  || (isUnset (CppSettings.defaultMacFrameworkPath st) && bool_decide (platform h = darwin))
  || (isUnset (CppSettings.defaultWindowsSdkVersion st)
      && truthy (defaultWindowsSdkVersion s) && bool_decide (platform h = win32))
  || (isUnset (CppSettings.defaultCompilerPath st) && truthy (defaultCompilerPath s))
  || (isUnset (CppSettings.defaultCStandard st) && truthy (defaultCStandard s))
  || (isUnset (CppSettings.defaultCppStandard st) && truthy (defaultCppStandard s))
  || isUnset (CppSettings.defaultIntelliSenseMode st).

(** The assignments of the body, each under its condition. *)
Definition applyDefaults_to (h : Host) (s : CppProperties) (c : Configuration.t)
    : Configuration.t :=
  let st := settings h in
  let rootFolder :=
    if useRecursiveIncludes h then "${workspaceFolder}/**" else "${workspaceFolder}" in
  {| Configuration.name := Configuration.name c;
     Configuration.includePath :=
       if isUnset (CppSettings.defaultIncludePath st)
       then Some ([rootFolder] ++ vcpkgIncludes s) else Configuration.includePath c;
     Configuration.defines :=
       if isUnset (CppSettings.defaultDefines st)
       then Some (if bool_decide (platform h = win32)
                  then ["_DEBUG"; "UNICODE"; "_UNICODE"] else [])
       else Configuration.defines c;
     Configuration.macFrameworkPath :=
       if isUnset (CppSettings.defaultMacFrameworkPath st) && bool_decide (platform h = darwin)
       then defaultFrameworks s else Configuration.macFrameworkPath c;
     Configuration.windowsSdkVersion :=
       if isUnset (CppSettings.defaultWindowsSdkVersion st)
          && truthy (defaultWindowsSdkVersion s) && bool_decide (platform h = win32)
       then defaultWindowsSdkVersion s else Configuration.windowsSdkVersion c;
     Configuration.compilerPath :=
       if isUnset (CppSettings.defaultCompilerPath st) && truthy (defaultCompilerPath s)
       then defaultCompilerPath s else Configuration.compilerPath c;
     Configuration.cStandard :=
       if isUnset (CppSettings.defaultCStandard st) && truthy (defaultCStandard s)
       then defaultCStandard s else Configuration.cStandard c;
     Configuration.cppStandard :=
       if isUnset (CppSettings.defaultCppStandard st) && truthy (defaultCppStandard s)
       then defaultCppStandard s else Configuration.cppStandard c;
     Configuration.intelliSenseMode :=
       if isUnset (CppSettings.defaultIntelliSenseMode st)
       then defaultIntelliSenseMode s else Configuration.intelliSenseMode c;
     Configuration.compileCommands := Configuration.compileCommands c;
     Configuration.forcedInclude := Configuration.forcedInclude c;
     Configuration.configurationProvider := Configuration.configurationProvider c;
     Configuration.browse := Configuration.browse c |}.

(** The object [configuration] is the entry of the array itself: assigning
    to it updates the document, and assigning to [undefined] throws. *)
Definition applyDefaultIncludePathsAndFrameworks (h : Host) : M unit :=
  s ← get_state;
  if configurationIncomplete s && present (defaultIncludes s) && present (defaultFrameworks s)
     && vcpkgPathReady s
  then
    configuration ← CurrentConfiguration;
    match configuration with
    | Some c =>
        update_document (fun d =>
          ConfigurationJson.set_configurations
            (<[Z.to_nat (currentConfigurationIndex s) := applyDefaults_to h s c]>
               (ConfigurationJson.configurations d)) d);;
        modify (set_configurationIncomplete false)
    | None =>
        if applyDefaults_assigns h s then throw TypeError
        else modify (set_configurationIncomplete false)
    end
  else mret tt.

(** ** Variable resolution and the per-property merge *)

(** [get ExtendedEnvironment()] *)
Definition ExtendedEnvironment (h : Host) : M Environment :=
  s ← get_state;
  match configurationJson s with
  | Document d =>
      let result : Environment := default ∅ (ConfigurationJson.env d) in
      mret (<["workspaceFolderBasename" := EnvString (workspaceFolderBasename h)]> result)
  | DocumentWithoutEntries env _ =>
      let result : Environment := default ∅ env in
      mret (<["workspaceFolderBasename" := EnvString (workspaceFolderBasename h)]> result)
  | _ => throw TypeError
  end.

(** [resolveDefaults(entries, defaultValue)]: the [forEach] with its
    accumulator [result]. *)
Definition resolveDefaults (entries : list string) (defaultValue : option (list string))
    : list string :=
  foldl (fun result entry =>
           if String.eqb entry "${default}" then
             match defaultValue with
             | Some d => result ++ d
             | None => result
             end
           else result ++ [entry])
        [] entries.

(** [resolveAndSplit(paths, defaultValue, env)] *)
Definition resolveAndSplit (h : Host) (paths : option (list string))
    (defaultValue : option (list string)) (env : Environment) : list string :=
  match paths with
  | Some paths =>
      foldl (fun result entry =>
               let entries :=
                 filter (fun e => e ≠ "")
                        (split_semicolon (util_resolveVariables h (Some entry) env)) in
               let entries := resolveDefaults entries defaultValue in
               result ++ entries)
            [] paths
  | None => []
  end.

(** [resolveVariables(input, defaultValue, env)] on a string property. *)
Definition resolveVariables (h : Host) (input defaultValue : option string)
    (env : Environment) : string :=
  let input :=
    match input with
    | None => defaultValue
    | Some i => if String.eqb i "${default}" then defaultValue else input
    end in
  util_resolveVariables h input env.

(** [updateConfiguration] at its three overloads: arrays of strings,
    strings, and the flag that is a boolean or a string. *)
Definition updateConfiguration_array (h : Host) (property defaultValue : option (list string))
    (env : Environment) : option (list string) :=
  match property, defaultValue with
  | Some _, _ => Some (resolveAndSplit h property defaultValue env)
  | None, Some _ => Some (resolveAndSplit h defaultValue (Some []) env)
  | None, None => property
  end.

Definition updateConfiguration_string (h : Host) (property defaultValue : option string)
    (env : Environment) : option string :=
  if present property || present defaultValue
  then Some (resolveVariables h property defaultValue env)
  else property.

Definition updateConfiguration_flag (h : Host) (property : option (bool + string))
    (defaultValue : option bool) (env : Environment) : option (bool + string) :=
  match property with
  | Some (inr i) =>
      if String.eqb i "${default}" then
        match defaultValue with
        | Some b => Some (inl b)
        | None => Some (inr (util_resolveVariables h None env))
        end
      else Some (inr (util_resolveVariables h (Some i) env))
  | Some (inl b) => Some (inl b)
  | None =>
      match defaultValue with
      | Some b => Some (inl b)
      | None => None
      end
  end.

(** The strings matched by the anchored regular expression of the browse
    path test: the variable [workspaceRoot] or [workspaceFolder] in braces
    after a dollar sign, then nothing, a backslash, a backslash and two
    stars, a slash, or a slash and two stars. *)
Definition workspaceFolderForms : list string :=
  [ "${workspaceRoot}"; "${workspaceRoot}\"; "${workspaceRoot}\**";
    "${workspaceRoot}/"; "${workspaceRoot}/**";
    "${workspaceFolder}"; "${workspaceFolder}\"; "${workspaceFolder}\**";
    "${workspaceFolder}/"; "${workspaceFolder}/**" ].

(** One turn of the loop of [updateServerOnFolderSettingsChange]. *)
Definition updateServer_configuration (h : Host) (env : Environment) (c : Configuration.t)
    : Configuration.t :=
  let st := settings h in
  let includePath :=
    updateConfiguration_array h (Configuration.includePath c) (CppSettings.defaultIncludePath st) env in
  let browse := default Browse.empty (Configuration.browse c) in
  let browsePath :=
    match Browse.path browse with
    | None =>
        match CppSettings.defaultBrowsePath st with
        | Some d => Some d
        | None =>
            match includePath with
            | Some ip =>
                if forallb (fun value => bool_decide (value ∉ workspaceFolderForms)) ip
                then Some (ip ++ ["${workspaceFolder}"]) else Some ip
            | None => None
            end
        end
    | Some p => updateConfiguration_array h (Some p) (CppSettings.defaultBrowsePath st) env
    end in
  {| Configuration.name := Configuration.name c;
     Configuration.includePath := includePath;
     Configuration.defines :=
       updateConfiguration_array h (Configuration.defines c) (CppSettings.defaultDefines st) env;
     Configuration.macFrameworkPath :=
       updateConfiguration_array h (Configuration.macFrameworkPath c)
         (CppSettings.defaultMacFrameworkPath st) env;
     Configuration.windowsSdkVersion :=
       updateConfiguration_string h (Configuration.windowsSdkVersion c)
         (CppSettings.defaultWindowsSdkVersion st) env;
     Configuration.forcedInclude :=
       updateConfiguration_array h (Configuration.forcedInclude c)
         (CppSettings.defaultForcedInclude st) env;
     Configuration.compileCommands :=
       updateConfiguration_string h (Configuration.compileCommands c)
         (CppSettings.defaultCompileCommands st) env;
     Configuration.compilerPath :=
       updateConfiguration_string h (Configuration.compilerPath c)
         (CppSettings.defaultCompilerPath st) env;
     Configuration.cStandard :=
       updateConfiguration_string h (Configuration.cStandard c)
         (CppSettings.defaultCStandard st) env;
     Configuration.cppStandard :=
       updateConfiguration_string h (Configuration.cppStandard c)
         (CppSettings.defaultCppStandard st) env;
     Configuration.intelliSenseMode :=
       updateConfiguration_string h (Configuration.intelliSenseMode c)
         (CppSettings.defaultIntelliSenseMode st) env;
     Configuration.configurationProvider :=
       updateConfiguration_string h (Configuration.configurationProvider c)
         (CppSettings.defaultConfigurationProvider st) env;
     Configuration.browse :=
       Some {| Browse.path := browsePath;
               Browse.limitSymbolsToIncludedHeaders :=
                 updateConfiguration_flag h (Browse.limitSymbolsToIncludedHeaders browse)
                   (CppSettings.defaultLimitSymbolsToIncludedHeaders st) env;
               Browse.databaseFilename :=
                 updateConfiguration_string h (Browse.databaseFilename browse)
                   (CppSettings.defaultDatabaseFilename st) env |} |}.

(** The loop over the [Set] of paths inside the [try]: a watcher for every
    path until [fs.watch] throws, which ends the loop; the [catch] does
    nothing. *)
Fixpoint watchEach (h : Host) (filePaths : list string) : list string :=
  match filePaths with
  | [] => []
  | path :: rest => if fs_watch h path then path :: watchEach h rest else []
  end.

(** [updateCompileCommandsFileWatchers()]: the watchers there are get
    closed, and [WatchCompileCommands] tells the files watched afterwards.
    [configurations.forEach], outside of the [try], throws when the store
    has no document and on the document without entries. *)
Definition updateCompileCommandsFileWatchers (h : Host) : M unit :=
  s ← get_state;
  match configurationJson s with
  | Document d =>
      let existing :=
        omap (fun c => match Configuration.compileCommands c with
                       | Some f => if fs_existsSync h f then Some f else None
                       | None => None
                       end) (ConfigurationJson.configurations d) in
      modify (add_effect (WatchCompileCommands (watchEach h (set_of_added existing))))
  | _ =>
      modify (add_effect (WatchCompileCommands []));;
      throw TypeError
  end.

Definition updateServerOnFolderSettingsChange (h : Host) : M unit :=
  env ← ExtendedEnvironment h;
  update_document (fun d =>
    ConfigurationJson.set_configurations
      (updateServer_configuration h env <$> ConfigurationJson.configurations d) d);;
  updateCompileCommandsFileWatchers h;;
  s ← get_state;
  if negb (configurationIncomplete s) then
    l ← Configurations;
    modify (add_effect (FireConfigurationsChanged l))
  else mret tt.

(** ** Version migration *)

Definition updateToVersion2 (d : ConfigurationJson.t) : ConfigurationJson.t :=
  ConfigurationJson.set_version (Some 2) d.

Definition updateToVersion3_configuration (h : Host) (config : Configuration.t)
    : Configuration.t :=
  let name := Configuration.name config in
  if String.eqb name "Mac"
     || (bool_decide (platform h = darwin)
         && negb (String.eqb name "Win32") && negb (String.eqb name "Linux"))
  then
    match Configuration.macFrameworkPath config with
    | None =>
        Configuration.set_macFrameworkPath
          (Some ["/System/Library/Frameworks"; "/Library/Frameworks"]) config
    | Some _ => config
    end
  else config.

Definition updateToVersion3 (h : Host) (d : ConfigurationJson.t) : ConfigurationJson.t :=
  ConfigurationJson.set_configurations
    (updateToVersion3_configuration h <$> ConfigurationJson.configurations d)
    (ConfigurationJson.set_version (Some 3) d).

(** [this] gives the compiler defaults the object holds. *)
Definition updateToVersion4_configuration (h : Host) (this : CppProperties)
    (config : Configuration.t) : Configuration.t :=
  let st := settings h in
  {| Configuration.name := Configuration.name config;
     Configuration.intelliSenseMode :=
       if isUnset (Configuration.intelliSenseMode config)
          && negb (truthy (CppSettings.defaultIntelliSenseMode st))
       then Some (getIntelliSenseModeForPlatform h (Configuration.name config))
       else Configuration.intelliSenseMode config;
     Configuration.compilerPath :=
       if isUnset (Configuration.compilerPath config)
          && truthy (defaultCompilerPath this)
          && negb (truthy (Configuration.compileCommands config))
          && negb (truthy (CppSettings.defaultCompilerPath st))
       then defaultCompilerPath this else Configuration.compilerPath config;
     Configuration.cStandard :=
       if negb (truthy (Configuration.cStandard config))
          && truthy (defaultCStandard this)
          && negb (truthy (CppSettings.defaultCStandard st))
       then defaultCStandard this else Configuration.cStandard config;
     Configuration.cppStandard :=
       if negb (truthy (Configuration.cppStandard config))
          && truthy (defaultCppStandard this)
          && negb (truthy (CppSettings.defaultCppStandard st))
       then defaultCppStandard this else Configuration.cppStandard config;
     Configuration.includePath := Configuration.includePath config;
     Configuration.macFrameworkPath := Configuration.macFrameworkPath config;
     Configuration.windowsSdkVersion := Configuration.windowsSdkVersion config;
     Configuration.defines := Configuration.defines config;
     Configuration.compileCommands := Configuration.compileCommands config;
     Configuration.forcedInclude := Configuration.forcedInclude config;
     Configuration.configurationProvider := Configuration.configurationProvider config;
     Configuration.browse := Configuration.browse config |}.

Definition updateToVersion4 (h : Host) (this : CppProperties) (d : ConfigurationJson.t)
    : ConfigurationJson.t :=
  ConfigurationJson.set_configurations
    (updateToVersion4_configuration h this <$> ConfigurationJson.configurations d)
    (ConfigurationJson.set_version (Some 4) d).

(** The block under [version !== configVersion] of [parsePropertiesFile]:
    the document afterwards, and whether the unknown-version message is
    shown. *)
Definition migrate (h : Host) (this : CppProperties) (d : ConfigurationJson.t)
    : ConfigurationJson.t * bool :=
  let d := if bool_decide (ConfigurationJson.version d = None) then updateToVersion2 d else d in
  let d := if bool_decide (ConfigurationJson.version d = Some 2) then updateToVersion3 h d else d in
  if bool_decide (ConfigurationJson.version d = Some 3) then (updateToVersion4 h this d, false)
  else (ConfigurationJson.set_version (Some configVersion) d, true).

(** ** [parsePropertiesFile()] *)

(** The loop that passes every [configurationProvider] through [checkId]:
    whether it changed one, and the configurations afterwards. *)
Fixpoint checkProviderIds (providers : CustomConfigurationProviderCollection.Providers)
    (l : list Configuration.t) : bool * list Configuration.t :=
  match l with
  | [] => (false, [])
  | c :: rest =>
      let newId :=
        CustomConfigurationProviderCollection.checkId providers
          (Configuration.configurationProvider c) in
      let '(dirty, rest') := checkProviderIds providers rest in
      if bool_decide (newId ≠ Configuration.configurationProvider c)
      then (true, Configuration.set_configurationProvider newId c :: rest')
      else (dirty, c :: rest')
  end.

(** The four [delete] statements on [env]. *)
Definition removeDisallowedOverrides (e : Environment) : Environment :=
  delete "default"
    (delete "workspaceFolderBasename"
       (delete "workspaceFolder" (delete "workspaceRoot" e))).

(** "Try to use the same configuration as before the change": the guarded
    loop that looks in the new configurations for the name of the current
    one. *)
Definition keepConfigurationByName (configurations : list Configuration.t) : M unit :=
  this ← get_state;
  match configurationIncomplete this, configurationJson this with
  | false, Document old =>
      match array_get (ConfigurationJson.configurations old)
              (currentConfigurationIndex this) with
      | Some current =>
          match list_find (fun c => Configuration.name c = Configuration.name current)
                  configurations with
          | Some (i, _) => modify (set_currentConfigurationIndex (Z.of_nat i))
          | None => mret tt
          end
      | None => mret tt
      end
  | _, _ => mret tt
  end.

(** The index test that follows an assignment of the document: an index
    out of bounds becomes the index for the platform. *)
Definition fixIndexOutOfBounds (h : Host) (d : ConfigurationJson.t) : M unit :=
  s ← get_state;
  when (out_of_bounds (currentConfigurationIndex s) (ConfigurationJson.configurations d))
       (i ← getConfigIndexForPlatform h d; modify (set_currentConfigurationIndex i)).

(** The loop over [checkId]; returns [dirty]. *)
Definition correctProviderIds (h : Host) : M bool :=
  l ← Configurations;
  let '(dirty, checked) := checkProviderIds (providerCollection h) l in
  update_document (ConfigurationJson.set_configurations checked);;
  mret dirty.

(** The block under [version !== configVersion]; returns [dirty]. *)
Definition migrateDocument (h : Host) (dirty : bool) : M bool :=
  s ← get_state;
  match configurationJson s with
  | Document d =>
      if bool_decide (ConfigurationJson.version d ≠ Some configVersion) then
        let '(d', unknown) := migrate h s d in
        modify (set_configurationJson (Document d'));;
        when unknown (modify (add_effect (ShowErrorMessage UnknownVersionNumber)));;
        mret true
      else mret dirty
  | _ => throw TypeError
  end.

(** The write under [if (dirty)], with its own [try] and [catch]. *)
Definition writeIfDirty (h : Host) (file : string) (dirty : bool) : M unit :=
  if dirty then
    s ← get_state;
    match configurationJson s with
    | Document d =>
        if writeSucceeds h then modify (add_effect (WriteFileSync file d))
        else modify (add_effect (ShowWarningMessage (UpdateFailed file)))
    | _ => throw TypeError
    end
  else mret tt.

(** What follows the test of [newJson], for the configurations it has. *)
Definition acceptParsed (h : Host) (file : string) (newJson : ParsedJson.t)
    (configurations : list Configuration.t) : M unit :=
  let newDocument :=
    {| ConfigurationJson.configurations := configurations;
       ConfigurationJson.env := ParsedJson.env newJson;
       ConfigurationJson.version := ParsedJson.version newJson |} in
  keepConfigurationByName configurations;;
  modify (set_configurationJson (Document newDocument));;
  fixIndexOutOfBounds h newDocument;;
  dirty ← correctProviderIds h;
  (* Remove disallowed variable overrides *)
  update_document (fun d =>
    ConfigurationJson.set_env (removeDisallowedOverrides <$> ConfigurationJson.env d) d);;
  modify (set_configurationIncomplete false);;
  dirty ← migrateDocument h dirty;
  writeIfDirty h file dirty.

(** What follows the test of [newJson] when its [configurations] is [{}],
    which the test lets through: [length] is [undefined], so the loops over
    the entries do not run, [dirty] stays false up to the version test, and
    of the tests of the index only [index < 0] can hold. *)
Definition fixIndexWithoutEntries : M unit :=
  s ← get_state;
  if currentConfigurationIndex s <? 0 then not_a_number else mret tt.

Definition migrateWithoutEntries (dirty : bool) : M bool :=
  s ← get_state;
  match configurationJson s with
  | DocumentWithoutEntries env version =>
      if bool_decide (version ≠ Some configVersion) then
        let version := if bool_decide (version = None) then Some 2 else version in
        let version := if bool_decide (version = Some 2) then Some 3 else version in
        modify (set_configurationJson (DocumentWithoutEntries env (Some configVersion)));;
        when (negb (bool_decide (version = Some 3)))
             (modify (add_effect (ShowErrorMessage UnknownVersionNumber)));;
        mret true
      else mret dirty
  | _ => throw TypeError
  end.

Definition writeWithoutEntriesIfDirty (h : Host) (file : string) (dirty : bool) : M unit :=
  if dirty then
    s ← get_state;
    match configurationJson s with
    | DocumentWithoutEntries env version =>
        if writeSucceeds h then modify (add_effect (WriteFileSyncWithoutEntries file env version))
        else modify (add_effect (ShowWarningMessage (UpdateFailed file)))
    | _ => throw TypeError
    end
  else mret tt.

Definition acceptWithoutEntries (h : Host) (file : string) (newJson : ParsedJson.t) : M unit :=
  modify (set_configurationJson
            (DocumentWithoutEntries (ParsedJson.env newJson) (ParsedJson.version newJson)));;
  fixIndexWithoutEntries;;
  (* Remove disallowed variable overrides *)
  modify (set_configurationJson
            (DocumentWithoutEntries (removeDisallowedOverrides <$> ParsedJson.env newJson)
               (ParsedJson.version newJson)));;
  modify (set_configurationIncomplete false);;
  dirty ← migrateWithoutEntries false;
  writeWithoutEntriesIfDirty h file dirty.

(** The body of the [try]. *)
Definition parsePropertiesFile_try (h : Host) : M unit :=
  this ← get_state;
  match propertiesFile this with
  | None => throw TypeError
  | Some file =>
      match readPropertiesFile h with
      | ReadThrows m => throw (ReadError m)
      | ReadEmptyString => mret tt
      | ParseThrows m => throw (SyntaxError m)
      | Parsed None => throw InvalidConfigurationFile
      | Parsed (Some newJson) =>
          match ParsedJson.configurations newJson with
          | Falsy | ArrayOf [] => throw InvalidConfigurationFile
          | ArrayOf configurations => acceptParsed h file newJson configurations
          | ObjectWithoutEntries => acceptWithoutEntries h file newJson
          end
      end
  end.

(** The [catch] shows the message, which names the file, and throws again;
    without a file, reading its path throws inside the handler. *)
Definition parsePropertiesFile (h : Host) : M unit :=
  try_catch (parsePropertiesFile_try h)
    (fun err =>
       s ← get_state;
       match propertiesFile s with
       | Some file =>
           modify (add_effect (ShowErrorMessage (FailedToParse file err)));;
           throw err
       | None => throw TypeError
       end).

(** ** [handleConfigurationChange()] *)
Definition handleConfigurationChange (h : Host) : M unit :=
  this ← get_state;
  match propertiesFile this with
  | Some _ =>
      parsePropertiesFile h;;
      s ← get_state;
      match configurationJson s with
      | JsUndefined => mret tt
      | JsNull => throw TypeError
      | Document d => fixIndexOutOfBounds h d
      | DocumentWithoutEntries _ _ => fixIndexWithoutEntries
      end
  | None => mret tt
  end;;
  s ← get_state;
  match configurationJson s with
  | JsUndefined => resetToDefaultSettings h true
  | _ => mret tt
  end;;
  applyDefaultIncludePathsAndFrameworks h;;
  updateServerOnFolderSettingsChange h.

(** ** Construction and the arrival of compiler defaults *)

(** The synchronous part of the constructor that touches the fields above;
    the watcher callbacks it registers, and the asynchronous scan for vcpkg
    directories it starts, act later. *)
Definition constructor (h : Host) (persistedIndex : Z) : Completion unit * CppProperties :=
  (match configFileExists h with
   | Some file => modify (set_propertiesFile (Some file));; parsePropertiesFile h
   | None => mret tt
   end;;
   s ← get_state;
   match configurationJson s with
   | Document _ | DocumentWithoutEntries _ _ => mret tt
   | _ => resetToDefaultSettings h (currentConfigurationIndex s =? -1)
   end) (initial persistedIndex).

(** [set CompilerDefaults(compilerDefaults)] *)
Definition set_CompilerDefaults (h : Host) (compilerDefaults : CompilerDefaults.t) : M unit :=
  modify (store_CompilerDefaults compilerDefaults);;
  handleConfigurationChange h.

(** ** The callbacks that start a reconciliation *)

Definition set_vcpkg (includes : list string) (ready : bool) (s : CppProperties)
    : CppProperties :=
  {| propertiesFile := propertiesFile s; configurationJson := configurationJson s;
     currentConfigurationIndex := currentConfigurationIndex s;
     defaultCompilerPath := defaultCompilerPath s; defaultCStandard := defaultCStandard s;
     defaultCppStandard := defaultCppStandard s; defaultIncludes := defaultIncludes s;
     defaultFrameworks := defaultFrameworks s;
     defaultWindowsSdkVersion := defaultWindowsSdkVersion s;
     vcpkgIncludes := includes; vcpkgPathReady := ready;
     defaultIntelliSenseMode := defaultIntelliSenseMode s;
     configurationIncomplete := configurationIncomplete s; effects := effects s |}.

(** The callbacks of the file watcher the constructor registers. *)
Definition onDidCreate (h : Host) (uri : string) : M unit :=
  modify (set_propertiesFile (Some uri));;
  handleConfigurationChange h.

Definition onDidDelete (h : Host) : M unit :=
  modify (set_propertiesFile None);;
  resetToDefaultSettings h true;;
  handleConfigurationChange h.

Definition onDidChange (h : Host) : M unit := handleConfigurationChange h.

(** [onDidChangeSettings()] *)
Definition onDidChangeSettings (h : Host) : M unit :=
  s ← get_state;
  match propertiesFile s with
  | None =>
      resetToDefaultSettings h true;;
      handleConfigurationChange h
  | Some _ =>
      if negb (configurationIncomplete s) then handleConfigurationChange h else mret tt
  end.

(** The end of [buildVcpkgIncludePath()]: [found] are the include
    directories the scan pushed before it finished or failed. *)
Definition buildVcpkgIncludePath (h : Host) (found : list string) : M unit :=
  s ← get_state;
  modify (set_vcpkg (vcpkgIncludes s ++ found) true);;
  handleConfigurationChange h.

(** What [fs.stat] tells the periodic check: an error, or whether the
    modification time is later than the last reconciliation. *)
Inductive StatResult : Type :=
| StatFails
| StatModified (later : bool).

(** The callback of [checkCppProperties()]; [file] is the path of the
    properties file in the configuration folder. *)
Definition checkCppProperties (h : Host) (file : string) (stat : StatResult) : M unit :=
  match stat with
  | StatFails =>
      s ← get_state;
      match propertiesFile s with
      | Some _ =>
          modify (set_propertiesFile None);;
          resetToDefaultSettings h true;;
          handleConfigurationChange h
      | None => mret tt
      end
  | StatModified true =>
      s ← get_state;
      match propertiesFile s with
      | None => modify (set_propertiesFile (Some file))
      | Some _ => mret tt
      end;;
      handleConfigurationChange h
  | StatModified false => mret tt
  end.

(** [get ConfigurationNames()]; [forEach] is not a function of the
    document without entries. *)
Definition ConfigurationNames : M (list string) :=
  s ← get_state;
  match configurationJson s with
  | DocumentWithoutEntries _ _ => throw TypeError
  | _ =>
      l ← Configurations;
      mret (foldl (fun result config => result ++ [Configuration.name config]) [] l)
  end.

(** * Vocabulary of the statements

    The definitions below are not taken from the source: they name what the
    properties speak about. *)

Module Wrapper := CustomProviderWrapper.
Module Registry := CustomConfigurationProviderCollection.
Module Provider := CustomConfigurationProvider.

(** Every registered wrapper passed the validity check of [add] and sits
    under its own identity. *)
Definition registered_valid (r : Registry.Providers) : Prop :=
  ∀ k w, r !! k = Some w → Wrapper.isValid w = true ∧ Wrapper.get_extensionId w = k.

(** A non-legacy wrapper whose display name is [id]. *)
Definition name_match (id : option string) (w : Wrapper.t) : Prop :=
  Wrapper.get_name w = id ∧ Wrapper.version w ≠ Version.v0.

(** What the callback of [checkId] lets into [found]. *)
Definition collected (id : option string) (w : Wrapper.t) : Prop :=
  Wrapper.get_extensionId w ≠ id ∧ name_match id w.

#[global] Instance name_match_dec id w : Decision (name_match id w).
Proof. unfold name_match. apply _. Defined.

#[global] Instance collected_dec id w : Decision (collected id w).
Proof. unfold collected. apply _. Defined.

(** Sample providers: two legacy ones that share the name "Foo", two that
    implement version 1 under the identity "ext.foo", and one that carries
    an identity but registers through the legacy interface. *)
Definition legacy_provider (ref : nat) (name : string) : Provider.t :=
  {| Provider.ref := ref; Provider.name := Some name; Provider.extensionId := None;
     Provider.canProvideConfiguration := true; Provider.provideConfigurations := true;
     Provider.dispose := false; Provider.canProvideBrowseConfiguration := false;
     Provider.provideBrowseConfiguration := false |}.

Definition identified_provider (ref : nat) (name id : string) : Provider.t :=
  {| Provider.ref := ref; Provider.name := Some name; Provider.extensionId := Some id;
     Provider.canProvideConfiguration := true; Provider.provideConfigurations := true;
     Provider.dispose := true; Provider.canProvideBrowseConfiguration := false;
     Provider.provideBrowseConfiguration := false |}.

(** The registry after a version-1 provider named "Foo" registered under
    the identity "ext.foo". *)
Definition registry_with_Foo : Registry.Providers :=
  <[Some "ext.foo" := Wrapper.new (identified_provider 1 "Foo" "ext.foo") Version.v1]> ∅.

(** Sample collaborators: no setting is set, nothing is registered, and
    the resolver finds no variable to replace. *)
Definition unset_settings : CppSettings.t :=
  {| CppSettings.intelliSenseEngine := "Default";
     CppSettings.defaultIncludePath := None; CppSettings.defaultDefines := None;
     CppSettings.defaultMacFrameworkPath := None;
     CppSettings.defaultWindowsSdkVersion := None;
     CppSettings.defaultCompileCommands := None; CppSettings.defaultForcedInclude := None;
     CppSettings.defaultIntelliSenseMode := None; CppSettings.defaultCompilerPath := None;
     CppSettings.defaultCStandard := None; CppSettings.defaultCppStandard := None;
     CppSettings.defaultConfigurationProvider := None; CppSettings.defaultBrowsePath := None;
     CppSettings.defaultDatabaseFilename := None;
     CppSettings.defaultLimitSymbolsToIncludedHeaders := None |}.

Definition sample_host (file : option string) (read : ReadResult) : Host :=
  {| platform := other_platform; settings := unset_settings; providerCollection := ∅;
     useRecursiveIncludes := true; workspaceFolderBasename := "project";
     util_resolveVariables := fun input _ => default "" input;
     fs_existsSync := fun _ => false; fs_watch := fun _ => true;
     configFileExists := file; readPropertiesFile := read; writeSucceeds := true |}.

(** [returns m s Q]: from [s] the method [m] returns normally, with a
    value and a state that satisfy [Q]. *)
Definition returns {A} (m : M A) (s : CppProperties) (Q : A → CppProperties → Prop) : Prop :=
  ∃ a s', m s = (Normal a, s') ∧ Q a s'.



(** Sample files: a document that lists the given names, the empty
    document of the failure scenario, and the state of a store constructed
    over a file that lists "A", "Linux" and "B" (on a platform whose
    configuration is "Linux", so that index 1 is selected). *)
Definition sample_file : string := ".vscode/c_cpp_properties.json".

Definition parsed_with (configurationNames : list string) : ParsedJson.t :=
  {| ParsedJson.configurations := ArrayOf (Configuration.named <$> configurationNames);
     ParsedJson.env := None; ParsedJson.version := Some 4 |}.

Definition empty_document : ParsedJson.t :=
  {| ParsedJson.configurations := ArrayOf []; ParsedJson.env := None;
     ParsedJson.version := Some 4 |}.

(** The value of the text [{"configurations": {}, "version": 4}]: its
    [configurations] is an object, which has no [length] and no entries. *)
Definition object_without_entries : ParsedJson.t :=
  {| ParsedJson.configurations := ObjectWithoutEntries; ParsedJson.env := None;
     ParsedJson.version := Some 4 |}.

Definition loaded_state : CppProperties :=
  (constructor (sample_host (Some sample_file) (Parsed (Some (parsed_with ["A"; "Linux"; "B"]))))
     (-1)).2.

(** Compiler defaults as the detection reports them for gcc. *)
Definition gcc_defaults : CompilerDefaults.t :=
  {| CompilerDefaults.compilerPath := "/usr/bin/gcc";
     CompilerDefaults.cStandard := "c11"; CompilerDefaults.cppStandard := "c++17";
     CompilerDefaults.includes := ["/usr/include"]; CompilerDefaults.frameworks := [];
     CompilerDefaults.windowsSdkVersion := ""; CompilerDefaults.intelliSenseMode := "gcc-x64" |}.

(** The names of the configurations of a document, in order. *)
Definition names (l : list Configuration.t) : list string := Configuration.name <$> l.

(** The index of the first configuration that bears the platform name, or
    the last index when there is none. *)
Definition platform_index (h : Host) (l : list Configuration.t) : Z :=
  match list_find (fun c => Configuration.name c = platformConfigurationName (platform h)) l with
  | Some (i, _) => Z.of_nat i
  | None => array_length l - 1
  end.

(** Range normalization of a persisted index against a list. *)
Definition normalized_index (h : Host) (l : list Configuration.t) (index : Z) : Z :=
  if out_of_bounds index l then platform_index h l else index.

(** The selection carried over by name: the first entry of [l] named like
    the configuration selected in [s], when defaulting is complete and [s]
    holds a document with its index in range. *)
Definition same_name_index (s : CppProperties) (l : list Configuration.t) : option Z :=
  match configurationIncomplete s, configurationJson s with
  | false, Document old =>
      current ← array_get (ConfigurationJson.configurations old) (currentConfigurationIndex s);
      '(i, _) ← list_find (fun c => Configuration.name c = Configuration.name current) l;
      Some (Z.of_nat i)
  | _, _ => None
  end.

(** The reads that [parsePropertiesFile] rejects: malformed text, a falsy
    value, no [configurations], or an empty array. *)
Definition rejected_read (r : ReadResult) : bool :=
  match r with
  | ParseThrows _ => true
  | Parsed None => true
  | Parsed (Some j) =>
      match ParsedJson.configurations j with
      | Falsy | ArrayOf [] => true
      | ArrayOf (_ :: _) | ObjectWithoutEntries => false
      end
  | _ => false
  end.

(** The list-property merge in the words of the specification: an entry is
    variable-resolved and split at semicolons into its non-empty pieces,
    a piece that is the default token becomes the default sequence (nothing
    when there is none), any other piece stays, all in input order. *)
Definition expand_default (defaultValue : option (list string)) (piece : string)
    : list string :=
  if String.eqb piece "${default}" then default [] defaultValue else [piece].

Definition resolved_pieces (h : Host) (env : Environment) (entry : string) : list string :=
  filter (fun e => e ≠ "") (split_semicolon (util_resolveVariables h (Some entry) env)).

Definition merged_list (h : Host) (paths : list string)
    (defaultValue : option (list string)) (env : Environment) : list string :=
  entry ← paths; piece ← resolved_pieces h env entry; expand_default defaultValue piece.

(** The steps 2→3 and 3→4 in a row. *)
Definition migrate_2_3_4 (h : Host) (this : CppProperties) (d : ConfigurationJson.t)
    : ConfigurationJson.t :=
  updateToVersion4 h this (updateToVersion3 h d).

(** A call of the registry from outside, and the registry after a sequence
    of calls on a fresh collection. *)
Inductive RegistryCall : Type :=
| CallAdd (engine : string) (p : Provider.t) (v : Version.t)
| CallRemove (p : Provider.t).

Definition after_call (r : Registry.Providers) (c : RegistryCall) : Registry.Providers :=
  match c with
  | CallAdd engine p v => (Registry.add engine p v r).1.2
  | CallRemove p => (Registry.remove p r).1
  end.

Definition after_calls (calls : list RegistryCall) : Registry.Providers :=
  foldl after_call ∅ calls.

(** The names listed by the diagnostic of a rejected registration. *)
Definition missing_properties (m : ConsoleMessage) : list string :=
  match m with
  | ErrorNotRegistered missing => missing
  | _ => []
  end.

(** A provider that implements the version-1 interface but has no
    [dispose]. *)
Definition undisposable_provider (ref : nat) (name id : string) : Provider.t :=
  {| Provider.ref := ref; Provider.name := Some name; Provider.extensionId := Some id;
     Provider.canProvideConfiguration := true; Provider.provideConfigurations := true;
     Provider.dispose := false; Provider.canProvideBrowseConfiguration := false;
     Provider.provideBrowseConfiguration := false |}.

(** Whether a string has a semicolon in it. *)
Fixpoint contains_semicolon (s : string) : bool :=
  match s with
  | EmptyString => false
  | String c rest => Ascii.eqb c ";"%char || contains_semicolon rest
  end.

(** The store holds a document and its index selects one of the
    configurations. *)
Definition well_formed (s : CppProperties) : Prop :=
  ∃ d, configurationJson s = Document d
       ∧ 0 ≤ currentConfigurationIndex s < array_length (ConfigurationJson.configurations d).

(** What the store was told from outside: the properties file, the
    compiler defaults and the vcpkg scan. *)
Definition inputs (s : CppProperties) :=
  (propertiesFile s, defaultCompilerPath s, defaultCStandard s, defaultCppStandard s,
   defaultIncludes s, defaultFrameworks s, defaultWindowsSdkVersion s,
   vcpkgIncludes s, vcpkgPathReady s, defaultIntelliSenseMode s).

(** The condition under which the defaulting pass runs. *)
Definition defaulting_due (s : CppProperties) : bool :=
  configurationIncomplete s && present (defaultIncludes s) && present (defaultFrameworks s)
  && vcpkgPathReady s.

(** The document, the index and the effects of a parse that accepts the
    configurations [confs] of [newJson], read off in one piece. *)
Definition parsed_unmigrated (h : Host) (newJson : ParsedJson.t)
    (confs : list Configuration.t) : ConfigurationJson.t :=
  {| ConfigurationJson.configurations := (checkProviderIds (providerCollection h) confs).2;
     ConfigurationJson.env := removeDisallowedOverrides <$> ParsedJson.env newJson;
     ConfigurationJson.version := ParsedJson.version newJson |}.

Definition parsed_document (h : Host) (this : CppProperties) (newJson : ParsedJson.t)
    (confs : list Configuration.t) : ConfigurationJson.t :=
  if bool_decide (ParsedJson.version newJson ≠ Some configVersion)
  then (migrate h this (parsed_unmigrated h newJson confs)).1
  else parsed_unmigrated h newJson confs.

Definition parsed_index (h : Host) (this : CppProperties) (confs : list Configuration.t) : Z :=
  normalized_index h confs
    (default (currentConfigurationIndex this) (same_name_index this confs)).

Definition parsed_effects (h : Host) (this : CppProperties) (file : string)
    (newJson : ParsedJson.t) (confs : list Configuration.t) : list Effect :=
  let stale := bool_decide (ParsedJson.version newJson ≠ Some configVersion) in
  (if stale && (migrate h this (parsed_unmigrated h newJson confs)).2
   then [ShowErrorMessage UnknownVersionNumber] else [])
  ++ (if (checkProviderIds (providerCollection h) confs).1 || stale
      then [if writeSucceeds h
            then WriteFileSync file (parsed_document h this newJson confs)
            else ShowWarningMessage (UpdateFailed file)]
      else []).



Definition with_write (succeeds : bool) (h : Host) : Host :=
  {| platform := platform h; settings := settings h;
     providerCollection := providerCollection h;
     useRecursiveIncludes := useRecursiveIncludes h;
     workspaceFolderBasename := workspaceFolderBasename h;
     util_resolveVariables := util_resolveVariables h;
     fs_existsSync := fs_existsSync h; fs_watch := fs_watch h;
     configFileExists := configFileExists h;
     readPropertiesFile := readPropertiesFile h; writeSucceeds := succeeds |}.

(** The reserved names of the environment. *)
Definition reserved_variables : list string :=
  ["workspaceRoot"; "workspaceFolder"; "workspaceFolderBasename"; "default"].

(** The environment and the document of [updateServerOnFolderSettingsChange]
    over the document [d], and the files its watcher update keeps. *)
Definition extended_environment (h : Host) (d : ConfigurationJson.t) : Environment :=
  <["workspaceFolderBasename" := EnvString (workspaceFolderBasename h)]>
    (default ∅ (ConfigurationJson.env d)).

Definition resolved_document (h : Host) (d : ConfigurationJson.t) : ConfigurationJson.t :=
  ConfigurationJson.set_configurations
    (updateServer_configuration h (extended_environment h d)
       <$> ConfigurationJson.configurations d) d.

Definition watched_files (h : Host) (l : list Configuration.t) : list string :=
  watchEach h
    (set_of_added
       (omap (fun c => match Configuration.compileCommands c with
                       | Some f => if fs_existsSync h f then Some f else None
                       | None => None
                       end) l)).

(** The document after the defaulting pass, when it is due in [s]. *)
Definition defaulted_document (h : Host) (s : CppProperties) (d : ConfigurationJson.t)
    : ConfigurationJson.t :=
  match array_get (ConfigurationJson.configurations d) (currentConfigurationIndex s) with
  | Some c =>
      if defaulting_due s
      then ConfigurationJson.set_configurations
             (<[Z.to_nat (currentConfigurationIndex s) := applyDefaults_to h s c]>
                (ConfigurationJson.configurations d)) d
      else d
  | None => d
  end.

(** What a reconciliation tells the outside at its end: the watched files,
    and the change event when defaulting is complete. *)
Definition reported (h : Host) (incomplete : bool) (d : ConfigurationJson.t) : list Effect :=
  WatchCompileCommands (watched_files h (ConfigurationJson.configurations d))
  :: (if incomplete then []
      else [FireConfigurationsChanged (ConfigurationJson.configurations d)]).

(** The exception of a read that [parsePropertiesFile] does not accept. *)
Definition failed_read (r : ReadResult) : option Exception :=
  match r with
  | ReadThrows m => Some (ReadError m)
  | ReadEmptyString => None
  | ParseThrows m => Some (SyntaxError m)
  | Parsed None => Some InvalidConfigurationFile
  | Parsed (Some j) =>
      match ParsedJson.configurations j with
      | Falsy | ArrayOf [] => Some InvalidConfigurationFile
      | ArrayOf (_ :: _) | ObjectWithoutEntries => None
      end
  end.

(** The store after an event that resets it to the defaults and
    reconciles, seen from the store [s] before the event. *)
Definition reset_outcome (h : Host) (s s' : CppProperties) : Prop :=
  ∃ d' files,
    propertiesFile s' = None
    ∧ configurationJson s' = Document d'
    ∧ names (ConfigurationJson.configurations d') = [platformConfigurationName (platform h)]
    ∧ currentConfigurationIndex s' = 0
    ∧ (configurationIncomplete s' = false ↔
       present (defaultIncludes s) = true ∧ present (defaultFrameworks s) = true
       ∧ vcpkgPathReady s = true)
    ∧ effects s'
      = effects s
        ++ WatchCompileCommands files
           :: (if configurationIncomplete s' then []
               else [FireConfigurationsChanged (ConfigurationJson.configurations d')]).

(** The configurations for which [updateToVersion3] looks at the
    framework path, and the paths it fills in. *)
Definition mac_configuration (h : Host) (c : Configuration.t) : bool :=
  String.eqb (Configuration.name c) "Mac"
  || (bool_decide (platform h = darwin)
      && negb (String.eqb (Configuration.name c) "Win32")
      && negb (String.eqb (Configuration.name c) "Linux")).

Definition system_frameworks : list string :=
  ["/System/Library/Frameworks"; "/Library/Frameworks"].

(** What a parse that accepts a value whose [configurations] is [{}]
    shows and writes. *)
Definition known_version (version : option Z) : bool :=
  bool_decide (version = None ∨ version = Some 2 ∨ version = Some 3).

Definition effects_without_entries (h : Host) (file : string) (newJson : ParsedJson.t)
    : list Effect :=
  if bool_decide (ParsedJson.version newJson ≠ Some configVersion) then
    (if known_version (ParsedJson.version newJson)
     then [] else [ShowErrorMessage UnknownVersionNumber])
    ++ [if writeSucceeds h
        then WriteFileSyncWithoutEntries file
               (removeDisallowedOverrides <$> ParsedJson.env newJson) (Some configVersion)
        else ShowWarningMessage (UpdateFailed file)]
  else [].





(** * Properties of the wrapper and of the registry *)

Section ProviderRegistry.

Local Open Scope nat_scope.

Implicit Types (p : Provider.t) (w : Wrapper.t) (r : Registry.Providers).
Implicit Types (v : Version.t) (id : option string).

Lemma eqb_engine_enabled (engine : string) :
  engine ≠ "Disabled" → String.eqb engine "Disabled" = false.
Proof. intros Hne. by apply String.eqb_neq. Qed.

(** A valid wrapper has a truthy display name and a truthy identity. *)
Lemma isValid_name w : Wrapper.isValid w = true → truthy (Wrapper.get_name w) = true.
Proof.
  unfold Wrapper.isValid, Wrapper.get_name.
  destruct (truthy (Provider.name (Wrapper.provider w))); [done|].
  simpl. done.
Qed.

Lemma isValid_extensionId w :
  Wrapper.isValid w = true → truthy (Wrapper.get_extensionId w) = true.
Proof.
  intros Hv. pose proof (isValid_name _ Hv) as Hn. revert Hv Hn.
  unfold Wrapper.isValid, Wrapper.get_extensionId, Wrapper.get_name.
  destruct (Wrapper._version w) as [|n]; simpl; [done|].
  intros Hv Hn. rewrite Hn in Hv. simpl in Hv.
  destruct (Provider.canProvideConfiguration (Wrapper.provider w)); simpl in Hv; [|done].
  destruct (Provider.provideConfigurations (Wrapper.provider w)); simpl in Hv; [|done].
  destruct (truthy (Provider.extensionId (Wrapper.provider w))); [done|].
  simpl in Hv. done.
Qed.

(** The version the wrapper ends up with. *)
Lemma new_version_legacy p :
  truthy (Provider.extensionId p) = false →
  Wrapper.version (Wrapper.new p Version.v0) = Version.v0.
Proof. intros He. unfold Wrapper.version, Wrapper.new. simpl. by rewrite He. Qed.

Lemma new_version_later p v :
  Version.v1 ≤ v → Wrapper.version (Wrapper.new p v) = v.
Proof.
  intros Hv. unfold Wrapper.version, Wrapper.new. simpl.
  destruct v as [|v']; [unfold Version.v1 in Hv; lia|].
  by rewrite andb_false_r.
Qed.

(** ** The registry invariant *)

Lemma registered_valid_empty : registered_valid ∅.
Proof. intros k w Hk. by rewrite lookup_empty in Hk. Qed.

Lemma add_registered_valid (engine : string) p v r :
  registered_valid r → registered_valid (Registry.add engine p v r).1.2.
Proof.
  intros Hr. unfold Registry.add.
  destruct (String.eqb engine "Disabled"); [done|].
  destruct (Wrapper.isValid (Wrapper.new p v)) eqn:Hvalid; simpl; [|done].
  match goal with |- context [negb ?b] => destruct b end; simpl; [done|].
  intros k w. rewrite lookup_insert. case_decide as Hk.
  - intros [= <-]. done.
  - apply Hr.
Qed.

Lemma remove_registered_valid p r :
  registered_valid r → registered_valid (Registry.remove p r).1.
Proof.
  intros Hr. unfold Registry.remove.
  destruct (Registry.getId (inr p)) as [i log].
  destruct (r !! Some i) eqn:Hi; simpl; [|done].
  intros k w Hk. apply lookup_delete_Some in Hk as [_ Hk]. by apply Hr.
Qed.

End ProviderRegistry.

(** ** [checkId] does not depend on the order of the visit *)

Section CheckId.

Local Open Scope nat_scope.

Implicit Types (w : Wrapper.t) (r : Registry.Providers) (id : option string).
Implicit Types (l : list Wrapper.t).

Lemma checkId_visit_step id l0 nu w :
  Registry.checkId_visit id (l0, nu) w =
    if decide (Wrapper.get_extensionId w = id) then (l0, true)
    else if decide (name_match id w) then (l0 ++ [w], nu) else (l0, nu).
Proof.
  unfold Registry.checkId_visit, name_match.
  case_bool_decide as He; destruct (decide (Wrapper.get_extensionId w = id)); try done.
  case_bool_decide as Hn; simpl.
  - destruct (Wrapper.version w =? Version.v0) eqn:Hv; simpl.
    + apply Nat.eqb_eq in Hv. destruct (decide _) as [[_ Hd]|Hd]; done.
    + apply Nat.eqb_neq in Hv. destruct (decide _) as [Hd|Hd]; [done|].
      destruct Hd. done.
  - destruct (decide _) as [[Hd _]|Hd]; done.
Qed.

Lemma checkId_visit_found id l l0 nu :
  (foldl (Registry.checkId_visit id) (l0, nu) l).1 = l0 ++ filter (collected id) l.
Proof.
  revert l0 nu. induction l as [|w l IH]; intros l0 nu; cbn [foldl].
  { simpl. by rewrite app_nil_r. }
  rewrite checkId_visit_step.
  destruct (decide (Wrapper.get_extensionId w = id)) as [He|He].
  - rewrite IH, filter_cons_False; [done|]. intros [Hc _]. done.
  - destruct (decide (name_match id w)) as [Hn|Hn].
    + rewrite IH, filter_cons_True by done. by rewrite <- app_assoc.
    + rewrite IH, filter_cons_False; [done|]. intros [_ Hc]. done.
Qed.

Lemma checkId_visit_noUpdate id l l0 nu :
  (foldl (Registry.checkId_visit id) (l0, nu) l).2 = true ↔
  nu = true ∨ ∃ w, w ∈ l ∧ Wrapper.get_extensionId w = id.
Proof.
  revert l0 nu. induction l as [|w l IH]; intros l0 nu; cbn [foldl].
  { simpl. split; [by left|]. intros [?|(w & Hw & _)]; [done|]. by apply elem_of_nil in Hw. }
  rewrite checkId_visit_step.
  destruct (decide (Wrapper.get_extensionId w = id)) as [He|He].
  - rewrite IH. split; [|by left]. intros _. right. exists w. split; [left|done].
  - assert (∀ l1, (foldl (Registry.checkId_visit id) (l1, nu) l).2 = true ↔
                  nu = true ∨ ∃ w', w' ∈ w :: l ∧ Wrapper.get_extensionId w' = id) as Hgen.
    { intros l1. rewrite IH. split.
      - intros [?|(w' & Hw' & Hid)]; [by left|]. right. exists w'. split; [by right|done].
      - intros [?|(w' & Hw' & Hid)]; [by left|]. right. exists w'.
        apply elem_of_cons in Hw' as [->|Hw']; [done|]. done. }
    destruct (decide (name_match id w)); apply Hgen.
Qed.

(** The three ways [checkId] ends, over any order of visit. *)
Lemma checkId_over_falsy id l : truthy id = false → (Registry.checkId_over l id).1 = id.
Proof. intros Hid. unfold Registry.checkId_over. by rewrite Hid. Qed.

Lemma checkId_over_identity id l w :
  w ∈ l → Wrapper.get_extensionId w = id → (Registry.checkId_over l id).1 = id.
Proof.
  intros Hw He. unfold Registry.checkId_over.
  destruct (truthy id); simpl; [|done].
  pose proof (checkId_visit_noUpdate id l [] false) as Hnu.
  destruct (foldl _ _ l) as [found noUpdate]. simpl in *.
  assert (noUpdate = true) as -> by (apply Hnu; right; by exists w).
  done.
Qed.

Lemma checkId_over_names id l :
  truthy id = true →
  (∀ w, w ∈ l → Wrapper.get_extensionId w ≠ id) →
  (Registry.checkId_over l id).1 =
    match filter (collected id) l with
    | [p] => Wrapper.get_extensionId p
    | _ => id
    end.
Proof.
  intros Hid Hnone. unfold Registry.checkId_over. rewrite Hid. simpl.
  pose proof (checkId_visit_found id l [] false) as Hfound.
  pose proof (checkId_visit_noUpdate id l [] false) as Hnu.
  destruct (foldl _ _ l) as [found noUpdate]. simpl in *. subst found.
  destruct noUpdate.
  - destruct (proj1 Hnu eq_refl) as [?|(w & Hw & He)]; [done|]. by destruct (Hnone w Hw).
  - by destruct (filter (collected id) l) as [|a [|b rest]].
Qed.

(** Visiting the same wrappers in another order gives the same answer:
    whatever the order in which the [Map] hands out its entries. *)
Lemma checkId_over_Permutation id l l' :
  l ≡ₚ l' → (Registry.checkId_over l id).1 = (Registry.checkId_over l' id).1.
Proof.
  intros Hperm.
  destruct (truthy id) eqn:Hid; [|by rewrite !checkId_over_falsy].
  assert (∀ w, w ∈ l ↔ w ∈ l') as Hin by (intros w; by rewrite Hperm).
  destruct (decide (Exists (fun w => Wrapper.get_extensionId w = id) l)) as [Hex|Hno].
  - apply Exists_exists in Hex as (w & Hw & He).
    rewrite (checkId_over_identity id l w), (checkId_over_identity id l' w); try done.
    by apply Hin.
  - assert (∀ w, w ∈ l → Wrapper.get_extensionId w ≠ id) as Hnone.
    { intros w Hw He. apply Hno, Exists_exists. eauto. }
    rewrite !checkId_over_names; try done.
    2:{ intros w Hw. apply Hnone. by apply Hin. }
    assert (filter (collected id) l ≡ₚ filter (collected id) l') as Hf by (by rewrite Hperm).
    destruct (filter (collected id) l) as [|a [|b rest]].
    + apply Permutation_nil_l in Hf as <-. done.
    + apply Permutation_singleton_l in Hf as <-. done.
    + apply Permutation_length in Hf.
      destruct (filter (collected id) l') as [|a' [|b' rest']]; simpl in Hf; try done.
Qed.

(** Values of a list of entries with pairwise different keys. *)
Lemma filter_values_none {K V} (P : V → Prop) `{!∀ x, Decision (P x)} (l : list (K * V)) :
  (∀ k x, (k, x) ∈ l → ¬ P x) → filter P l.*2 = [].
Proof.
  induction l as [|[k0 x0] l IH]; intros Hnone; csimpl; [done|].
  rewrite filter_cons_False.
  - apply IH. intros k x Hin. apply (Hnone k). by right.
  - apply (Hnone k0). left.
Qed.

Lemma filter_values_unique {K V} (P : V → Prop) `{!∀ x, Decision (P x)}
    (l : list (K * V)) k x :
  NoDup l.*1 → (k, x) ∈ l → P x →
  (∀ k' x', (k', x') ∈ l → P x' → k' = k) →
  filter P l.*2 = [x].
Proof.
  induction l as [|[k0 x0] l IH]; intros Hnd Hin HP Huniq; csimpl.
  { by apply elem_of_nil in Hin. }
  csimpl in Hnd. apply NoDup_cons in Hnd as [Hk0 Hnd].
  destruct (decide (P x0)) as [HP0|HP0].
  - assert (k0 = k) as -> by (apply (Huniq k0 x0); [left|done]).
    apply elem_of_cons in Hin as [[= <-]|Hin].
    + rewrite filter_cons_True by done. f_equal.
      apply filter_values_none. intros k' x' Hin' HP'.
      assert (k' = k) as -> by (apply (Huniq k' x'); [by right|done]).
      apply Hk0. apply list_elem_of_fmap. by exists (k, x').
    + destruct Hk0. apply list_elem_of_fmap. by exists (k, x).
  - rewrite filter_cons_False by done.
    apply elem_of_cons in Hin as [[= -> ->]|Hin]; [done|].
    apply IH; [done..|]. intros k' x' Hin' HP'. apply (Huniq k' x'); [by right|done].
Qed.

Lemma filter_values_two {K V} (P : V → Prop) `{!∀ x, Decision (P x)}
    (l : list (K * V)) k1 x1 k2 x2 :
  (k1, x1) ∈ l → (k2, x2) ∈ l → k1 ≠ k2 → P x1 → P x2 →
  ∃ a b rest, filter P l.*2 = a :: b :: rest.
Proof.
  intros H1 H2 Hne HP1 HP2.
  assert ((k1, x1) ∈ filter (fun e => P e.2) l) as F1 by (by apply list_elem_of_filter).
  assert ((k2, x2) ∈ filter (fun e => P e.2) l) as F2 by (by apply list_elem_of_filter).
  assert (filter P l.*2 = (filter (fun e => P e.2) l).*2) as ->.
  { clear. induction l as [|[k x] l IH]; csimpl; [done|].
    destruct (decide (P x)).
    - rewrite !filter_cons_True by done. csimpl. by rewrite IH.
    - by rewrite !filter_cons_False by done. }
  destruct (filter (fun e => P e.2) l) as [|a [|b rest]].
  - by apply elem_of_nil in F1.
  - apply list_elem_of_singleton in F1, F2. congruence.
  - csimpl. eauto.
Qed.

Lemma identity_registered_or_not id l :
  (∃ w, w ∈ l ∧ Wrapper.get_extensionId w = id)
  ∨ (∀ w, w ∈ l → Wrapper.get_extensionId w ≠ id).
Proof.
  destruct (decide (Exists (fun w => Wrapper.get_extensionId w = id) l)) as [Hex|Hno].
  - left. by apply Exists_exists.
  - right. intros w Hw He. apply Hno, Exists_exists. eauto.
Qed.

Lemma elem_of_forEach r w : w ∈ Registry.forEach r ↔ ∃ k, r !! k = Some w.
Proof.
  unfold Registry.forEach. rewrite list_elem_of_fmap. split.
  - intros ([k w'] & -> & Hin). exists k. by apply elem_of_map_to_list.
  - intros (k & Hk). exists (k, w). split; [done|]. by apply elem_of_map_to_list.
Qed.

End CheckId.

(** * The claims about the registry *)

Section RegistryClaims.

Local Open Scope nat_scope.

Implicit Types (p q : Provider.t) (w : Wrapper.t) (r : Registry.Providers).
Implicit Types (v : Version.t) (id : option string).

Lemma new_extensionId_legacy p :
  truthy (Provider.extensionId p) = false →
  Wrapper.get_extensionId (Wrapper.new p Version.v0) = Provider.name p.
Proof. intros He. unfold Wrapper.get_extensionId, Wrapper.new. simpl. by rewrite He. Qed.

Lemma new_extensionId_promoted p :
  truthy (Provider.extensionId p) = true →
  Wrapper.get_extensionId (Wrapper.new p Version.v0) = Provider.extensionId p.
Proof. intros He. unfold Wrapper.get_extensionId, Wrapper.new. simpl. by rewrite He. Qed.

Lemma new_extensionId_later p v :
  Version.v1 ≤ v → Wrapper.get_extensionId (Wrapper.new p v) = Provider.extensionId p.
Proof.
  intros Hv. pose proof (new_version_later p v Hv) as Hnew.
  unfold Wrapper.get_extensionId. unfold Wrapper.version in Hnew. rewrite Hnew.
  destruct v; [unfold Version.v1 in Hv; lia|done].
Qed.

(** [add] once the engine is on and the wrapper is valid. *)
Lemma add_enabled (engine : string) p v r :
  engine ≠ "Disabled" → Wrapper.isValid (Wrapper.new p v) = true →
  Registry.add engine p v r =
    let w := Wrapper.new p v in
    if match r !! Wrapper.get_extensionId w with
       | Some existing =>
           (Wrapper.version existing =? Version.v0) && (Wrapper.version w =? Version.v0)
       | None => false
       end
    then (false, r, [ErrorAlreadyRegistered (Wrapper.get_extensionId w)])
    else (true, <[Wrapper.get_extensionId w := w]> r, []).
Proof.
  intros He Hv. unfold Registry.add. rewrite (eqb_engine_enabled _ He), Hv. simpl.
  by destruct (r !! _) as [e|]; [destruct (_ && _)|].
Qed.

(** C9: whatever the provider and the version, [add] returns false and
    leaves the registry as it is when the IntelliSense engine setting is
    "Disabled"; the check comes before validation and duplicate detection,
    and only the warning is logged. *)
Theorem C9_add_disabled p v r :
  Registry.add "Disabled" p v r = (false, r, [WarnIntelliSenseDisabled]).
Proof. reflexivity. Qed.

(** C7, as the code has it: a wrapper built at a version below [v2] starts
    ready; one built at [v2] or later starts not ready, and is ready once
    [isReady] is set. *)
Theorem C7_initial_readiness p v :
  Wrapper.isReady (Wrapper.new p v) = bool_decide (v < Version.v2)
  ∧ Wrapper.isReady (Wrapper.set_isReady true (Wrapper.new p v)) = true.
Proof.
  split; [|done]. unfold Wrapper.isReady, Wrapper.new. simpl.
  case_bool_decide as Hv.
  - by apply Nat.ltb_lt.
  - by apply Nat.ltb_nlt.
Qed.

(** C7 as stated fails: the wrapper of a legacy (version 0) provider is
    ready from the start. *)
Lemma C7_legacy_wrapper_starts_ready :
  Wrapper.isReady (Wrapper.new (legacy_provider 1 "Foo") Version.v0) = true.
Proof. reflexivity. Qed.

(** C8: a provider that carries an [extensionId] and is added at version 0
    is wrapped at version 1: its identity is the [extensionId], validity
    asks for [extensionId] and [dispose] on top of the version-0 methods,
    [dispose] reaches the provider, and [add] files a valid one under its
    [extensionId]. *)
Theorem C8_promotion_of_identified_legacy p :
  truthy (Provider.extensionId p) = true →
  let w := Wrapper.new p Version.v0 in
  Wrapper.version w = Version.v1
  ∧ Wrapper.get_extensionId w = Provider.extensionId p
  ∧ Wrapper.isValid w =
      truthy (Provider.name p) && Provider.canProvideConfiguration p
      && Provider.provideConfigurations p
      && (truthy (Provider.extensionId p) && Provider.dispose p)
  ∧ Wrapper.do_dispose w =
      (if Provider.dispose p then Wrapper.DisposeCalledThrough (Provider.ref p)
       else Wrapper.DisposeTypeError)
  ∧ ∀ (engine : string) r,
      engine ≠ "Disabled" → Wrapper.isValid w = true →
      Registry.add engine p Version.v0 r = (true, <[Provider.extensionId p := w]> r, []).
Proof.
  intros He w.
  assert (Wrapper.version w = Version.v1) as Hver.
  { unfold w, Wrapper.version, Wrapper.new. simpl. by rewrite He. }
  assert (Wrapper.get_extensionId w = Provider.extensionId p) as Hid
    by (by apply new_extensionId_promoted).
  split_and!; [done|done|..].
  - unfold Wrapper.isValid. unfold Wrapper.version in Hver. rewrite Hver.
    change (Wrapper.provider w) with p. simpl.
    destruct (truthy (Provider.name p)), (Provider.canProvideConfiguration p),
      (Provider.provideConfigurations p); simpl; try done.
    change (Version.v1 <? Version.v1) with false. by rewrite andb_false_r.
  - unfold Wrapper.do_dispose. unfold Wrapper.version in Hver. rewrite Hver. done.
  - intros engine r Hengine Hvalid. rewrite add_enabled by done.
    fold w. cbv zeta. rewrite Hid, Hver. simpl.
    destruct (r !! _) as [existing|]; [by rewrite andb_false_r|done].
Qed.

Lemma C8_promotion_witness :
  Wrapper.version (Wrapper.new (identified_provider 7 "Foo" "ext.foo") Version.v0) = Version.v1
  ∧ Wrapper.get_extensionId (Wrapper.new (identified_provider 7 "Foo" "ext.foo") Version.v0)
    = Some "ext.foo".
Proof.
  pose proof (C8_promotion_of_identified_legacy (identified_provider 7 "Foo" "ext.foo") eq_refl)
    as (Hv & Hid & _).
  split; [exact Hv | exact Hid].
Defined.

(** C1, as the code has it: of two legacy (version 0) providers that share a
    name, the second is turned down: [add] returns false, logs that the
    identity is already registered, and leaves the registry as it was. Of
    two providers at version 1 or later with the same [extensionId], the
    second is accepted: [add] returns true and files its wrapper under the
    identity, in place of the first. *)
Theorem C1_duplicate_registration (engine : string) r :
  engine ≠ "Disabled" →
  (∀ p1 p2,
     truthy (Provider.extensionId p1) = false →
     truthy (Provider.extensionId p2) = false →
     Provider.name p1 = Provider.name p2 →
     Wrapper.isValid (Wrapper.new p1 Version.v0) = true →
     Wrapper.isValid (Wrapper.new p2 Version.v0) = true →
     let r1 := (Registry.add engine p1 Version.v0 r).1.2 in
     Registry.add engine p2 Version.v0 r1
       = (false, r1, [ErrorAlreadyRegistered (Provider.name p2)]))
  ∧ (∀ q1 q2 va vb,
       Version.v1 ≤ va → Version.v1 ≤ vb →
       Provider.extensionId q1 = Provider.extensionId q2 →
       Wrapper.isValid (Wrapper.new q1 va) = true →
       Wrapper.isValid (Wrapper.new q2 vb) = true →
       let r1 := (Registry.add engine q1 va r).1.2 in
       r1 !! Provider.extensionId q1 = Some (Wrapper.new q1 va)
       ∧ Registry.add engine q2 vb r1
           = (true, <[Provider.extensionId q2 := Wrapper.new q2 vb]> r1, [])
       ∧ (Registry.add engine q2 vb r1).1.2 !! Provider.extensionId q1
           = Some (Wrapper.new q2 vb)).
Proof.
  intros Hengine. split.
  - intros p1 p2 He1 He2 Hname Hv1 Hv2 r1.
    assert (∃ w0, r1 !! Provider.name p2 = Some w0 ∧ Wrapper.version w0 = Version.v0)
      as (w0 & Hw0 & Hver0).
    { unfold r1. rewrite add_enabled by done. cbv zeta.
      rewrite (new_extensionId_legacy p1 He1), (new_version_legacy p1 He1), Hname.
      destruct (r !! Provider.name p2) as [existing|] eqn:Hex.
      - destruct (Wrapper.version existing =? Version.v0) eqn:Hev; simpl.
        + exists existing. split; [done|]. by apply Nat.eqb_eq.
        + exists (Wrapper.new p1 Version.v0). rewrite lookup_insert_eq.
          split; [done|]. by apply new_version_legacy.
      - simpl. exists (Wrapper.new p1 Version.v0). rewrite lookup_insert_eq.
        split; [done|]. by apply new_version_legacy. }
    rewrite add_enabled by done. cbv zeta.
    rewrite (new_extensionId_legacy p2 He2), (new_version_legacy p2 He2), Hw0, Hver0.
    done.
  - intros q1 q2 va vb Hva Hvb Hid Hv1 Hv2 r1.
    assert (∀ q v r', Version.v1 ≤ v → Wrapper.isValid (Wrapper.new q v) = true →
              Registry.add engine q v r'
                = (true, <[Provider.extensionId q := Wrapper.new q v]> r', [])) as Hadd.
    { intros q v r' Hv Hvalid. rewrite add_enabled by done. cbv zeta.
      rewrite (new_extensionId_later q v Hv), (new_version_later q v Hv).
      assert ((v =? Version.v0) = false) as ->
        by (apply Nat.eqb_neq; unfold Version.v1, Version.v0 in *; lia).
      destruct (r' !! _) as [existing|]; [by rewrite andb_false_r|done]. }
    unfold r1. rewrite (Hadd q1 va r Hva Hv1). simpl.
    rewrite (Hadd q2 vb _ Hvb Hv2). simpl.
    split_and!; [by rewrite lookup_insert_eq|done|].
    rewrite Hid. by rewrite lookup_insert_eq.
Qed.

Lemma C1_duplicate_registration_witness :
  Registry.add "Default" (legacy_provider 2 "Foo") Version.v0
    (Registry.add "Default" (legacy_provider 1 "Foo") Version.v0 ∅).1.2
  = (false, (Registry.add "Default" (legacy_provider 1 "Foo") Version.v0 ∅).1.2,
     [ErrorAlreadyRegistered (Some "Foo")]).
Proof.
  assert ("Default" ≠ "Disabled") as Hengine by (intros [=]).
  exact (proj1 (C1_duplicate_registration "Default" ∅ Hengine)
           (legacy_provider 1 "Foo") (legacy_provider 2 "Foo")
           eq_refl eq_refl eq_refl eq_refl eq_refl).
Defined.

(** C1 as stated fails on both counts. Two legacy providers named "Foo":
    the second [add] returns false with the duplicate error and the first
    provider stays registered. Two version-1 providers with the identity
    "ext.foo": the second [add] returns true and the registry now holds the
    second provider. *)
Lemma C1_counterexample :
  let first_legacy := Registry.add "Default" (legacy_provider 1 "Foo") Version.v0 ∅ in
  let second_legacy :=
    Registry.add "Default" (legacy_provider 2 "Foo") Version.v0 first_legacy.1.2 in
  let first_v1 :=
    Registry.add "Default" (identified_provider 3 "Foo" "ext.foo") Version.v1 ∅ in
  let second_v1 :=
    Registry.add "Default" (identified_provider 4 "Foo" "ext.foo") Version.v1 first_v1.1.2 in
  first_legacy.1.1 = true
  ∧ second_legacy.1.1 = false
  ∧ second_legacy.2 = [ErrorAlreadyRegistered (Some "Foo")]
  ∧ Registry.get (inl "Foo") second_legacy.1.2
      = Some (Wrapper.new (legacy_provider 1 "Foo") Version.v0)
  ∧ first_v1.1.1 = true
  ∧ second_v1.1.1 = true
  ∧ second_v1.1.2 ≠ first_v1.1.2
  ∧ Registry.get (inl "ext.foo") second_v1.1.2
      = Some (Wrapper.new (identified_provider 4 "Foo" "ext.foo") Version.v1).
Proof.
  cbv zeta. split_and!; try (vm_compute; reflexivity).
  intros Heq.
  assert (Registry.get (inl "ext.foo")
            (Registry.add "Default" (identified_provider 4 "Foo" "ext.foo") Version.v1
               (Registry.add "Default" (identified_provider 3 "Foo" "ext.foo")
                  Version.v1 ∅).1.2).1.2
          = Registry.get (inl "ext.foo")
              (Registry.add "Default" (identified_provider 3 "Foo" "ext.foo")
                 Version.v1 ∅).1.2) as Hget by (by rewrite Heq).
  vm_compute in Hget. discriminate Hget.
Qed.

(** C5: in a registry built by [add], [checkId] returns an identifier that
    is some registered identity as it is; otherwise, when exactly one
    non-legacy registered provider bears it as display name, the identity
    of that provider; with no such provider, or with more than one, the
    identifier as it is. After a version-1 provider named "Foo" registered
    under "ext.foo": "Foo" maps to "ext.foo", "ext.foo" and "Bar" to
    themselves. *)
Theorem C5_checkId_resolution :
  (∀ r id,
     registered_valid r →
     ((∃ k w, r !! k = Some w ∧ Wrapper.get_extensionId w = id) →
      Registry.checkId r id = id)
     ∧ (∀ k w,
          (∀ k' w', r !! k' = Some w' → Wrapper.get_extensionId w' ≠ id) →
          r !! k = Some w → name_match id w →
          (∀ k' w', r !! k' = Some w' → name_match id w' → k' = k) →
          Registry.checkId r id = Wrapper.get_extensionId w)
     ∧ ((∀ k w, r !! k = Some w → ¬ name_match id w) → Registry.checkId r id = id)
     ∧ (∀ k1 w1 k2 w2,
          k1 ≠ k2 → r !! k1 = Some w1 → r !! k2 = Some w2 →
          name_match id w1 → name_match id w2 → Registry.checkId r id = id))
  ∧ (∀ engine : string,
       engine ≠ "Disabled" →
       let r :=
         (Registry.add engine (identified_provider 1 "Foo" "ext.foo") Version.v1 ∅).1.2 in
       Registry.checkId r (Some "Foo") = Some "ext.foo"
       ∧ Registry.checkId r (Some "ext.foo") = Some "ext.foo"
       ∧ Registry.checkId r (Some "Bar") = Some "Bar").
Proof.
  split.
  - intros r id Hvalid. unfold Registry.checkId. split_and!.
    + intros (k & w & Hk & He).
      apply (checkId_over_identity id _ w); [|done]. apply elem_of_forEach. eauto.
    + intros k w Hnone Hk [Hname Hver] Huniq.
      destruct (truthy id) eqn:Hid.
      * rewrite checkId_over_names; [|done|].
        2:{ intros w' (k' & Hk')%elem_of_forEach. by apply (Hnone k'). }
        unfold Registry.forEach.
        rewrite (filter_values_unique (collected id) (map_to_list r) k w); [done|..].
        -- apply NoDup_fst_map_to_list.
        -- by apply elem_of_map_to_list.
        -- split; [by apply (Hnone k)|done].
        -- intros k' w' Hin [_ Hm]. apply elem_of_map_to_list in Hin. by apply (Huniq k' w').
      * destruct (Hvalid k w Hk) as [Hv _]. apply isValid_name in Hv.
        rewrite Hname in Hv. congruence.
    + intros Hnone.
      destruct (truthy id) eqn:Hid; [|by apply checkId_over_falsy].
      destruct (identity_registered_or_not id (Registry.forEach r))
        as [(w & Hw & He)|Hno].
      * by apply (checkId_over_identity id _ w).
      * rewrite checkId_over_names; [|done|done].
        unfold Registry.forEach. rewrite filter_values_none; [done|].
        intros k w Hin [_ Hm]. apply elem_of_map_to_list in Hin. by apply (Hnone k w).
    + intros k1 w1 k2 w2 Hne Hk1 Hk2 Hm1 Hm2.
      destruct (truthy id) eqn:Hid; [|by apply checkId_over_falsy].
      destruct (identity_registered_or_not id (Registry.forEach r))
        as [(w & Hw & He)|Hno].
      * by apply (checkId_over_identity id _ w).
      * rewrite checkId_over_names; [|done|done].
        unfold Registry.forEach.
        destruct (filter_values_two (collected id) (map_to_list r) k1 w1 k2 w2)
          as (a & b & rest & ->); try done.
        -- by apply elem_of_map_to_list.
        -- by apply elem_of_map_to_list.
        -- split; [|done]. apply Hno, elem_of_forEach. eauto.
        -- split; [|done]. apply Hno, elem_of_forEach. eauto.
  - intros engine Hengine. rewrite add_enabled by done. cbv zeta.
    rewrite lookup_empty. simpl. split_and!; vm_compute; reflexivity.
Qed.

Lemma C5_checkId_resolution_witness :
  registered_valid registry_with_Foo
  ∧ Registry.checkId registry_with_Foo (Some "Foo") = Some "ext.foo".
Proof.
  assert (∀ k w, registry_with_Foo !! k = Some w →
            k = Some "ext.foo"
            ∧ w = Wrapper.new (identified_provider 1 "Foo" "ext.foo") Version.v1) as Honly.
  { unfold registry_with_Foo. intros k w [[<- <-] | [_ Hk]]%lookup_insert_Some; [done|].
    by rewrite lookup_empty in Hk. }
  assert (registered_valid registry_with_Foo) as Hvalid.
  { intros k w [-> ->]%Honly. by split. }
  split; [exact Hvalid|].
  refine (proj1 (proj2 (proj1 C5_checkId_resolution registry_with_Foo (Some "Foo") Hvalid))
            (Some "ext.foo")
            (Wrapper.new (identified_provider 1 "Foo" "ext.foo") Version.v1) _ _ _ _).
  - intros k' w' [-> ->]%Honly. by intros [=].
  - apply lookup_insert_eq.
  - split; [reflexivity|]. by intros [=].
  - by intros k' w' [-> ->]%Honly _.
Defined.

End RegistryClaims.

(** * The list-property merge *)

Section ListMerge.

Implicit Types (h : Host) (env : Environment) (defaultValue : option (list string)).

Lemma resolveDefaults_foldl defaultValue (entries acc : list string) :
  foldl (fun result entry =>
           if String.eqb entry "${default}" then
             match defaultValue with
             | Some d => result ++ d
             | None => result
             end
           else result ++ [entry]) acc entries
  = acc ++ (entries ≫= expand_default defaultValue).
Proof.
  revert acc. induction entries as [|entry entries IH]; intros acc; csimpl.
  { by rewrite app_nil_r. }
  rewrite IH. unfold expand_default at 2.
  destruct (String.eqb entry "${default}").
  - destruct defaultValue as [d|]; simpl; [by rewrite app_assoc | done].
  - by rewrite <- app_assoc.
Qed.

Lemma resolveDefaults_bind defaultValue entries :
  resolveDefaults entries defaultValue = entries ≫= expand_default defaultValue.
Proof. unfold resolveDefaults. by rewrite resolveDefaults_foldl. Qed.

Lemma resolveAndSplit_foldl h env defaultValue (paths acc : list string) :
  foldl (fun result entry =>
           let entries :=
             filter (fun e => e ≠ "")
                    (split_semicolon (util_resolveVariables h (Some entry) env)) in
           let entries := resolveDefaults entries defaultValue in
           result ++ entries) acc paths
  = acc ++ merged_list h paths defaultValue env.
Proof.
  revert acc. induction paths as [|entry paths IH]; intros acc; csimpl.
  { by rewrite app_nil_r. }
  rewrite IH, resolveDefaults_bind. unfold merged_list, resolved_pieces. csimpl.
  by rewrite <- app_assoc.
Qed.

(** C4: [resolveAndSplit] is the merge of the specification: every entry
    is variable-resolved, every default token is replaced in place by the
    default sequence of the settings, or dropped when that is [null], and
    the results follow the order of the input. With a resolver that leaves
    the two entries as they are, the include path of the scenario resolves
    to "/sys/inc" followed by "/extra". *)
Theorem C4_list_merge :
  (∀ h paths defaultValue env,
     resolveAndSplit h (Some paths) defaultValue env
       = merged_list h paths defaultValue env)
  ∧ (∀ h env,
       util_resolveVariables h (Some "${default}") env = "${default}" →
       util_resolveVariables h (Some "/extra") env = "/extra" →
       resolveAndSplit h (Some ["${default}"; "/extra"]) (Some ["/sys/inc"]) env
         = ["/sys/inc"; "/extra"]
       ∧ updateConfiguration_array h (Some ["${default}"; "/extra"]) (Some ["/sys/inc"]) env
         = Some ["/sys/inc"; "/extra"]
       ∧ resolveAndSplit h (Some ["${default}"; "/extra"]) None env = ["/extra"]).
Proof.
  assert (∀ h paths defaultValue env,
            resolveAndSplit h (Some paths) defaultValue env
              = merged_list h paths defaultValue env) as Hmerge.
  { intros h paths defaultValue env. unfold resolveAndSplit.
    by rewrite resolveAndSplit_foldl. }
  split; [exact Hmerge|].
  intros h env Hdefault Hextra.
  unfold updateConfiguration_array. rewrite !Hmerge.
  unfold merged_list, resolved_pieces. csimpl. rewrite Hdefault, Hextra.
  split_and!; reflexivity.
Qed.

End ListMerge.

Lemma C4_list_merge_witness :
  resolveAndSplit (sample_host None ReadEmptyString)
    (Some ["${default}"; "/extra"]) (Some ["/sys/inc"]) ∅
  = ["/sys/inc"; "/extra"].
Proof.
  exact (proj1 (proj2 C4_list_merge (sample_host None ReadEmptyString) ∅ eq_refl eq_refl)).
Defined.

(** * Version migration *)

Section Migration.

Implicit Types (h : Host) (this : CppProperties).
Implicit Types (c : Configuration.t) (d : ConfigurationJson.t).

Lemma updateToVersion3_configuration_name h c :
  Configuration.name (updateToVersion3_configuration h c) = Configuration.name c.
Proof.
  unfold updateToVersion3_configuration.
  destruct (_ || _); [|done]. by destruct (Configuration.macFrameworkPath c).
Qed.

Lemma updateToVersion3_configuration_idempotent h c :
  updateToVersion3_configuration h (updateToVersion3_configuration h c)
  = updateToVersion3_configuration h c.
Proof.
  unfold updateToVersion3_configuration at 1.
  rewrite updateToVersion3_configuration_name.
  destruct (_ || _) eqn:Happlies; [|done].
  unfold updateToVersion3_configuration. rewrite Happlies.
  destruct (Configuration.macFrameworkPath c) eqn:Hpath; [by rewrite Hpath|done].
Qed.

(** Step 3→4 leaves alone what step 2→3 looks at, and the other way
    round. *)
Lemma updateToVersion3_after_4 h this c :
  updateToVersion3_configuration h (updateToVersion4_configuration h this c)
  = updateToVersion4_configuration h this (updateToVersion3_configuration h c).
Proof.
  unfold updateToVersion3_configuration.
  change (Configuration.name (updateToVersion4_configuration h this c))
    with (Configuration.name c).
  change (Configuration.macFrameworkPath (updateToVersion4_configuration h this c))
    with (Configuration.macFrameworkPath c).
  destruct (_ || _); [|done].
  by destruct (Configuration.macFrameworkPath c).
Qed.

Lemma truthy_unset (x : option string) : truthy x = true → isUnset x = false.
Proof. by destruct x. Qed.

Lemma updateToVersion4_configuration_idempotent h this c :
  updateToVersion4_configuration h this (updateToVersion4_configuration h this c)
  = updateToVersion4_configuration h this c.
Proof.
  unfold updateToVersion4_configuration. simpl. f_equal.
  - destruct (isUnset (Configuration.compilerPath c) && _ && _ && _) eqn:Hc; [|by rewrite Hc].
    apply andb_prop in Hc as [[[_ Hd]%andb_prop _]%andb_prop _].
    by rewrite (truthy_unset _ Hd).
  - destruct (negb (truthy (Configuration.cStandard c)) && _ && _) eqn:Hc; [|by rewrite Hc].
    apply andb_prop in Hc as [[_ Hd]%andb_prop _]. by rewrite Hd.
  - destruct (negb (truthy (Configuration.cppStandard c)) && _ && _) eqn:Hc; [|by rewrite Hc].
    apply andb_prop in Hc as [[_ Hd]%andb_prop _]. by rewrite Hd.
  - destruct (isUnset (Configuration.intelliSenseMode c) && _) eqn:Hc; [done|by rewrite Hc].
Qed.

Lemma migrate_2_3_4_configuration_idempotent h this c :
  updateToVersion4_configuration h this
    (updateToVersion3_configuration h
       (updateToVersion4_configuration h this (updateToVersion3_configuration h c)))
  = updateToVersion4_configuration h this (updateToVersion3_configuration h c).
Proof.
  rewrite updateToVersion3_after_4, updateToVersion3_configuration_idempotent.
  apply updateToVersion4_configuration_idempotent.
Qed.

(** C6: running the steps 2→3 and 3→4 on a document that went through them
    gives that document again; after the migration block the version is
    the current one, so a second parse does not enter the block; and a
    value that is there is not overwritten: a framework path, an
    IntelliSense mode or a compiler path that is defined stays, and so
    does a C or C++ standard that is a non-empty string. *)
Theorem C6_migration_idempotent :
  (∀ h this d,
     migrate_2_3_4 h this (migrate_2_3_4 h this d) = migrate_2_3_4 h this d)
  ∧ (∀ h this d,
       ConfigurationJson.version (migrate h this d).1 = Some configVersion)
  ∧ (∀ h this c,
       let c' := updateToVersion4_configuration h this (updateToVersion3_configuration h c) in
       (∀ x, Configuration.macFrameworkPath c = Some x →
             Configuration.macFrameworkPath c' = Some x)
       ∧ (∀ x, Configuration.intelliSenseMode c = Some x →
               Configuration.intelliSenseMode c' = Some x)
       ∧ (∀ x, Configuration.compilerPath c = Some x →
               Configuration.compilerPath c' = Some x)
       ∧ (truthy (Configuration.cStandard c) = true →
          Configuration.cStandard c' = Configuration.cStandard c)
       ∧ (truthy (Configuration.cppStandard c) = true →
          Configuration.cppStandard c' = Configuration.cppStandard c)).
Proof.
  split_and!.
  - intros h this d. unfold migrate_2_3_4, updateToVersion4, updateToVersion3.
    unfold ConfigurationJson.set_configurations, ConfigurationJson.set_version. simpl.
    f_equal. rewrite <- !list_fmap_compose. apply list_fmap_ext.
    intros i c _. simpl. apply migrate_2_3_4_configuration_idempotent.
  - intros h this d. unfold migrate.
    repeat (case_bool_decide; simpl); done.
  - intros h this c c'. unfold c'. clear c'.
    assert (∀ c0, Configuration.macFrameworkPath (updateToVersion4_configuration h this c0)
                  = Configuration.macFrameworkPath c0) as Hmac by done.
    split_and!.
    + intros x Hx. rewrite Hmac. unfold updateToVersion3_configuration.
      destruct (_ || _); [|done]. by rewrite Hx.
    + intros x Hx. unfold updateToVersion4_configuration. simpl.
      assert (Configuration.intelliSenseMode (updateToVersion3_configuration h c) = Some x) as ->.
      { unfold updateToVersion3_configuration.
        destruct (_ || _); [|done]. by destruct (Configuration.macFrameworkPath c). }
      done.
    + intros x Hx. unfold updateToVersion4_configuration. simpl.
      assert (Configuration.compilerPath (updateToVersion3_configuration h c) = Some x) as ->.
      { unfold updateToVersion3_configuration.
        destruct (_ || _); [|done]. by destruct (Configuration.macFrameworkPath c). }
      done.
    + intros Hx. unfold updateToVersion4_configuration. simpl.
      assert (Configuration.cStandard (updateToVersion3_configuration h c)
              = Configuration.cStandard c) as ->.
      { unfold updateToVersion3_configuration.
        destruct (_ || _); [|done]. by destruct (Configuration.macFrameworkPath c). }
      by rewrite Hx.
    + intros Hx. unfold updateToVersion4_configuration. simpl.
      assert (Configuration.cppStandard (updateToVersion3_configuration h c)
              = Configuration.cppStandard c) as ->.
      { unfold updateToVersion3_configuration.
        destruct (_ || _); [|done]. by destruct (Configuration.macFrameworkPath c). }
      by rewrite Hx.
Qed.

Lemma C6_migration_witness :
  Configuration.macFrameworkPath
    (updateToVersion4_configuration (sample_host None ReadEmptyString) (initial (-1))
       (updateToVersion3_configuration (sample_host None ReadEmptyString)
          (Configuration.set_macFrameworkPath (Some ["/my/frameworks"])
             (Configuration.named "Mac"))))
  = Some ["/my/frameworks"].
Proof.
  exact (proj1 (proj2 (proj2 C6_migration_idempotent)
                  (sample_host None ReadEmptyString) (initial (-1))
                  (Configuration.set_macFrameworkPath (Some ["/my/frameworks"])
                     (Configuration.named "Mac")))
           ["/my/frameworks"] eq_refl).
Defined.

End Migration.

(** * Reasoning about methods *)

Section Methods.

Context {A B : Type}.
Implicit Types (s : CppProperties) (m : M A) (k : A → M B).

Lemma bind_normal m k s a s1 : m s = (Normal a, s1) → (m ≫= k) s = k a s1.
Proof. intros Hm. unfold mbind, M_bind, bind. by rewrite Hm. Qed.

Lemma bind_throw m k s e s1 : m s = (Throw e, s1) → (m ≫= k) s = (Throw e, s1).
Proof. intros Hm. unfold mbind, M_bind, bind. by rewrite Hm. Qed.

Lemma bind_nan m k s s1 : m s = (NotANumber, s1) → (m ≫= k) s = (NotANumber, s1).
Proof. intros Hm. unfold mbind, M_bind, bind. by rewrite Hm. Qed.


Lemma returns_bind m k s (Q : B → CppProperties → Prop) :
  returns m s (fun a s1 => returns (k a) s1 Q) → returns (m ≫= k) s Q.
Proof.
  intros (a & s1 & Hm & b & s2 & Hk & HQ). exists b, s2.
  split; [|done]. by rewrite (bind_normal _ _ _ _ _ Hm).
Qed.

Lemma returns_mono m s (Q Q' : A → CppProperties → Prop) :
  returns m s Q → (∀ a s', Q a s' → Q' a s') → returns m s Q'.
Proof. intros (a & s' & Hm & HQ) Himp. exists a, s'. eauto. Qed.

End Methods.

Lemma returns_modify (f : CppProperties → CppProperties) s
    (Q : unit → CppProperties → Prop) :
  Q tt (f s) → returns (modify f) s Q.
Proof. intros HQ. by exists tt, (f s). Qed.

(** * Properties of the selection index *)

Section SelectionIndex.

Implicit Types (h : Host) (s : CppProperties) (d : ConfigurationJson.t).
Implicit Types (l : list Configuration.t) (index : Z).

Lemma getConfigIndexForPlatform_loop_spec (plat : string) (pre suf : list Configuration.t) :
  getConfigIndexForPlatform_loop plat (pre ++ suf) (length suf) (length pre)
  = Normal (match list_find (fun c => Configuration.name c = plat) suf with
            | Some (j, _) => Some (length pre + j)%nat
            | None => None
            end).
Proof.
  revert pre. induction suf as [|c suf IH]; intros pre; [done|].
  cbn [getConfigIndexForPlatform_loop length].
  rewrite list_lookup_middle by done.
  simpl list_find. destruct (decide (Configuration.name c = plat)) as [Hc|Hc].
  - apply String.eqb_eq in Hc as ->. simpl. by rewrite Nat.add_0_r.
  - apply String.eqb_neq in Hc as ->.
    replace (pre ++ c :: suf) with ((pre ++ [c]) ++ suf) by (by rewrite <- app_assoc).
    replace (S (length pre)) with (length (pre ++ [c])) by (rewrite length_app; simpl; lia).
    rewrite IH. destruct (list_find _ suf) as [[j x]|]; simpl; [|done].
    do 2 f_equal. rewrite length_app. simpl. lia.
Qed.

Lemma Configurations_eq s d :
  configurationJson s = Document d →
  Configurations s = (Normal (ConfigurationJson.configurations d), s).
Proof. intros Hd. unfold Configurations, mbind, M_bind, bind, get_state. by rewrite Hd. Qed.

Lemma update_document_eq (f : ConfigurationJson.t → ConfigurationJson.t) s d :
  configurationJson s = Document d →
  update_document f s = (Normal tt, set_configurationJson (Document (f d)) s).
Proof. intros Hd. unfold update_document, mbind, M_bind, bind, get_state. by rewrite Hd. Qed.

(** Called with the document the object holds, the method returns the
    first index of the platform name, or the last index. *)
Lemma getConfigIndexForPlatform_eq h s d :
  configurationJson s = Document d →
  getConfigIndexForPlatform h d s
  = (Normal (platform_index h (ConfigurationJson.configurations d)), s).
Proof.
  intros Hd. unfold getConfigIndexForPlatform. cbv zeta.
  rewrite (bind_normal _ _ s s s) by done. rewrite Hd.
  rewrite (bind_normal _ _ _ _ _ (Configurations_eq s d Hd)).
  pose proof (getConfigIndexForPlatform_loop_spec
                (platformConfigurationName (platform h)) []
                (ConfigurationJson.configurations d)) as Hloop.
  simpl in Hloop. rewrite Hloop. unfold platform_index.
  by destruct (list_find _ _) as [[j x]|].
Qed.

Lemma fixIndexOutOfBounds_eq h s d :
  configurationJson s = Document d →
  fixIndexOutOfBounds h d s
  = (Normal tt,
     if out_of_bounds (currentConfigurationIndex s) (ConfigurationJson.configurations d)
     then set_currentConfigurationIndex
            (platform_index h (ConfigurationJson.configurations d)) s
     else s).
Proof.
  intros Hd. unfold fixIndexOutOfBounds.
  rewrite (bind_normal _ _ s s s) by done.
  destruct (out_of_bounds _ _); [|done]. unfold when.
  by rewrite (bind_normal _ _ _ _ _ (getConfigIndexForPlatform_eq h s d Hd)).
Qed.

Lemma platform_index_in_range h l :
  l ≠ [] → 0 ≤ platform_index h l < array_length l.
Proof.
  intros Hl. unfold platform_index, array_length.
  destruct (list_find _ l) as [[i c]|] eqn:Hfind.
  - apply list_find_Some in Hfind as (Hi & _). apply lookup_lt_Some in Hi. lia.
  - destruct l; [done|]. simpl. lia.
Qed.

Lemma normalized_index_in_range h l index :
  l ≠ [] → 0 ≤ normalized_index h l index < array_length l.
Proof.
  intros Hl. unfold normalized_index, out_of_bounds.
  destruct (index <? 0) eqn:Hneg; simpl; [by apply platform_index_in_range|].
  destruct (array_length l <=? index) eqn:Hbig; [by apply platform_index_in_range|].
  apply Z.ltb_ge in Hneg. apply Z.leb_gt in Hbig. lia.
Qed.

Lemma out_of_bounds_in_range {X} index (l : list X) :
  0 ≤ index < array_length l → out_of_bounds index l = false.
Proof.
  intros [Hlo Hhi]. unfold out_of_bounds.
  apply orb_false_intro; [by apply Z.ltb_ge | by apply Z.leb_gt].
Qed.






End SelectionIndex.

(** * Parsing the properties file *)

Section Parsing.

Implicit Types (h : Host) (s : CppProperties) (d : ConfigurationJson.t).
Implicit Types (l confs : list Configuration.t) (file : string).

Lemma keepConfigurationByName_eq confs s :
  keepConfigurationByName confs s
  = (Normal tt,
     match same_name_index s confs with
     | Some i => set_currentConfigurationIndex i s
     | None => s
     end).
Proof.
  unfold keepConfigurationByName, same_name_index, mbind, M_bind, bind, get_state.
  destruct (configurationIncomplete s); [done|].
  destruct (configurationJson s) as [| |old|env0 version0]; try done.
  destruct (array_get _ _) as [current|]; [|done]. simpl.
  by destruct (list_find _ confs) as [[i c]|].
Qed.

Lemma checkProviderIds_names providers l :
  names (checkProviderIds providers l).2 = names l.
Proof.
  induction l as [|c l IH]; [done|]. simpl.
  destruct (checkProviderIds providers l) as [dirty rest]. simpl in IH.
  case_bool_decide; simpl; unfold names in *; csimpl; by rewrite IH.
Qed.

Lemma correctProviderIds_eq h s d :
  configurationJson s = Document d →
  correctProviderIds h s
  = (Normal (checkProviderIds (providerCollection h) (ConfigurationJson.configurations d)).1,
     set_configurationJson
       (Document (ConfigurationJson.set_configurations
                    (checkProviderIds (providerCollection h)
                       (ConfigurationJson.configurations d)).2 d)) s).
Proof.
  intros Hd. unfold correctProviderIds.
  rewrite (bind_normal _ _ _ _ _ (Configurations_eq s d Hd)).
  destruct (checkProviderIds _ _) as [dirty checked]. simpl.
  by rewrite (bind_normal _ _ _ _ _ (update_document_eq _ s d Hd)).
Qed.

Lemma updateToVersion3_names h d :
  names (ConfigurationJson.configurations (updateToVersion3 h d))
  = names (ConfigurationJson.configurations d).
Proof.
  unfold updateToVersion3, names. simpl. rewrite <- list_fmap_compose.
  apply list_fmap_ext. intros i c _. apply updateToVersion3_configuration_name.
Qed.

Lemma updateToVersion4_names h s d :
  names (ConfigurationJson.configurations (updateToVersion4 h s d))
  = names (ConfigurationJson.configurations d).
Proof.
  unfold updateToVersion4, names. simpl. rewrite <- list_fmap_compose.
  by apply list_fmap_ext.
Qed.

Lemma migrate_names h s d :
  names (ConfigurationJson.configurations (migrate h s d).1)
  = names (ConfigurationJson.configurations d).
Proof.
  unfold migrate.
  set (d2 := if bool_decide (ConfigurationJson.version d = None)
             then updateToVersion2 d else d).
  set (d3 := if bool_decide (ConfigurationJson.version d2 = Some 2)
             then updateToVersion3 h d2 else d2).
  assert (names (ConfigurationJson.configurations d2)
          = names (ConfigurationJson.configurations d)) as H2
    by (unfold d2; by case_bool_decide).
  assert (names (ConfigurationJson.configurations d3)
          = names (ConfigurationJson.configurations d2)) as H3
    by (unfold d3; case_bool_decide; [apply updateToVersion3_names|done]).
  destruct (bool_decide (ConfigurationJson.version d3 = Some 3)); cbn [fst].
  - by rewrite updateToVersion4_names, H3, H2.
  - change (ConfigurationJson.configurations (ConfigurationJson.set_version _ d3))
      with (ConfigurationJson.configurations d3).
    by rewrite H3, H2.
Qed.

Lemma migrateDocument_returns h dirty s d :
  configurationJson s = Document d →
  returns (migrateDocument h dirty) s (fun _ s' =>
    ∃ d', configurationJson s' = Document d'
          ∧ names (ConfigurationJson.configurations d')
            = names (ConfigurationJson.configurations d)
          ∧ currentConfigurationIndex s' = currentConfigurationIndex s
          ∧ configurationIncomplete s' = configurationIncomplete s).
Proof.
  intros Hd. unfold returns, migrateDocument.
  rewrite (bind_normal _ _ s s s) by done. rewrite Hd.
  case_bool_decide.
  - pose proof (migrate_names h s d) as Hnames.
    destruct (migrate h s d) as [d' unknown]. simpl in Hnames.
    destruct unknown; eexists _, _; (split; [reflexivity|]); exists d'; done.
  - eexists _, _. split; [reflexivity|]. by exists d.
Qed.

Lemma writeIfDirty_returns h file dirty s d :
  configurationJson s = Document d →
  returns (writeIfDirty h file dirty) s (fun _ s' =>
    configurationJson s' = configurationJson s
    ∧ currentConfigurationIndex s' = currentConfigurationIndex s
    ∧ configurationIncomplete s' = configurationIncomplete s).
Proof.
  intros Hd. unfold returns, writeIfDirty.
  destruct dirty; [|by eexists _, _].
  rewrite (bind_normal _ _ s s s) by done. rewrite Hd.
  destruct (writeSucceeds h); by eexists _, _.
Qed.

(** The accepted parse returns, with the new names, the index normalized
    against them after the selection was carried over by name, and the
    document marked complete. *)
Lemma acceptParsed_returns h file (newJson : ParsedJson.t) confs s :
  returns (acceptParsed h file newJson confs) s (fun _ s' =>
    ∃ d', configurationJson s' = Document d'
          ∧ names (ConfigurationJson.configurations d') = names confs
          ∧ currentConfigurationIndex s'
            = normalized_index h confs
                (default (currentConfigurationIndex s) (same_name_index s confs))
          ∧ configurationIncomplete s' = false).
Proof.
  unfold acceptParsed. cbv zeta.
  set (nd := {| ConfigurationJson.configurations := confs;
                ConfigurationJson.env := ParsedJson.env newJson;
                ConfigurationJson.version := ParsedJson.version newJson |}).
  apply returns_bind. eexists tt, _. split; [apply keepConfigurationByName_eq|].
  set (s1 := match same_name_index s confs with
             | Some i => set_currentConfigurationIndex i s
             | None => s
             end).
  assert (currentConfigurationIndex s1
          = default (currentConfigurationIndex s) (same_name_index s confs)) as Hidx1
    by (unfold s1; by destruct (same_name_index s confs)).
  apply returns_bind, returns_modify.
  set (s2 := set_configurationJson (Document nd) s1).
  apply returns_bind. eexists tt, _.
  split; [by apply (fixIndexOutOfBounds_eq h s2 nd)|].
  set (s3 := if out_of_bounds (currentConfigurationIndex s2) (ConfigurationJson.configurations nd)
             then set_currentConfigurationIndex (platform_index h (ConfigurationJson.configurations nd)) s2
             else s2).
  assert (configurationJson s3 = Document nd) as Hd3
    by (unfold s3; by destruct (out_of_bounds _ _)).
  assert (currentConfigurationIndex s3
          = normalized_index h confs
              (default (currentConfigurationIndex s) (same_name_index s confs))) as Hidx3.
  { unfold s3, normalized_index. change (currentConfigurationIndex s2) with (currentConfigurationIndex s1).
    rewrite Hidx1. change (ConfigurationJson.configurations nd) with confs.
    by destruct (out_of_bounds _ confs). }
  apply returns_bind. eexists _, _. split; [by apply (correctProviderIds_eq h s3 nd)|].
  set (d4 := ConfigurationJson.set_configurations _ nd).
  set (s4 := set_configurationJson (Document d4) s3).
  assert (names (ConfigurationJson.configurations d4) = names confs) as Hn4
    by apply checkProviderIds_names.
  apply returns_bind. eexists tt, _. split; [by apply (update_document_eq _ s4 d4)|].
  apply returns_bind, returns_modify.
  match goal with |- returns _ ?st _ => set (s6 := st) end.
  assert (∃ d5, configurationJson s6 = Document d5
                ∧ names (ConfigurationJson.configurations d5) = names confs)
    as (d5 & Hd5 & Hn5).
  { eexists. split; [reflexivity|]. exact Hn4. }
  assert (currentConfigurationIndex s6 = currentConfigurationIndex s3) as Hidx6 by done.
  apply returns_bind.
  eapply returns_mono; [apply (migrateDocument_returns h _ s6 d5 Hd5)|].
  intros dirty s7 (d7 & Hd7 & Hn7 & Hidx7 & Hinc7). cbv beta.
  eapply returns_mono; [apply (writeIfDirty_returns h file dirty s7 d7 Hd7)|].
  intros [] s8 (Hd8 & Hidx8 & Hinc8). cbv beta.
  exists d7. rewrite Hd8, Hidx8, Hinc8, Hidx7, Hinc7, Hn7, Hidx6. done.
Qed.

(** The parse that accepts a value whose [configurations] is [{}]: with
    a negative index it goes on with the index [NaN]; otherwise it returns,
    and the store holds the document without entries at the current
    version. *)
Lemma acceptWithoutEntries_NaN h file (newJson : ParsedJson.t) s :
  currentConfigurationIndex s < 0 →
  acceptWithoutEntries h file newJson s
  = (NotANumber,
     set_configurationJson
       (DocumentWithoutEntries (ParsedJson.env newJson) (ParsedJson.version newJson)) s).
Proof.
  intros Hneg. unfold acceptWithoutEntries.
  match goal with |- context [set_configurationJson ?v s] =>
    rewrite (bind_normal _ _ s tt (set_configurationJson v s)) by done end.
  unfold fixIndexWithoutEntries.
  match goal with |- (?m ≫= _) ?st = _ =>
    assert (m st = (NotANumber, st)) as Hm end.
  { match goal with |- _ ?st = _ => rewrite (bind_normal _ _ st st st) by done end.
    cbn [currentConfigurationIndex set_configurationJson].
    by rewrite (proj2 (Z.ltb_lt _ _) Hneg). }
  unfold mbind, M_bind, bind in *. by rewrite Hm.
Qed.

Lemma migrateWithoutEntries_eq (dirty : bool) s env0 version0 :
  configurationJson s = DocumentWithoutEntries env0 version0 →
  migrateWithoutEntries dirty s
  = (Normal (bool_decide (version0 ≠ Some configVersion) || dirty),
     if bool_decide (version0 ≠ Some configVersion)
     then if known_version version0
          then set_configurationJson (DocumentWithoutEntries env0 (Some configVersion)) s
          else add_effect (ShowErrorMessage UnknownVersionNumber)
                 (set_configurationJson (DocumentWithoutEntries env0 (Some configVersion)) s)
     else s).
Proof.
  intros Hd. unfold migrateWithoutEntries.
  rewrite (bind_normal _ _ s s s) by done. rewrite Hd.
  destruct (bool_decide (version0 ≠ Some configVersion)); [|done]. cbv zeta.
  assert (bool_decide
            ((if bool_decide ((if bool_decide (version0 = None)
                               then Some 2 else version0) = Some 2)
              then Some 3
              else if bool_decide (version0 = None) then Some 2 else version0) = Some 3)
          = known_version version0) as ->.
  { unfold known_version. destruct version0 as [v|]; [|done].
    rewrite (bool_decide_eq_false_2 (Some v = None)) by done.
    destruct (decide (v = 2)) as [->|H2]; [done|].
    rewrite (bool_decide_eq_false_2 (Some v = Some 2)) by congruence.
    apply bool_decide_ext. split; [tauto|]. intros [?|[?|?]]; congruence. }
  set (s4 := set_configurationJson (DocumentWithoutEntries env0 (Some configVersion)) s).
  rewrite (bind_normal _ _ s tt s4) by done.
  destruct (known_version version0); cbn [negb when].
  - by rewrite (bind_normal _ _ s4 tt s4).
  - by rewrite (bind_normal _ _ s4 tt (add_effect (ShowErrorMessage UnknownVersionNumber) s4)).
Qed.

Lemma writeWithoutEntriesIfDirty_eq h file (dirty : bool) s env0 version0 :
  configurationJson s = DocumentWithoutEntries env0 version0 →
  writeWithoutEntriesIfDirty h file dirty s
  = (Normal tt,
     if dirty
     then add_effect (if writeSucceeds h then WriteFileSyncWithoutEntries file env0 version0
                      else ShowWarningMessage (UpdateFailed file)) s
     else s).
Proof.
  intros Hd. unfold writeWithoutEntriesIfDirty. destruct dirty; [|done].
  rewrite (bind_normal _ _ s s s) by done. rewrite Hd.
  by destruct (writeSucceeds h).
Qed.

Lemma acceptWithoutEntries_run h file (newJson : ParsedJson.t) s :
  0 ≤ currentConfigurationIndex s →
  ∃ s',
    acceptWithoutEntries h file newJson s = (Normal tt, s')
    ∧ configurationJson s'
      = DocumentWithoutEntries (removeDisallowedOverrides <$> ParsedJson.env newJson)
          (Some configVersion)
    ∧ currentConfigurationIndex s' = currentConfigurationIndex s
    ∧ configurationIncomplete s' = false
    ∧ propertiesFile s' = propertiesFile s
    ∧ effects s' = effects s ++ effects_without_entries h file newJson.
Proof.
  intros Hpos. unfold acceptWithoutEntries.
  set (s1 := set_configurationJson
               (DocumentWithoutEntries (ParsedJson.env newJson) (ParsedJson.version newJson)) s).
  rewrite (bind_normal _ _ s tt s1) by done.
  rewrite (bind_normal _ _ s1 tt s1).
  2:{ unfold fixIndexWithoutEntries. rewrite (bind_normal _ _ s1 s1 s1) by done.
      change (currentConfigurationIndex s1) with (currentConfigurationIndex s).
      by rewrite (proj2 (Z.ltb_ge _ _) Hpos). }
  set (s2 := set_configurationJson
               (DocumentWithoutEntries (removeDisallowedOverrides <$> ParsedJson.env newJson)
                  (ParsedJson.version newJson)) s1).
  rewrite (bind_normal _ _ s1 tt s2) by done.
  set (s3 := set_configurationIncomplete false s2).
  rewrite (bind_normal _ _ s2 tt s3) by done.
  rewrite (bind_normal _ _ _ _ _ (migrateWithoutEntries_eq false s3 _ _ eq_refl)).
  unfold effects_without_entries. rewrite orb_false_r.
  destruct (decide (ParsedJson.version newJson = Some configVersion)) as [Hv|Hv].
  - rewrite bool_decide_eq_false_2 by (by intros ?).
    eexists. split; [by apply (writeWithoutEntriesIfDirty_eq h file false s3 _ _ eq_refl)|].
    cbv iota. rewrite app_nil_r. unfold s3, s2, s1. cbn. rewrite Hv. by split_and!.
  - rewrite (bool_decide_eq_true_2 _ Hv).
    destruct (known_version (ParsedJson.version newJson)).
    + eexists. split; [by eapply writeWithoutEntriesIfDirty_eq|].
      destruct (writeSucceeds h); by split_and!.
    + eexists. split; [by eapply writeWithoutEntriesIfDirty_eq|].
      destruct (writeSucceeds h); cbn; rewrite <- ?app_assoc; by split_and!.
Qed.

Lemma parsePropertiesFile_without_entries_NaN h s file (newJson : ParsedJson.t) :
  propertiesFile s = Some file →
  readPropertiesFile h = Parsed (Some newJson) →
  ParsedJson.configurations newJson = ObjectWithoutEntries →
  currentConfigurationIndex s < 0 →
  parsePropertiesFile h s
  = (NotANumber,
     set_configurationJson
       (DocumentWithoutEntries (ParsedJson.env newJson) (ParsedJson.version newJson)) s).
Proof.
  intros Hfile Hread Hconfs Hneg.
  unfold parsePropertiesFile, try_catch, parsePropertiesFile_try.
  rewrite (bind_normal _ _ s s s) by done. rewrite Hfile, Hread, Hconfs.
  by rewrite (acceptWithoutEntries_NaN h file newJson s Hneg).
Qed.

Lemma parsePropertiesFile_without_entries_run h s file (newJson : ParsedJson.t) :
  propertiesFile s = Some file →
  readPropertiesFile h = Parsed (Some newJson) →
  ParsedJson.configurations newJson = ObjectWithoutEntries →
  0 ≤ currentConfigurationIndex s →
  ∃ s',
    parsePropertiesFile h s = (Normal tt, s')
    ∧ configurationJson s'
      = DocumentWithoutEntries (removeDisallowedOverrides <$> ParsedJson.env newJson)
          (Some configVersion)
    ∧ currentConfigurationIndex s' = currentConfigurationIndex s
    ∧ configurationIncomplete s' = false
    ∧ propertiesFile s' = propertiesFile s
    ∧ effects s' = effects s ++ effects_without_entries h file newJson.
Proof.
  intros Hfile Hread Hconfs Hpos.
  destruct (acceptWithoutEntries_run h file newJson s Hpos) as (s' & Hrun & Hrest).
  exists s'. split; [|exact Hrest].
  unfold parsePropertiesFile, try_catch, parsePropertiesFile_try.
  rewrite (bind_normal _ _ s s s) by done. rewrite Hfile, Hread, Hconfs.
  by rewrite Hrun.
Qed.

(** What [parsePropertiesFile] does with a file, by what the read gives. *)
Lemma parsePropertiesFile_rejected h s file :
  propertiesFile s = Some file →
  rejected_read (readPropertiesFile h) = true →
  ∃ err, parsePropertiesFile h s
         = (Throw err, add_effect (ShowErrorMessage (FailedToParse file err)) s)
         ∧ err = match readPropertiesFile h with
                 | ParseThrows m => SyntaxError m
                 | _ => InvalidConfigurationFile
                 end.
Proof.
  intros Hfile Hread.
  unfold parsePropertiesFile, try_catch, parsePropertiesFile_try.
  rewrite (bind_normal _ _ s s s) by done. rewrite Hfile.
  destruct (readPropertiesFile h) as [m| |m|[j|]]; try done.
  - exists (SyntaxError m). split; [|done]. unfold throw at 1.
    rewrite (bind_normal _ _ s s s) by done. rewrite Hfile. done.
  - simpl in Hread.
    destruct (ParsedJson.configurations j) as [|[|c l]|]; try done.
    + exists InvalidConfigurationFile. split; [|done]. unfold throw at 1.
      rewrite (bind_normal _ _ s s s) by done. rewrite Hfile. done.
    + exists InvalidConfigurationFile. split; [|done]. unfold throw at 1.
      rewrite (bind_normal _ _ s s s) by done. rewrite Hfile. done.
  - exists InvalidConfigurationFile. split; [|done]. unfold throw at 1.
    rewrite (bind_normal _ _ s s s) by done. rewrite Hfile. done.
Qed.

Lemma parsePropertiesFile_accepted h s file (newJson : ParsedJson.t) c confs :
  propertiesFile s = Some file →
  readPropertiesFile h = Parsed (Some newJson) →
  ParsedJson.configurations newJson = ArrayOf (c :: confs) →
  returns (parsePropertiesFile h) s (fun _ s' =>
    ∃ d', configurationJson s' = Document d'
          ∧ names (ConfigurationJson.configurations d') = names (c :: confs)
          ∧ currentConfigurationIndex s'
            = normalized_index h (c :: confs)
                (default (currentConfigurationIndex s) (same_name_index s (c :: confs)))
          ∧ configurationIncomplete s' = false).
Proof.
  intros Hfile Hread Hconfs.
  destruct (acceptParsed_returns h file newJson (c :: confs) s) as (a & s' & Hrun & HQ).
  exists a, s'. split; [|done].
  unfold parsePropertiesFile, try_catch, parsePropertiesFile_try.
  rewrite (bind_normal _ _ s s s) by done. rewrite Hfile, Hread, Hconfs.
  by rewrite Hrun.
Qed.

Lemma parsePropertiesFile_empty_read h s file :
  propertiesFile s = Some file →
  readPropertiesFile h = ReadEmptyString →
  parsePropertiesFile h s = (Normal tt, s).
Proof.
  intros Hfile Hread.
  unfold parsePropertiesFile, try_catch, parsePropertiesFile_try.
  rewrite (bind_normal _ _ s s s) by done. by rewrite Hfile, Hread.
Qed.

End Parsing.

Section ParsingClaims.

Implicit Types (h : Host) (s : CppProperties) (file : string).

(** C2: [parsePropertiesFile] on a file without configuration entries.
    When the text of the file is malformed, or parses to a falsy value or
    to a value whose [configurations] is falsy or is the empty array, the
    parse throws to its caller after showing the failure to the user, and
    the document held in memory, the selection index and the completeness
    flag are what they were; the document with an empty list of
    configurations and version 4 throws the invalid-configuration error.
    A value whose [configurations] is an object without entries, as in the
    text [{"configurations": {}, "version": 4}], is not caught by the test
    that guards the assignment, since the [length] of that object is not
    [0] but [undefined]: with an index that is not negative the parse
    returns, and the document held in memory has been replaced by the
    value read, which holds no configuration; with a negative index the
    document has been replaced as well when the index becomes not a
    number. On the store loaded with the configurations A, Linux and B and
    index 1, the parse of that text returns, shows nothing, and leaves a
    document without configuration in the place of the three. *)
Theorem C2_parse_without_entries :
  (∀ h s file,
     propertiesFile s = Some file →
     rejected_read (readPropertiesFile h) = true →
     ∃ err s',
       parsePropertiesFile h s = (Throw err, s')
       ∧ configurationJson s' = configurationJson s
       ∧ currentConfigurationIndex s' = currentConfigurationIndex s
       ∧ configurationIncomplete s' = configurationIncomplete s
       ∧ effects s' = effects s ++ [ShowErrorMessage (FailedToParse file err)])
  ∧ (∀ h s file,
       propertiesFile s = Some file →
       readPropertiesFile h = Parsed (Some empty_document) →
       ∃ s',
         parsePropertiesFile h s = (Throw InvalidConfigurationFile, s')
         ∧ configurationJson s' = configurationJson s
         ∧ effects s'
           = effects s ++ [ShowErrorMessage (FailedToParse file InvalidConfigurationFile)])
  ∧ (∀ h s file (newJson : ParsedJson.t),
       propertiesFile s = Some file →
       readPropertiesFile h = Parsed (Some newJson) →
       ParsedJson.configurations newJson = ObjectWithoutEntries →
       (0 ≤ currentConfigurationIndex s →
        ∃ s',
          parsePropertiesFile h s = (Normal tt, s')
          ∧ configurationJson s'
            = DocumentWithoutEntries (removeDisallowedOverrides <$> ParsedJson.env newJson)
                (Some configVersion)
          ∧ currentConfigurationIndex s' = currentConfigurationIndex s
          ∧ effects s' = effects s ++ effects_without_entries h file newJson)
       ∧ (currentConfigurationIndex s < 0 →
          parsePropertiesFile h s
          = (NotANumber,
             set_configurationJson
               (DocumentWithoutEntries (ParsedJson.env newJson) (ParsedJson.version newJson))
               s)))
  ∧ (∃ d s',
       configurationJson loaded_state = Document d
       ∧ names (ConfigurationJson.configurations d) = ["A"; "Linux"; "B"]
       ∧ currentConfigurationIndex loaded_state = 1
       ∧ parsePropertiesFile
           (sample_host (Some sample_file) (Parsed (Some object_without_entries)))
           loaded_state
         = (Normal tt, s')
       ∧ configurationJson s' = DocumentWithoutEntries None (Some 4)
       ∧ currentConfigurationIndex s' = 1
       ∧ effects s' = effects loaded_state).
Proof.
  split_and!.
  - intros h s file Hfile Hread.
    destruct (parsePropertiesFile_rejected h s file Hfile Hread) as (err & Hrun & _).
    exists err, (add_effect (ShowErrorMessage (FailedToParse file err)) s). by rewrite Hrun.
  - intros h s file Hfile Hread.
    destruct (parsePropertiesFile_rejected h s file Hfile) as (err & Hrun & Herr).
    { by rewrite Hread. }
    rewrite Hread in Herr. subst err.
    exists (add_effect (ShowErrorMessage (FailedToParse file InvalidConfigurationFile)) s).
    by rewrite Hrun.
  - intros h s file newJson Hfile Hread Hconfs. split.
    + intros Hpos.
      destruct (parsePropertiesFile_without_entries_run h s file newJson Hfile Hread Hconfs Hpos)
        as (s' & Hrun & Hd & Hidx & _ & _ & Hef).
      by exists s'.
    + intros Hneg. by apply (parsePropertiesFile_without_entries_NaN h s file newJson).
  - assert (∃ d, configurationJson loaded_state = Document d
                 ∧ names (ConfigurationJson.configurations d) = ["A"; "Linux"; "B"])
      as (d & Hd & Hnames).
    { eexists. split; vm_compute; reflexivity. }
    assert (propertiesFile loaded_state = Some sample_file) as Hfile
      by (vm_compute; reflexivity).
    assert (currentConfigurationIndex loaded_state = 1) as Hidx
      by (vm_compute; reflexivity).
    destruct (parsePropertiesFile_without_entries_run
                (sample_host (Some sample_file) (Parsed (Some object_without_entries)))
                loaded_state sample_file object_without_entries Hfile eq_refl eq_refl)
      as (s' & Hrun & Hd' & Hidx' & _ & _ & Hef).
    { by rewrite Hidx. }
    exists d, s'. rewrite Hidx', Hef. by split_and!.
Qed.

(** C10: when defaulting is complete and a configuration is selected, a
    parse that accepts the file carries the selection over by name: if the
    new list has an entry named like the selected configuration, the index
    becomes the position of the first such entry, before the range test,
    and that is the index once the parse has returned. *)
Theorem C10_selection_kept_by_name h s file (newJson : ParsedJson.t)
    (old : ConfigurationJson.t) (current found : Configuration.t)
    (confs : list Configuration.t) (i : nat) :
  propertiesFile s = Some file →
  configurationIncomplete s = false →
  configurationJson s = Document old →
  array_get (ConfigurationJson.configurations old) (currentConfigurationIndex s)
    = Some current →
  readPropertiesFile h = Parsed (Some newJson) →
  ParsedJson.configurations newJson = ArrayOf confs →
  list_find (fun c => Configuration.name c = Configuration.name current) confs
    = Some (i, found) →
  keepConfigurationByName confs s
    = (Normal tt, set_currentConfigurationIndex (Z.of_nat i) s)
  ∧ ∃ s' d',
      parsePropertiesFile h s = (Normal tt, s')
      ∧ configurationJson s' = Document d'
      ∧ names (ConfigurationJson.configurations d') = names confs
      ∧ currentConfigurationIndex s' = Z.of_nat i.
Proof.
  intros Hfile Hcomplete Hold Hcurrent Hread Hconfs Hfind.
  assert (same_name_index s confs = Some (Z.of_nat i)) as Hsame.
  { unfold same_name_index. rewrite Hcomplete, Hold, Hcurrent. simpl. by rewrite Hfind. }
  split.
  - by rewrite keepConfigurationByName_eq, Hsame.
  - destruct confs as [|c confs].
    { by apply list_find_Some in Hfind as [Hnil _]. }
    destruct (parsePropertiesFile_accepted h s file newJson c confs Hfile Hread Hconfs)
      as ([] & s' & Hrun & d' & Hd' & Hnames & Hidx & _).
    exists s', d'. split_and!; [done..|].
    rewrite Hidx, Hsame. simpl. unfold normalized_index.
    rewrite out_of_bounds_in_range; [done|].
    apply list_find_Some in Hfind as (Hi & _). apply lookup_lt_Some in Hi.
    unfold array_length. lia.
Qed.

Lemma C10_selection_witness :
  ∃ s',
    parsePropertiesFile
      (sample_host (Some sample_file) (Parsed (Some (parsed_with ["Linux"; "A"]))))
      loaded_state
    = (Normal tt, s')
    ∧ currentConfigurationIndex loaded_state = 1
    ∧ currentConfigurationIndex s' = 0.
Proof.
  destruct (proj2 (C10_selection_kept_by_name
              (sample_host (Some sample_file) (Parsed (Some (parsed_with ["Linux"; "A"]))))
              loaded_state sample_file (parsed_with ["Linux"; "A"])
              (ConfigurationJson.set_version (Some 4)
                 {| ConfigurationJson.configurations :=
                      Configuration.named <$> ["A"; "Linux"; "B"];
                    ConfigurationJson.env := None;
                    ConfigurationJson.version := Some 4 |})
              (Configuration.named "Linux") (Configuration.named "Linux")
              (Configuration.named <$> ["Linux"; "A"]) 0%nat
              ltac:(vm_compute; reflexivity) ltac:(vm_compute; reflexivity)
              ltac:(vm_compute; reflexivity) ltac:(vm_compute; reflexivity)
              eq_refl eq_refl ltac:(vm_compute; reflexivity)))
    as (s' & d' & Hrun & _ & _ & Hidx).
  exists s'. split_and!; [exact Hrun | vm_compute; reflexivity | exact Hidx].
Defined.

End ParsingClaims.

(** * Reconciliation *)

Section Reconciliation.

Implicit Types (h : Host) (s : CppProperties) (d : ConfigurationJson.t).
Implicit Types (l : list Configuration.t).





Lemma ExtendedEnvironment_eq h s d :
  configurationJson s = Document d →
  ExtendedEnvironment h s
  = (Normal (<["workspaceFolderBasename" := EnvString (workspaceFolderBasename h)]>
               (default ∅ (ConfigurationJson.env d))), s).
Proof.
  intros Hd. unfold ExtendedEnvironment.
  rewrite (bind_normal _ _ s s s) by done. by rewrite Hd.
Qed.



(** The watcher update on a store that holds a document, and on the
    document without entries. *)
Lemma updateCompileCommandsFileWatchers_eq h s d :
  configurationJson s = Document d →
  updateCompileCommandsFileWatchers h s
  = (Normal tt,
     add_effect (WatchCompileCommands (watched_files h (ConfigurationJson.configurations d))) s).
Proof.
  intros Hd. unfold updateCompileCommandsFileWatchers.
  rewrite (bind_normal _ _ s s s) by done. by rewrite Hd.
Qed.



Lemma platform_index_default h :
  platform_index h (ConfigurationJson.configurations (getDefaultCppProperties h)) = 0.
Proof.
  unfold platform_index, getDefaultCppProperties, getDefaultConfig. simpl.
  by rewrite decide_True.
Qed.

Lemma normalized_index_default h index :
  normalized_index h (ConfigurationJson.configurations (getDefaultCppProperties h)) index = 0.
Proof.
  unfold normalized_index. destruct (out_of_bounds _ _) eqn:Hb.
  - apply platform_index_default.
  - unfold out_of_bounds, array_length in Hb. simpl in Hb.
    apply orb_false_elim in Hb as [Hlo%Z.ltb_ge Hhi%Z.leb_gt]. lia.
Qed.



End Reconciliation.

Section ReconciliationClaims.

Implicit Types (h : Host) (s : CppProperties) (d : ConfigurationJson.t).







End ReconciliationClaims.

(** * Further properties of the wrapper and of the registry *)

Section RegistryOperations.

Local Open Scope nat_scope.

Implicit Types (p q : Provider.t) (w : Wrapper.t) (r : Registry.Providers).
Implicit Types (v : Version.t) (id : option string).

(** A call of [add] that returned true went through the validity check and
    stored the wrapper under its identity, without logging. *)
Lemma add_true_inv (engine : string) p v r r' log :
  Registry.add engine p v r = (true, r', log) →
  Wrapper.isValid (Wrapper.new p v) = true
  ∧ r' = <[Wrapper.get_extensionId (Wrapper.new p v) := Wrapper.new p v]> r
  ∧ log = [].
Proof.
  unfold Registry.add. destruct (String.eqb engine "Disabled"); [done|].
  destruct (Wrapper.isValid (Wrapper.new p v)); simpl; [|done].
  match goal with |- context [negb ?b] => destruct b end; simpl; [done|].
  by intros [= <- <-].
Qed.

(** The identity [getId] computes for a provider is the key [add] files
    its valid wrapper under, at every version. *)
Lemma getId_valid p v :
  Wrapper.isValid (Wrapper.new p v) = true →
  Some (Registry.getId (inr p)).1 = Wrapper.get_extensionId (Wrapper.new p v).
Proof.
  intros Hvalid. pose proof (isValid_extensionId _ Hvalid) as Hext.
  pose proof (isValid_name _ Hvalid) as Hname.
  unfold Wrapper.get_name in Hname. change (Wrapper.provider (Wrapper.new p v)) with p in Hname.
  unfold Registry.getId.
  destruct (truthy (Provider.extensionId p)) eqn:He.
  - destruct (decide (v = Version.v0)) as [->|Hv].
    + rewrite (new_extensionId_promoted p He).
      by destruct (Provider.extensionId p).
    + rewrite (new_extensionId_later p v) by (unfold Version.v1, Version.v0 in *; lia).
      by destruct (Provider.extensionId p).
  - destruct (decide (v = Version.v0)) as [->|Hv].
    + rewrite (new_extensionId_legacy p He). rewrite Hname.
      by destruct (Provider.name p).
    + rewrite (new_extensionId_later p v) in Hext
        by (unfold Version.v1, Version.v0 in *; lia).
      congruence.
Qed.

(** X1. After [add] returned true, [get] finds the wrapper of the provider,
    by the provider object as by its identity string; every other identity
    holds what it held before; and nothing was logged. *)
Theorem add_then_get (engine : string) p v r r' log :
  Registry.add engine p v r = (true, r', log) →
  Registry.get (inr p) r' = Some (Wrapper.new p v)
  ∧ Registry.get (inl (Registry.getId (inr p)).1) r' = Some (Wrapper.new p v)
  ∧ (∀ k, k ≠ Some (Registry.getId (inr p)).1 → r' !! k = r !! k)
  ∧ log = [].
Proof.
  intros (Hvalid & -> & ->)%add_true_inv.
  pose proof (getId_valid p v Hvalid) as Hid.
  split_and!; [| | |done].
  - unfold Registry.get. cbv zeta. rewrite Hid. apply lookup_insert_eq.
  - unfold Registry.get. cbv zeta.
    change (Registry.getId (inl (Registry.getId (inr p)).1)).1
      with (Registry.getId (inr p)).1.
    rewrite Hid. apply lookup_insert_eq.
  - intros k Hk. rewrite Hid in Hk. by rewrite lookup_insert_ne.
Qed.

Lemma add_then_get_witness :
  Registry.get (inr (identified_provider 1 "Foo" "ext.foo")) registry_with_Foo
  = Some (Wrapper.new (identified_provider 1 "Foo" "ext.foo") Version.v1).
Proof.
  exact (proj1 (add_then_get "Default" (identified_provider 1 "Foo" "ext.foo") Version.v1
                  ∅ registry_with_Foo [] eq_refl)).
Defined.

(** X2. [remove] takes out the identity of the provider and nothing else;
    for an identity that is not registered it leaves the registry as it is
    and warns; and removing a provider right after it was added under a
    free identity gives the registry back. *)
Theorem remove_then_get p r :
  Registry.get (inr p) (Registry.remove p r).1 = None
  ∧ (∀ k, k ≠ Some (Registry.getId (inr p)).1 → (Registry.remove p r).1 !! k = r !! k)
  ∧ (r !! Some (Registry.getId (inr p)).1 = None →
     Registry.remove p r
     = (r, (Registry.getId (inr p)).2 ++ [WarnNotRegistered (Registry.getId (inr p)).1]))
  ∧ (∀ (engine : string) v r' log,
       r !! Some (Registry.getId (inr p)).1 = None →
       Registry.add engine p v r = (true, r', log) →
       (Registry.remove p r').1 = r).
Proof.
  unfold Registry.remove, Registry.get.
  destruct (Registry.getId (inr p)) as [i log0] eqn:Hid. simpl.
  split_and!.
  - destruct (r !! Some i) eqn:Hi; simpl; [apply lookup_delete_eq|done].
  - intros k Hk. destruct (r !! Some i) eqn:Hi; simpl; [by rewrite lookup_delete_ne|done].
  - by intros ->.
  - intros engine v r' log Hfree (Hvalid & -> & _)%add_true_inv.
    pose proof (getId_valid p v Hvalid) as Hkey. rewrite Hid in Hkey. simpl in Hkey.
    rewrite <- Hkey, lookup_insert_eq. simpl.
    rewrite delete_insert_eq. by apply delete_id.
Qed.

(** X3. Validity is monotone in the version: a provider that is valid at
    some version is valid at every lower one (a provider that is valid at
    version 1 or later has an [extensionId], so at version 0 it is wrapped
    at version 1). *)
Theorem isValid_monotone p v v' :
  v ≤ v' →
  Wrapper.isValid (Wrapper.new p v') = true →
  Wrapper.isValid (Wrapper.new p v) = true.
Proof.
  intros Hle. unfold Wrapper.isValid, Wrapper.new. simpl.
  destruct (truthy (Provider.name p)), (Provider.canProvideConfiguration p),
    (Provider.provideConfigurations p); simpl; try done;
    try (by destruct (truthy (Provider.extensionId p) && (v' =? Version.v0))).
  destruct (truthy (Provider.extensionId p)) eqn:He; simpl.
  - destruct v' as [|[|a]], v as [|[|b]]; simpl; try lia; try done;
      destruct (Provider.dispose p); simpl; try done;
      by destruct (_ && _).
  - destruct v' as [|[|a]], v as [|[|b]]; simpl; try lia; done.
Qed.

Lemma isValid_monotone_witness :
  Wrapper.isValid (Wrapper.new (identified_provider 1 "Foo" "ext.foo") Version.v0) = true.
Proof.
  apply (isValid_monotone (identified_provider 1 "Foo" "ext.foo") Version.v0 Version.v1).
  - unfold Version.v0, Version.v1. lia.
  - reflexivity.
Defined.

(** X4. A provider that fails the validity check is not registered: [add]
    returns false, keeps the registry and logs the diagnostic. The list of
    missing properties in that diagnostic is empty in exactly one case: the
    provider was added at version 0, has the version-0 methods and an
    [extensionId], and lacks [dispose] (it is checked as version 1 and
    reported as version 0). The list never names [provideConfigurations]. *)
Theorem rejected_registration (engine : string) p v r :
  engine ≠ "Disabled" →
  Wrapper.isValid (Wrapper.new p v) = false →
  Registry.add engine p v r = (false, r, [Registry.logProblems p v])
  ∧ (missing_properties (Registry.logProblems p v) = [] ↔
     v = Version.v0
     ∧ truthy (Provider.extensionId p) = true ∧ Provider.dispose p = false
     ∧ truthy (Provider.name p) = true ∧ Provider.canProvideConfiguration p = true
     ∧ Provider.provideConfigurations p = true)
  ∧ "'provideConfigurations'" ∉ missing_properties (Registry.logProblems p v).
Proof.
  intros Hengine Hinvalid. split.
  { unfold Registry.add. by rewrite (eqb_engine_enabled _ Hengine), Hinvalid. }
  revert Hinvalid. unfold Wrapper.isValid, Wrapper.new, Registry.logProblems. simpl.
  destruct (truthy (Provider.name p)), (truthy (Provider.extensionId p)),
    (Provider.canProvideConfiguration p), (Provider.provideConfigurations p),
    (Provider.dispose p), (Provider.canProvideBrowseConfiguration p),
    (Provider.provideBrowseConfiguration p), v as [|[|n]];
    simpl; intros Hinvalid; try discriminate Hinvalid;
    (split;
     [ first [ split; [intros [=] | intros (? & ? & ? & ? & ? & ?); discriminate]
             | split; [done | intros _; done] ]
     | apply (bool_decide_unpack _); by vm_compute ]).
Qed.

Lemma rejected_registration_witness :
  Registry.add "Default" (undisposable_provider 1 "Foo" "ext.foo") Version.v0 ∅
  = (false, ∅, [ErrorNotRegistered []]).
Proof.
  assert ("Default" ≠ "Disabled") as Hengine by (intros [=]).
  exact (proj1 (rejected_registration "Default" (undisposable_provider 1 "Foo" "ext.foo")
                  Version.v0 ∅ Hengine eq_refl)).
Defined.

(** Every wrapper the registry holds was built by the constructor. *)
Lemma after_calls_constructed (r : Registry.Providers) (calls : list RegistryCall) :
  registered_valid r →
  (∀ k w, r !! k = Some w → ∃ v, w = Wrapper.new (Wrapper.provider w) v) →
  registered_valid (foldl after_call r calls)
  ∧ (∀ k w, foldl after_call r calls !! k = Some w →
            ∃ v, w = Wrapper.new (Wrapper.provider w) v).
Proof.
  revert r. induction calls as [|c calls IH]; intros r Hvalid Hnew; [done|].
  simpl. apply IH.
  - destruct c as [engine p v|p]; [by apply add_registered_valid
                                  | by apply remove_registered_valid].
  - destruct c as [engine p v|p]; simpl.
    + unfold Registry.add. destruct (String.eqb engine "Disabled"); simpl; [done|].
      destruct (Wrapper.isValid (Wrapper.new p v)); simpl; [|done].
      match goal with |- context [negb ?b] => destruct b end; simpl; [done|].
      intros k w. rewrite lookup_insert. case_decide; [|apply Hnew].
      intros [= <-]. by exists v.
    + unfold Registry.remove. destruct (Registry.getId (inr p)) as [i log].
      destruct (r !! Some i); simpl; [|done].
      intros k w Hk. apply lookup_delete_Some in Hk as [_ Hk]. by apply (Hnew k).
Qed.

(** X5. Whatever sequence of [add] and [remove] calls a fresh collection
    receives, every wrapper it holds is valid, is filed under its own
    identity, that identity is a non-empty string, and [get] with the
    wrapped provider finds that wrapper. *)
Theorem registry_invariant (calls : list RegistryCall) :
  ∀ k w,
    after_calls calls !! k = Some w →
    Wrapper.isValid w = true
    ∧ Wrapper.get_extensionId w = k
    ∧ truthy k = true
    ∧ Registry.get (inr (Wrapper.provider w)) (after_calls calls) = Some w.
Proof.
  intros k w Hk.
  destruct (after_calls_constructed ∅ calls registered_valid_empty) as [Hvalid Hnew].
  { intros k' w' Hk'. by rewrite lookup_empty in Hk'. }
  fold (after_calls calls) in Hvalid, Hnew.
  destruct (Hvalid k w Hk) as [Hv He]. destruct (Hnew k w Hk) as [v Hw].
  split_and!; [done|done|..].
  - rewrite <- He. by apply isValid_extensionId.
  - unfold Registry.get. cbv zeta.
    rewrite Hw in Hv. rewrite (getId_valid _ v Hv), <- Hw, He. done.
Qed.

Lemma registry_invariant_witness :
  Registry.get (inr (identified_provider 1 "Foo" "ext.foo"))
    (after_calls [CallAdd "Default" (identified_provider 1 "Foo" "ext.foo") Version.v1])
  = Some (Wrapper.new (identified_provider 1 "Foo" "ext.foo") Version.v1).
Proof.
  assert (after_calls [CallAdd "Default" (identified_provider 1 "Foo" "ext.foo") Version.v1]
            !! Some "ext.foo"
          = Some (Wrapper.new (identified_provider 1 "Foo" "ext.foo") Version.v1)) as Hk
    by (vm_compute; reflexivity).
  exact (proj2 (proj2 (proj2 (registry_invariant _ _ _ Hk)))).
Defined.

(** What [checkId] returns is its argument or the identity of a registered
    wrapper. *)
Lemma checkId_result (r : Registry.Providers) (id : option string) :
  Registry.checkId r id = id
  ∨ ∃ w, w ∈ Registry.forEach r ∧ Registry.checkId r id = Wrapper.get_extensionId w.
Proof.
  unfold Registry.checkId. set (l := Registry.forEach r).
  destruct (truthy id) eqn:Hid; [|left; by apply checkId_over_falsy].
  destruct (identity_registered_or_not id l) as [(w & Hw & He)|Hnone].
  { left. by apply (checkId_over_identity id l w). }
  rewrite (checkId_over_names id l Hid Hnone).
  destruct (filter (collected id) l) as [|a [|b rest]] eqn:Hf; [by left| |by left].
  right. exists a. split; [|done].
  assert (a ∈ filter (collected id) l) as Hin by (rewrite Hf; left).
  by apply list_elem_of_filter in Hin as [_ Hin].
Qed.

(** X6. [checkId] is idempotent: what it returns, it returns for itself. *)
Theorem checkId_idempotent (r : Registry.Providers) (id : option string) :
  Registry.checkId r (Registry.checkId r id) = Registry.checkId r id.
Proof.
  destruct (checkId_result r id) as [Hsame | (w & Hw & Hfound)].
  - by rewrite !Hsame.
  - rewrite Hfound. by apply (checkId_over_identity _ (Registry.forEach r) w).
Qed.

(** X7. [checkId] does not depend on the order in which the [Map] hands out
    its wrappers: visiting the wrappers of the collection in any order
    gives the answer of [checkId]. *)
Theorem checkId_order_independent (r : Registry.Providers) (visited : list Wrapper.t)
    (id : option string) :
  visited ≡ₚ Registry.forEach r →
  (Registry.checkId_over visited id).1 = Registry.checkId r id.
Proof. intros Hvisited. unfold Registry.checkId. by apply checkId_over_Permutation. Qed.

Lemma checkId_order_independent_witness :
  (Registry.checkId_over (reverse (Registry.forEach registry_with_Foo)) (Some "Foo")).1
  = Registry.checkId registry_with_Foo (Some "Foo").
Proof.
  apply checkId_order_independent. apply reverse_Permutation.
Defined.

(** X8. A valid wrapper never calls a method its provider lacks: the two
    configuration methods reach the provider, the two browse methods reach
    it or are answered by the wrapper, and [dispose] reaches it or does
    nothing. A wrapper built for a version below 2 answers the browse
    methods itself, with false and with the empty path. *)
Theorem wrapper_calls :
  (∀ w : Wrapper.t,
     Wrapper.isValid w = true →
     Wrapper.do_canProvideConfiguration w
       = Wrapper.CallsProvider (Provider.ref (Wrapper.provider w))
     ∧ Wrapper.do_provideConfigurations w
       = Wrapper.CallsProvider (Provider.ref (Wrapper.provider w))
     ∧ Wrapper.do_canProvideBrowseConfiguration w ≠ Wrapper.NotAFunction
     ∧ Wrapper.do_provideBrowseConfiguration w ≠ Wrapper.NotAFunction
     ∧ Wrapper.do_dispose w ≠ Wrapper.DisposeTypeError)
  ∧ (∀ (p : Provider.t) (v : Version.t),
       (v < Version.v2)%nat →
       Wrapper.do_canProvideBrowseConfiguration (Wrapper.new p v) = Wrapper.Answers false
       ∧ Wrapper.do_provideBrowseConfiguration (Wrapper.new p v) = Wrapper.Answers []).
Proof.
  split.
  - intros w. unfold Wrapper.isValid, Wrapper.do_canProvideConfiguration,
      Wrapper.do_provideConfigurations, Wrapper.do_canProvideBrowseConfiguration,
      Wrapper.do_provideBrowseConfiguration, Wrapper.do_dispose.
    destruct (truthy (Provider.name (Wrapper.provider w))),
      (Provider.canProvideConfiguration (Wrapper.provider w)),
      (Provider.provideConfigurations (Wrapper.provider w)),
      (truthy (Provider.extensionId (Wrapper.provider w))),
      (Provider.dispose (Wrapper.provider w)),
      (Provider.canProvideBrowseConfiguration (Wrapper.provider w)),
      (Provider.provideBrowseConfiguration (Wrapper.provider w)),
      (Wrapper._version w) as [|[|n]]; simpl; intros Hvalid;
      try discriminate Hvalid; by split_and!.
  - intros p v Hv.
    assert ((Wrapper._version (Wrapper.new p v) <? Version.v2)%nat = true) as Hlt.
    { apply Nat.ltb_lt. unfold Wrapper.new. simpl.
      destruct (truthy (Provider.extensionId p) && (v =? Version.v0)%nat);
        unfold Version.v1, Version.v2 in *; lia. }
    unfold Wrapper.do_canProvideBrowseConfiguration, Wrapper.do_provideBrowseConfiguration.
    by rewrite Hlt.
Qed.

End RegistryOperations.

(** * Further properties of the list merge and of the migration *)

Section MergeShape.

Implicit Types (h : Host) (env : Environment) (defaultValue : option (list string)).
Implicit Types (paths entries : list string) (x : string).

Lemma split_semicolon_nonempty (s : string) : split_semicolon s ≠ [].
Proof.
  destruct s as [|c s]; simpl; [done|].
  destruct (Ascii.eqb c ";"); [done|]. by destruct (split_semicolon s).
Qed.

(** No piece of a split has a semicolon in it. *)
Lemma split_semicolon_pieces (s : string) x :
  x ∈ split_semicolon s → contains_semicolon x = false.
Proof.
  revert x. induction s as [|c s IH]; intros x; simpl.
  { by intros ->%list_elem_of_singleton. }
  destruct (Ascii.eqb c ";") eqn:Hc.
  - intros [->|Hx]%elem_of_cons; [done|]. by apply IH.
  - pose proof (split_semicolon_nonempty s) as Hne.
    destruct (split_semicolon s) as [|piece pieces]; [done|].
    intros [->|Hx]%elem_of_cons.
    + simpl. rewrite Hc. simpl. apply IH. left.
    + apply IH. by right.
Qed.

Lemma merged_list_app h paths1 paths2 defaultValue env :
  merged_list h (paths1 ++ paths2) defaultValue env
  = merged_list h paths1 defaultValue env ++ merged_list h paths2 defaultValue env.
Proof. unfold merged_list. by rewrite bind_app. Qed.

Lemma resolveAndSplit_merged h paths defaultValue env :
  resolveAndSplit h (Some paths) defaultValue env = merged_list h paths defaultValue env.
Proof. unfold resolveAndSplit. by rewrite resolveAndSplit_foldl. Qed.

(** X9. What the list merge can put out. Merging a concatenation is
    concatenating the merges. Every entry of the result comes from the
    default sequence, or is a piece of a resolved input entry that is not
    empty, is not the default token and has no semicolon. Without
    settings default, the result has no default token in it. *)
Theorem list_merge_output :
  (∀ h paths1 paths2 defaultValue env,
     resolveAndSplit h (Some (paths1 ++ paths2)) defaultValue env
     = resolveAndSplit h (Some paths1) defaultValue env
       ++ resolveAndSplit h (Some paths2) defaultValue env)
  ∧ (∀ h paths defaultValue env x,
       x ∈ resolveAndSplit h (Some paths) defaultValue env →
       (∃ d, defaultValue = Some d ∧ x ∈ d)
       ∨ (x ≠ "" ∧ x ≠ "${default}" ∧ contains_semicolon x = false
          ∧ ∃ entry, entry ∈ paths
                     ∧ x ∈ split_semicolon (util_resolveVariables h (Some entry) env)))
  ∧ (∀ h paths env,
       ("${default}" ∉ resolveAndSplit h (Some paths) None env)
       ∧ ("" ∉ resolveAndSplit h (Some paths) None env)).
Proof.
  assert (∀ h paths defaultValue env x,
            x ∈ resolveAndSplit h (Some paths) defaultValue env →
            (∃ d, defaultValue = Some d ∧ x ∈ d)
            ∨ (x ≠ "" ∧ x ≠ "${default}" ∧ contains_semicolon x = false
               ∧ ∃ entry, entry ∈ paths
                          ∧ x ∈ split_semicolon (util_resolveVariables h (Some entry) env)))
    as Hshape.
  { intros h paths defaultValue env x. rewrite resolveAndSplit_merged.
    unfold merged_list. intros (entry & Hx & Hentry)%list_elem_of_bind.
    apply list_elem_of_bind in Hx as (piece & Hx & Hpiece).
    unfold resolved_pieces in Hpiece.
    apply list_elem_of_filter in Hpiece as [Hne Hpiece].
    unfold expand_default in Hx.
    destruct (String.eqb piece "${default}") eqn:Htoken.
    - left. destruct defaultValue as [d|]; simpl in Hx; [eauto|].
      by apply elem_of_nil in Hx.
    - right. apply list_elem_of_singleton in Hx as ->.
      split_and!; [done| |by apply (split_semicolon_pieces _ _ Hpiece)|eauto].
      by apply String.eqb_neq. }
  split_and!; [|exact Hshape|].
  - intros h paths1 paths2 defaultValue env.
    rewrite !resolveAndSplit_merged. apply merged_list_app.
  - intros h paths env. split.
    + intros [(d & [=] & _) | (_ & Hne & _)]%Hshape. done.
    + intros [(d & [=] & _) | (Hne & _)]%Hshape. done.
Qed.

End MergeShape.

Section MergeAndMigration.

Implicit Types (h : Host) (env : Environment) (this s : CppProperties).
Implicit Types (c : Configuration.t) (d : ConfigurationJson.t).

Lemma forallb_false_elem {X} (f : X → bool) (l : list X) :
  forallb f l = false → ∃ x, x ∈ l ∧ f x = false.
Proof.
  induction l as [|y l IH]; simpl; [done|].
  destruct (f y) eqn:Hy; simpl.
  - intros (x & Hx & Hf)%IH. exists x. split; [by right|done].
  - intros _. exists y. split; [left|done].
Qed.

(** X10. After the per-property merge a configuration keeps its name and
    has a browse record. When it had no browse path of its own, the browse
    path is the settings default as it is, if there is one; otherwise it is
    the merged include path, to which the workspace folder variable is
    appended exactly when no entry of the include path is the workspace
    folder in one of the recognized forms: with such an entry the browse
    path is the include path itself, without one it is the include path
    followed by the variable, so that it always holds such an entry; and
    without include path there is no browse path. A browse path of its
    own is merged like the other list properties. *)
Theorem browse_path_synthesis h env c :
  let c' := updateServer_configuration h env c in
  Configuration.name c' = Configuration.name c
  ∧ ∃ b, Configuration.browse c' = Some b
         ∧ (Configuration.browse c ≫= Browse.path = None →
            match CppSettings.defaultBrowsePath (settings h), Configuration.includePath c' with
            | Some d, _ => Browse.path b = Some d
            | None, Some ip =>
                ((∃ x, x ∈ ip ∧ x ∈ workspaceFolderForms) → Browse.path b = Some ip)
                ∧ ((∀ x, x ∈ ip → x ∉ workspaceFolderForms) →
                   Browse.path b = Some (ip ++ ["${workspaceFolder}"]))
                ∧ ∃ bp x, Browse.path b = Some bp ∧ x ∈ bp ∧ x ∈ workspaceFolderForms
            | None, None => Browse.path b = None
            end)
         ∧ (∀ p, Configuration.browse c ≫= Browse.path = Some p →
                 Browse.path b
                 = updateConfiguration_array h (Some p)
                     (CppSettings.defaultBrowsePath (settings h)) env).
Proof.
  cbv zeta. split; [done|].
  eexists. split; [reflexivity|]. cbn [Configuration.includePath
    updateServer_configuration Browse.path]. split.
  2:{ intros p Hp. destruct (Configuration.browse c) as [b0|]; [|done].
      simpl in Hp. simpl. by rewrite Hp. }
  intros Hnopath.
  assert (Browse.path (default Browse.empty (Configuration.browse c)) = None) as ->.
  { destruct (Configuration.browse c) as [b0|]; [exact Hnopath|done]. }
  destruct (CppSettings.defaultBrowsePath (settings h)) as [dflt|]; [done|].
  destruct (updateConfiguration_array h (Configuration.includePath c) _ env) as [ip|];
    [|done].
  destruct (forallb _ ip) eqn:Hforms.
  - assert (∀ x, x ∈ ip → x ∉ workspaceFolderForms) as Hnone.
    { intros x Hx. rewrite forallb_forall in Hforms.
      eapply bool_decide_eq_true_1, Hforms, list_elem_of_In, Hx. }
    split_and!; [|done|].
    + intros (x & Hx & Hf). by destruct (Hnone x Hx).
    + exists (ip ++ ["${workspaceFolder}"]), "${workspaceFolder}".
      split_and!; [done|apply elem_of_app; right; left|].
      apply (bool_decide_unpack _). by vm_compute.
  - apply forallb_false_elem in Hforms as (x & Hx & Hf).
    apply bool_decide_eq_false in Hf.
    assert (x ∈ workspaceFolderForms) as Hin.
    { destruct (decide (x ∈ workspaceFolderForms)); [done|]. by destruct Hf. }
    split_and!; [done| |by exists ip, x].
    intros Hnone. by destruct (Hnone x Hx).
Qed.

(** A projection that neither migration step changes is the same, entry by
    entry, after the migration block. *)
Lemma migrate_fmap {X} (f : Configuration.t → X) h this d :
  (∀ c, f (updateToVersion3_configuration h c) = f c) →
  (∀ c, f (updateToVersion4_configuration h this c) = f c) →
  f <$> ConfigurationJson.configurations (migrate h this d).1
  = f <$> ConfigurationJson.configurations d.
Proof.
  intros H3 H4. unfold migrate.
  set (d2 := if bool_decide (ConfigurationJson.version d = None)
             then updateToVersion2 d else d).
  set (d3 := if bool_decide (ConfigurationJson.version d2 = Some 2)
             then updateToVersion3 h d2 else d2).
  assert (f <$> ConfigurationJson.configurations d2
          = f <$> ConfigurationJson.configurations d) as E2
    by (unfold d2; by case_bool_decide).
  assert (f <$> ConfigurationJson.configurations d3
          = f <$> ConfigurationJson.configurations d2) as E3.
  { unfold d3. case_bool_decide; [|done]. unfold updateToVersion3. simpl.
    rewrite <- list_fmap_compose. apply list_fmap_ext. intros i c _. apply H3. }
  destruct (bool_decide (ConfigurationJson.version d3 = Some 3)); cbn [fst].
  - unfold updateToVersion4. simpl. rewrite <- list_fmap_compose, <- E2, <- E3.
    apply list_fmap_ext. intros i c _. apply H4.
  - change (ConfigurationJson.configurations (ConfigurationJson.set_version _ d3))
      with (ConfigurationJson.configurations d3).
    by rewrite E3, E2.
Qed.

Lemma migrate_env h this d :
  ConfigurationJson.env (migrate h this d).1 = ConfigurationJson.env d.
Proof.
  unfold migrate. repeat case_bool_decide; done.
Qed.

Lemma updateToVersion3_configuration_cases h c :
  updateToVersion3_configuration h c = c
  ∨ updateToVersion3_configuration h c
    = Configuration.set_macFrameworkPath
        (Some ["/System/Library/Frameworks"; "/Library/Frameworks"]) c.
Proof.
  unfold updateToVersion3_configuration.
  destruct (_ || _); [|by left].
  destruct (Configuration.macFrameworkPath c); [by left|by right].
Qed.

(** X11. The migration block keeps the list of configurations entry for
    entry: names, include paths, defines, compile commands, forced
    includes, provider identifiers, Windows SDK versions and browse records
    are what they were, and so is the environment. It reports an unknown
    version exactly when the version is none of missing, 2 and 3, and then
    it changes nothing but the version. *)
Theorem migration_preserves h this d :
  let r := migrate h this d in
  names (ConfigurationJson.configurations r.1) = names (ConfigurationJson.configurations d)
  ∧ Configuration.includePath <$> ConfigurationJson.configurations r.1
    = Configuration.includePath <$> ConfigurationJson.configurations d
  ∧ Configuration.defines <$> ConfigurationJson.configurations r.1
    = Configuration.defines <$> ConfigurationJson.configurations d
  ∧ Configuration.compileCommands <$> ConfigurationJson.configurations r.1
    = Configuration.compileCommands <$> ConfigurationJson.configurations d
  ∧ Configuration.forcedInclude <$> ConfigurationJson.configurations r.1
    = Configuration.forcedInclude <$> ConfigurationJson.configurations d
  ∧ Configuration.configurationProvider <$> ConfigurationJson.configurations r.1
    = Configuration.configurationProvider <$> ConfigurationJson.configurations d
  ∧ Configuration.windowsSdkVersion <$> ConfigurationJson.configurations r.1
    = Configuration.windowsSdkVersion <$> ConfigurationJson.configurations d
  ∧ Configuration.browse <$> ConfigurationJson.configurations r.1
    = Configuration.browse <$> ConfigurationJson.configurations d
  ∧ ConfigurationJson.env r.1 = ConfigurationJson.env d
  ∧ (r.2 = true ↔
     ConfigurationJson.version d ≠ None ∧ ConfigurationJson.version d ≠ Some 2
     ∧ ConfigurationJson.version d ≠ Some 3)
  ∧ (r.2 = true →
     ConfigurationJson.configurations r.1 = ConfigurationJson.configurations d).
Proof.
  cbv zeta.
  assert (∀ {X} (f : Configuration.t → X),
            (∀ v c, f (Configuration.set_macFrameworkPath v c) = f c) →
            ∀ c, f (updateToVersion3_configuration h c) = f c) as H3.
  { intros X f Hf c. destruct (updateToVersion3_configuration_cases h c) as [->| ->]; done. }
  split_and!; try (apply migrate_fmap; [by apply H3 | done]).
  - apply migrate_env.
  - destruct d as [confs e [z|]]; unfold migrate, updateToVersion2; simpl;
      repeat (match goal with
              | |- context [bool_decide ?P] =>
                  lazymatch P with
                  | context [bool_decide _] => fail
                  | _ => destruct (bool_decide_reflect P)
                  end
              end; simpl in *);
      first [done | intuition congruence].
  - destruct d as [confs e [z|]]; unfold migrate, updateToVersion2; simpl;
      repeat (match goal with
              | |- context [bool_decide ?P] =>
                  lazymatch P with
                  | context [bool_decide _] => fail
                  | _ => destruct (bool_decide_reflect P)
                  end
              end; simpl in *);
      first [done | intuition congruence].
Qed.

End MergeAndMigration.

(** * Further properties of the store *)

Section Watchers.

Implicit Types (h : Host) (s : CppProperties) (d : ConfigurationJson.t).





(** Asked about a list without the platform name that is shorter than the
    list the loop counts on, the loop reads past its end. *)
Lemma getConfigIndexForPlatform_loop_short (plat : string) (l : list Configuration.t)
    (n i : nat) :
  (∀ c, c ∈ l → Configuration.name c ≠ plat) →
  (i ≤ length l)%nat → (length l < i + n)%nat →
  getConfigIndexForPlatform_loop plat l n i = Throw TypeError.
Proof.
  intros Hnone. revert i. induction n as [|n IH]; intros i Hi Hlen; [lia|].
  simpl. destruct (l !! i) as [c|] eqn:Hc; [|done].
  assert (Configuration.name c ≠ plat) as Hname
    by (apply Hnone; by apply list_elem_of_lookup_2 in Hc).
  apply String.eqb_neq in Hname as ->.
  apply lookup_lt_Some in Hc. apply IH; lia.
Qed.

(** X13. [getConfigIndexForPlatform], called with the document the store
    holds, returns without changing the state: the least index whose
    configuration bears the platform name, or the last index when no
    configuration bears it, which is -1 for an empty list. Called with a
    shorter document that does not have the platform name, it throws. *)
Theorem platform_index_search h s d :
  configurationJson s = Document d →
  let plat := platformConfigurationName (platform h) in
  (∃ i,
     getConfigIndexForPlatform h d s = (Normal i, s)
     ∧ ((∃ n c, i = Z.of_nat n
                ∧ ConfigurationJson.configurations d !! n = Some c
                ∧ Configuration.name c = plat
                ∧ ∀ m c', (m < n)%nat →
                          ConfigurationJson.configurations d !! m = Some c' →
                          Configuration.name c' ≠ plat)
        ∨ (i = array_length (ConfigurationJson.configurations d) - 1
           ∧ ∀ c, c ∈ ConfigurationJson.configurations d → Configuration.name c ≠ plat))
     ∧ (ConfigurationJson.configurations d = [] → i = -1))
  ∧ (∀ other,
       (length (ConfigurationJson.configurations other)
        < length (ConfigurationJson.configurations d))%nat →
       (∀ c, c ∈ ConfigurationJson.configurations other → Configuration.name c ≠ plat) →
       getConfigIndexForPlatform h other s = (Throw TypeError, s)).
Proof.
  intros Hd plat. split.
  - exists (platform_index h (ConfigurationJson.configurations d)).
    split; [by apply getConfigIndexForPlatform_eq|].
    unfold platform_index. fold plat.
    destruct (list_find _ _) as [[n c]|] eqn:Hfind.
    + apply list_find_Some in Hfind as (Hn & Hc & Hleast). split.
      * left. exists n, c. split_and!; try done. intros m c' Hm Hc'. by apply (Hleast m).
      * intros Hnil. by rewrite Hnil in Hn.
    + apply list_find_None in Hfind. split.
      * right. split; [done|]. intros c Hc. by apply (proj1 (Forall_forall _ _) Hfind).
      * by intros ->.
  - intros other Hshort Hnone. unfold getConfigIndexForPlatform. cbv zeta.
    rewrite (bind_normal _ _ s s s) by done. rewrite Hd.
    rewrite (bind_normal _ _ _ _ _ (Configurations_eq s d Hd)).
    by rewrite (getConfigIndexForPlatform_loop_short _ _ _ 0 Hnone) by (simpl; lia).
Qed.

Lemma platform_index_search_witness :
  ∃ i, getConfigIndexForPlatform (sample_host None ReadEmptyString)
         (ConfigurationJson.set_version (Some 4)
            {| ConfigurationJson.configurations :=
                 Configuration.named <$> ["A"; "Linux"; "B"];
               ConfigurationJson.env := None;
               ConfigurationJson.version := Some 4 |}) loaded_state
       = (Normal i, loaded_state).
Proof.
  assert (configurationJson loaded_state
          = Document (ConfigurationJson.set_version (Some 4)
                        {| ConfigurationJson.configurations :=
                             Configuration.named <$> ["A"; "Linux"; "B"];
                           ConfigurationJson.env := None;
                           ConfigurationJson.version := Some 4 |})) as Hd
    by (vm_compute; reflexivity).
  destruct (proj1 (platform_index_search (sample_host None ReadEmptyString) loaded_state _ Hd))
    as (i & Hrun & _).
  exists i. exact Hrun.
Defined.

End Watchers.

Section ParseInOnePiece.

Implicit Types (h : Host) (s this : CppProperties) (d : ConfigurationJson.t).
Implicit Types (confs : list Configuration.t) (file : string) (j : ParsedJson.t).

(** The migration reads the store only for its compiler defaults. *)
Lemma migrate_inputs h this this' d :
  inputs this' = inputs this → migrate h this' d = migrate h this d.
Proof.
  unfold inputs. intros [= _ Hc Hs Hp _ _ _ _ _ _].
  unfold migrate, updateToVersion4, updateToVersion4_configuration.
  by rewrite Hc, Hs, Hp.
Qed.

Lemma migrateDocument_eq h (dirty : bool) s d :
  configurationJson s = Document d →
  migrateDocument h dirty s
  = (Normal (bool_decide (ConfigurationJson.version d ≠ Some configVersion) || dirty),
     if bool_decide (ConfigurationJson.version d ≠ Some configVersion)
     then if (migrate h s d).2
          then add_effect (ShowErrorMessage UnknownVersionNumber)
                 (set_configurationJson (Document (migrate h s d).1) s)
          else set_configurationJson (Document (migrate h s d).1) s
     else s).
Proof.
  intros Hd. unfold migrateDocument.
  rewrite (bind_normal _ _ s s s) by done. rewrite Hd.
  destruct (bool_decide _); [|done].
  destruct (migrate h s d) as [d' unknown]. by destruct unknown.
Qed.

Lemma writeIfDirty_eq h file (dirty : bool) s d :
  configurationJson s = Document d →
  writeIfDirty h file dirty s
  = (Normal tt,
     if dirty
     then add_effect (if writeSucceeds h then WriteFileSync file d
                      else ShowWarningMessage (UpdateFailed file)) s
     else s).
Proof.
  intros Hd. unfold writeIfDirty. destruct dirty; [|done].
  rewrite (bind_normal _ _ s s s) by done. rewrite Hd.
  by destruct (writeSucceeds h).
Qed.

(** The accepted parse, read off in one piece. *)
Lemma acceptParsed_run h file j confs s :
  ∃ s',
    acceptParsed h file j confs s = (Normal tt, s')
    ∧ configurationJson s' = Document (parsed_document h s j confs)
    ∧ currentConfigurationIndex s' = parsed_index h s confs
    ∧ configurationIncomplete s' = false
    ∧ inputs s' = inputs s
    ∧ effects s' = effects s ++ parsed_effects h s file j confs.
Proof.
  unfold acceptParsed. cbv zeta.
  set (nd := {| ConfigurationJson.configurations := confs;
                ConfigurationJson.env := ParsedJson.env j;
                ConfigurationJson.version := ParsedJson.version j |}).
  rewrite (bind_normal _ _ _ _ _ (keepConfigurationByName_eq confs s)).
  set (s1 := match same_name_index s confs with
             | Some i => set_currentConfigurationIndex i s
             | None => s
             end).
  assert (currentConfigurationIndex s1
          = default (currentConfigurationIndex s) (same_name_index s confs)
          ∧ inputs s1 = inputs s ∧ effects s1 = effects s) as (Hidx1 & Hin1 & Hef1)
    by (unfold s1; by destruct (same_name_index s confs)).
  rewrite (bind_normal (modify _) _ s1 tt (set_configurationJson (Document nd) s1)) by done.
  set (s2 := set_configurationJson (Document nd) s1).
  rewrite (bind_normal _ _ _ _ _ (fixIndexOutOfBounds_eq h s2 nd eq_refl)).
  set (s3 := if out_of_bounds (currentConfigurationIndex s2)
                  (ConfigurationJson.configurations nd)
             then set_currentConfigurationIndex
                    (platform_index h (ConfigurationJson.configurations nd)) s2
             else s2).
  assert (configurationJson s3 = Document nd
          ∧ currentConfigurationIndex s3 = parsed_index h s confs
          ∧ inputs s3 = inputs s ∧ effects s3 = effects s) as (Hd3 & Hidx3 & Hin3 & Hef3).
  { unfold s3, parsed_index, normalized_index.
    change (currentConfigurationIndex s2) with (currentConfigurationIndex s1).
    rewrite Hidx1. change (ConfigurationJson.configurations nd) with confs.
    destruct (out_of_bounds _ confs); split_and!; done. }
  rewrite (bind_normal _ _ _ _ _ (correctProviderIds_eq h s3 nd Hd3)).
  set (d4 := ConfigurationJson.set_configurations _ nd).
  set (s4 := set_configurationJson (Document d4) s3).
  rewrite (bind_normal _ _ _ _ _ (update_document_eq _ s4 d4 eq_refl)).
  set (s5 := set_configurationJson _ s4).
  rewrite (bind_normal (modify (set_configurationIncomplete false)) _ s5 tt
             (set_configurationIncomplete false s5)) by done.
  set (s6 := set_configurationIncomplete false s5).
  assert (configurationJson s6 = Document (parsed_unmigrated h j confs)) as Hd6 by done.
  assert (currentConfigurationIndex s6 = parsed_index h s confs
          ∧ inputs s6 = inputs s ∧ effects s6 = effects s
          ∧ configurationIncomplete s6 = false) as (Hidx6 & Hin6 & Hef6 & Hinc6)
    by done.
  clearbody s6. clear s5 s4 d4 Hd3 Hidx3 Hin3 Hef3 s3 s2 Hidx1 Hin1 Hef1 s1.
  rewrite (bind_normal _ _ s6 _ _ (migrateDocument_eq h _ s6 _ Hd6)).
  rewrite (migrate_inputs h s s6 _ Hin6).
  unfold parsed_effects, parsed_document. cbv zeta.
  change (ConfigurationJson.version (parsed_unmigrated h j confs))
    with (ParsedJson.version j).
  change (ConfigurationJson.configurations nd) with confs.
  set (m := migrate h s (parsed_unmigrated h j confs)).
  rewrite (orb_comm (bool_decide _)).
  unfold inputs in Hin6 |- *.
  destruct (bool_decide (ParsedJson.version j ≠ Some configVersion)).
  - rewrite !orb_true_r. cbn [andb].
    destruct m.2.
    + eexists. split; [by erewrite writeIfDirty_eq|].
      destruct (writeSucceeds h); simpl;
        rewrite ?Hef6, ?Hidx6, ?Hinc6, ?Hin6, <- ?app_assoc; split_and!; done.
    + eexists. split; [by erewrite writeIfDirty_eq|].
      destruct (writeSucceeds h); simpl;
        rewrite ?Hef6, ?Hidx6, ?Hinc6, ?Hin6; split_and!; done.
  - rewrite !orb_false_r. cbn [andb].
    eexists. split; [by erewrite writeIfDirty_eq|].
    destruct (checkProviderIds (providerCollection h) confs).1, (writeSucceeds h); simpl;
      rewrite ?Hef6, ?Hidx6, ?Hinc6, ?Hin6, ?app_nil_r; split_and!; done.
Qed.

Lemma parsePropertiesFile_run h s file j c confs :
  propertiesFile s = Some file →
  readPropertiesFile h = Parsed (Some j) →
  ParsedJson.configurations j = ArrayOf (c :: confs) →
  ∃ s',
    parsePropertiesFile h s = (Normal tt, s')
    ∧ configurationJson s' = Document (parsed_document h s j (c :: confs))
    ∧ currentConfigurationIndex s' = parsed_index h s (c :: confs)
    ∧ configurationIncomplete s' = false
    ∧ inputs s' = inputs s
    ∧ effects s' = effects s ++ parsed_effects h s file j (c :: confs).
Proof.
  intros Hfile Hread Hconfs.
  destruct (acceptParsed_run h file j (c :: confs) s) as (s' & Hrun & Hrest).
  exists s'. split; [|exact Hrest].
  unfold parsePropertiesFile, try_catch, parsePropertiesFile_try.
  rewrite (bind_normal _ _ s s s) by done. rewrite Hfile, Hread, Hconfs.
  by rewrite Hrun.
Qed.

End ParseInOnePiece.

Section Reconciliation.

Implicit Types (h : Host) (s this : CppProperties) (d : ConfigurationJson.t).
Implicit Types (confs : list Configuration.t) (file : string) (j : ParsedJson.t).

Lemma array_get_in_range {X} (l : list X) (i : Z) :
  0 ≤ i < array_length l → ∃ x, array_get l i = Some x.
Proof.
  unfold array_get, array_length. intros Hi.
  destruct (i <? 0) eqn:Hneg; [lia|].
  destruct (lookup_lt_is_Some_2 l (Z.to_nat i)) as [x Hx]; [lia|]. by exists x.
Qed.

Lemma CurrentConfiguration_eq s d :
  configurationJson s = Document d →
  CurrentConfiguration s
  = (Normal (array_get (ConfigurationJson.configurations d) (currentConfigurationIndex s)), s).
Proof.
  intros Hd. unfold CurrentConfiguration.
  rewrite (bind_normal _ _ _ _ _ (Configurations_eq s d Hd)).
  by rewrite (bind_normal _ _ s s s).
Qed.

(** The defaulting pass on a store whose index selects a configuration. *)
Lemma applyDefaults_run h s d :
  configurationJson s = Document d →
  0 ≤ currentConfigurationIndex s < array_length (ConfigurationJson.configurations d) →
  ∃ s',
    applyDefaultIncludePathsAndFrameworks h s = (Normal tt, s')
    ∧ configurationJson s' = Document (defaulted_document h s d)
    ∧ currentConfigurationIndex s' = currentConfigurationIndex s
    ∧ configurationIncomplete s' = configurationIncomplete s && negb (defaulting_due s)
    ∧ inputs s' = inputs s
    ∧ effects s' = effects s.
Proof.
  intros Hd Hi. destruct (array_get_in_range _ _ Hi) as [c Hc].
  unfold applyDefaultIncludePathsAndFrameworks, defaulted_document.
  rewrite (bind_normal _ _ s s s) by done. rewrite Hc.
  fold (defaulting_due s). destruct (defaulting_due s) eqn:Hdue.
  - rewrite (bind_normal _ _ _ _ _ (CurrentConfiguration_eq s d Hd)). rewrite Hc.
    rewrite (bind_normal _ _ _ _ _ (update_document_eq _ s d Hd)).
    eexists. split; [reflexivity|]. simpl. rewrite andb_false_r. by split_and!.
  - exists s. rewrite andb_true_r. by split_and!.
Qed.

(** The resolution pass on a store that holds a document. *)
Lemma updateServer_run h s d :
  configurationJson s = Document d →
  ∃ s',
    updateServerOnFolderSettingsChange h s = (Normal tt, s')
    ∧ configurationJson s' = Document (resolved_document h d)
    ∧ currentConfigurationIndex s' = currentConfigurationIndex s
    ∧ configurationIncomplete s' = configurationIncomplete s
    ∧ inputs s' = inputs s
    ∧ effects s'
      = effects s ++ reported h (configurationIncomplete s) (resolved_document h d).
Proof.
  intros Hd. unfold updateServerOnFolderSettingsChange.
  rewrite (bind_normal _ _ _ _ _ (ExtendedEnvironment_eq h s d Hd)).
  rewrite (bind_normal _ _ _ _ _ (update_document_eq _ s d Hd)).
  fold (extended_environment h d). fold (resolved_document h d).
  set (s1 := set_configurationJson (Document (resolved_document h d)) s).
  rewrite (bind_normal _ _ _ _ _ (updateCompileCommandsFileWatchers_eq h s1 _ eq_refl)).
  match goal with |- context [add_effect ?e s1] => set (s2 := add_effect e s1) end.
  rewrite (bind_normal _ _ s2 s2 s2) by done.
  unfold reported.
  change (configurationIncomplete s2) with (configurationIncomplete s).
  destruct (configurationIncomplete s) eqn:Hinc; cbn [negb].
  - exists s2. by split_and!.
  - rewrite (bind_normal _ _ _ _ _ (Configurations_eq s2 _ eq_refl)).
    eexists. split; [reflexivity|]. simpl. rewrite <- app_assoc. by split_and!.
Qed.

(** The two passes that end a reconciliation. *)
Lemma reconciliation_tail_run h s d :
  configurationJson s = Document d →
  0 ≤ currentConfigurationIndex s < array_length (ConfigurationJson.configurations d) →
  let d' := resolved_document h (defaulted_document h s d) in
  ∃ s',
    (applyDefaultIncludePathsAndFrameworks h
       ≫= fun _ => updateServerOnFolderSettingsChange h) s = (Normal tt, s')
    ∧ configurationJson s' = Document d'
    ∧ currentConfigurationIndex s' = currentConfigurationIndex s
    ∧ configurationIncomplete s' = configurationIncomplete s && negb (defaulting_due s)
    ∧ inputs s' = inputs s
    ∧ effects s' = effects s ++ reported h (configurationIncomplete s') d'.
Proof.
  intros Hd Hi d'.
  destruct (applyDefaults_run h s d Hd Hi) as (s1 & Hrun1 & Hd1 & Hi1 & Hinc1 & Hin1 & Hef1).
  destruct (updateServer_run h s1 _ Hd1) as (s2 & Hrun2 & Hd2 & Hi2 & Hinc2 & Hin2 & Hef2).
  exists s2. rewrite (bind_normal _ _ _ _ _ Hrun1).
  split; [exact Hrun2|]. rewrite Hd2, Hi2, Hinc2, Hin2, Hef2, Hi1, Hinc1, Hin1, Hef1.
  by split_and!.
Qed.

(** A reconciliation without a properties file, on a well-formed store. *)
Lemma handleConfigurationChange_no_file h s d :
  propertiesFile s = None →
  configurationJson s = Document d →
  0 ≤ currentConfigurationIndex s < array_length (ConfigurationJson.configurations d) →
  handleConfigurationChange h s
  = (applyDefaultIncludePathsAndFrameworks h
       ≫= fun _ => updateServerOnFolderSettingsChange h) s.
Proof.
  intros Hfile Hd Hi. unfold handleConfigurationChange.
  rewrite (bind_normal _ _ s s s) by done. rewrite Hfile.
  rewrite (bind_normal _ _ s tt s) by done.
  rewrite (bind_normal _ _ s s s) by done. rewrite Hd.
  by rewrite (bind_normal _ _ s tt s).
Qed.

End Reconciliation.

Section WithoutPropertiesFile.

Implicit Types (h : Host) (s this : CppProperties) (d : ConfigurationJson.t).
Implicit Types (confs : list Configuration.t) (file : string).

Lemma state_eq s s' :
  inputs s = inputs s' →
  configurationJson s = configurationJson s' →
  currentConfigurationIndex s = currentConfigurationIndex s' →
  configurationIncomplete s = configurationIncomplete s' →
  effects s = effects s' →
  s = s'.
Proof.
  destruct s, s'. unfold inputs. simpl. intros [= -> -> -> -> -> -> -> -> -> ->]. congruence.
Qed.

Lemma defaulting_due_ext s s' :
  inputs s = inputs s' →
  configurationIncomplete s = configurationIncomplete s' →
  defaulting_due s = defaulting_due s'.
Proof.
  unfold inputs, defaulting_due. intros [= _ _ _ _ Hi Hf _ _ Hr _] Hinc.
  by rewrite Hi, Hf, Hr, Hinc.
Qed.

Lemma defaulted_document_ext h s s' d :
  inputs s = inputs s' →
  currentConfigurationIndex s = currentConfigurationIndex s' →
  configurationIncomplete s = configurationIncomplete s' →
  defaulted_document h s d = defaulted_document h s' d.
Proof.
  intros Hin Hidx Hinc. unfold defaulted_document.
  rewrite (defaulting_due_ext s s' Hin Hinc), Hidx.
  destruct (array_get _ _) as [c|]; [|done].
  destruct (defaulting_due s'); [|done].
  unfold inputs in Hin. injection Hin as _ Hc Hs Hp Hi Hf Hw Hv Hr Hm.
  unfold applyDefaults_to. by rewrite Hc, Hs, Hp, Hf, Hw, Hv, Hm.
Qed.

Lemma defaulted_document_names h s d :
  names (ConfigurationJson.configurations (defaulted_document h s d))
  = names (ConfigurationJson.configurations d).
Proof.
  unfold defaulted_document, array_get.
  destruct (_ <? 0); [done|].
  destruct (_ !! _) as [c|] eqn:Hc; [|done].
  destruct (defaulting_due s); [|done].
  unfold names. cbn [ConfigurationJson.configurations ConfigurationJson.set_configurations].
  rewrite list_fmap_insert. apply list_insert_id.
  by rewrite list_lookup_fmap, Hc.
Qed.

Lemma resolved_document_names h d :
  names (ConfigurationJson.configurations (resolved_document h d))
  = names (ConfigurationJson.configurations d).
Proof.
  unfold names, resolved_document.
  cbn [ConfigurationJson.configurations ConfigurationJson.set_configurations].
  rewrite <- list_fmap_compose. by apply list_fmap_ext.
Qed.

Lemma names_length (l l' : list Configuration.t) :
  names l = names l' → array_length l = array_length l'.
Proof.
  unfold names, array_length. intros Hn.
  apply (f_equal length) in Hn. rewrite !length_fmap in Hn. lia.
Qed.

Lemma resetToDefaultSettings_run h (resetIndex : bool) s :
  ∃ s', resetToDefaultSettings h resetIndex s = (Normal tt, s')
        ∧ configurationJson s' = Document (getDefaultCppProperties h)
        ∧ currentConfigurationIndex s' = 0
        ∧ configurationIncomplete s' = true
        ∧ inputs s' = inputs s
        ∧ effects s' = effects s.
Proof.
  unfold resetToDefaultSettings. cbv zeta.
  set (d := getDefaultCppProperties h).
  set (s1 := set_configurationJson (Document d) s).
  rewrite (bind_normal _ _ s tt s1) by done.
  rewrite (bind_normal _ _ s1 s1 s1) by done.
  pose proof (normalized_index_default h (currentConfigurationIndex s)) as Hnorm.
  unfold normalized_index in Hnorm. fold d in Hnorm.
  change (currentConfigurationIndex s1) with (currentConfigurationIndex s).
  destruct (resetIndex || out_of_bounds _ _) eqn:Hreset.
  - unfold when.
    rewrite (bind_normal _ _ s1 tt
               (set_currentConfigurationIndex
                  (platform_index h (ConfigurationJson.configurations d)) s1)).
    2:{ by rewrite (bind_normal _ _ _ _ _ (getConfigIndexForPlatform_eq h s1 d eq_refl)). }
    eexists. split; [reflexivity|]. split_and!; try done.
    apply platform_index_default.
  - apply orb_false_elim in Hreset as [_ Hb]. rewrite Hb in Hnorm.
    unfold when. rewrite (bind_normal _ _ s1 tt s1) by done.
    eexists. split; [reflexivity|]. done.
Qed.

(** A reconciliation without a properties file, on a store whose index
    selects a configuration, in one piece. *)
Lemma handleConfigurationChange_no_file_run h s d :
  propertiesFile s = None →
  configurationJson s = Document d →
  0 ≤ currentConfigurationIndex s < array_length (ConfigurationJson.configurations d) →
  let d' := resolved_document h (defaulted_document h s d) in
  ∃ s',
    handleConfigurationChange h s = (Normal tt, s')
    ∧ configurationJson s' = Document d'
    ∧ currentConfigurationIndex s' = currentConfigurationIndex s
    ∧ configurationIncomplete s' = configurationIncomplete s && negb (defaulting_due s)
    ∧ inputs s' = inputs s
    ∧ effects s' = effects s ++ reported h (configurationIncomplete s') d'.
Proof.
  intros Hfile Hd Hi. rewrite (handleConfigurationChange_no_file h s d Hfile Hd Hi).
  by apply reconciliation_tail_run.
Qed.

(** X14. Without a properties file, a reconciliation of a store whose index
    selects a configuration returns, keeps the index and the names, and
    updates the watched files. Defaulting is complete afterwards exactly
    when it was complete before or the include paths, the frameworks and
    the vcpkg scan have all arrived; the change event is sent exactly in
    that case, once, last, and with the configurations the store then
    holds. *)
Theorem change_event_waits_for_defaults h s d :
  propertiesFile s = None →
  configurationJson s = Document d →
  0 ≤ currentConfigurationIndex s < array_length (ConfigurationJson.configurations d) →
  ∃ s' d',
    handleConfigurationChange h s = (Normal tt, s')
    ∧ configurationJson s' = Document d'
    ∧ currentConfigurationIndex s' = currentConfigurationIndex s
    ∧ names (ConfigurationJson.configurations d') = names (ConfigurationJson.configurations d)
    ∧ (configurationIncomplete s' = false ↔
       configurationIncomplete s = false
       ∨ (present (defaultIncludes s) = true ∧ present (defaultFrameworks s) = true
          ∧ vcpkgPathReady s = true))
    ∧ ∃ files,
        effects s'
        = effects s
          ++ WatchCompileCommands files
             :: (if configurationIncomplete s' then []
                 else [FireConfigurationsChanged (ConfigurationJson.configurations d')]).
Proof.
  intros Hfile Hd Hi.
  destruct (handleConfigurationChange_no_file_run h s d Hfile Hd Hi)
    as (s' & Hrun & Hd' & Hi' & Hinc' & _ & Hef').
  exists s', (resolved_document h (defaulted_document h s d)).
  split_and!; [done|done|done| | |].
  - by rewrite resolved_document_names, defaulted_document_names.
  - rewrite Hinc'. unfold defaulting_due.
    destruct (configurationIncomplete s), (present (defaultIncludes s)),
      (present (defaultFrameworks s)), (vcpkgPathReady s); simpl; intuition congruence.
  - eexists. exact Hef'.
Qed.

Lemma change_event_waits_for_defaults_witness :
  ∃ s', handleConfigurationChange (sample_host None ReadEmptyString)
          (constructor (sample_host None ReadEmptyString) (-1)).2 = (Normal tt, s')
        ∧ currentConfigurationIndex s' = 0.
Proof.
  assert (propertiesFile (constructor (sample_host None ReadEmptyString) (-1)).2 = None)
    as Hfile by (vm_compute; reflexivity).
  assert (configurationJson (constructor (sample_host None ReadEmptyString) (-1)).2
          = Document (getDefaultCppProperties (sample_host None ReadEmptyString)))
    as Hd by (vm_compute; reflexivity).
  assert (0 ≤ currentConfigurationIndex (constructor (sample_host None ReadEmptyString) (-1)).2
          < array_length (ConfigurationJson.configurations
                            (getDefaultCppProperties (sample_host None ReadEmptyString))))
    as Hi by (vm_compute; split; [discriminate | reflexivity]).
  assert (currentConfigurationIndex (constructor (sample_host None ReadEmptyString) (-1)).2
          = 0) as H0 by (vm_compute; reflexivity).
  destruct (change_event_waits_for_defaults (sample_host None ReadEmptyString) _ _ Hfile Hd Hi)
    as (s' & d' & Hrun & _ & Hidx & _).
  exists s'. split; [exact Hrun | exact (eq_trans Hidx H0)].
Defined.

Lemma defaulted_document_not_due h s d :
  defaulting_due s = false → defaulted_document h s d = d.
Proof.
  intros Hdue. unfold defaulted_document. rewrite Hdue. by destruct (array_get _ _).
Qed.

Lemma inputs_set_vcpkg s1 s2 (found : list string) (ready : bool) :
  inputs s1 = inputs s2 →
  inputs (set_vcpkg (vcpkgIncludes s1 ++ found) ready s1)
  = inputs (set_vcpkg (vcpkgIncludes s2 ++ found) ready s2).
Proof. unfold inputs. simpl. congruence. Qed.

Lemma inputs_store_CompilerDefaults cd s1 s2 :
  inputs s1 = inputs s2 →
  inputs (store_CompilerDefaults cd s1) = inputs (store_CompilerDefaults cd s2).
Proof. unfold inputs. simpl. congruence. Qed.

Lemma inputs_propertiesFile s1 s2 :
  inputs s1 = inputs s2 → propertiesFile s1 = propertiesFile s2.
Proof. unfold inputs. congruence. Qed.

(** X15. On a store without a properties file that waits for its defaults,
    the compiler defaults and the result of the vcpkg scan may arrive in
    either order: both orders return, and with the same store. Defaulting
    is complete afterwards, and the change event was sent once, after the
    second arrival. *)
Theorem defaults_and_vcpkg_commute h s d (cd : CompilerDefaults.t) (found : list string) :
  propertiesFile s = None →
  configurationJson s = Document d →
  0 ≤ currentConfigurationIndex s < array_length (ConfigurationJson.configurations d) →
  configurationIncomplete s = true →
  defaultIncludes s = None →
  vcpkgPathReady s = false →
  ∃ s' d' files files',
    (set_CompilerDefaults h cd ≫= fun _ => buildVcpkgIncludePath h found) s = (Normal tt, s')
    ∧ (buildVcpkgIncludePath h found ≫= fun _ => set_CompilerDefaults h cd) s = (Normal tt, s')
    ∧ configurationJson s' = Document d'
    ∧ configurationIncomplete s' = false
    ∧ vcpkgIncludes s' = vcpkgIncludes s ++ found
    ∧ effects s'
      = effects s
        ++ [WatchCompileCommands files; WatchCompileCommands files';
            FireConfigurationsChanged (ConfigurationJson.configurations d')].
Proof.
  intros Hfile Hd Hi Hinc Hincl Hready.
  set (r := resolved_document h d).
  assert (∀ s0,
            propertiesFile s0 = None → configurationJson s0 = Document d →
            currentConfigurationIndex s0 = currentConfigurationIndex s →
            configurationIncomplete s0 = true → defaulting_due s0 = false →
            effects s0 = effects s →
            ∃ s1, handleConfigurationChange h s0 = (Normal tt, s1)
                  ∧ configurationJson s1 = Document r
                  ∧ currentConfigurationIndex s1 = currentConfigurationIndex s
                  ∧ configurationIncomplete s1 = true
                  ∧ inputs s1 = inputs s0
                  ∧ effects s1 = effects s ++ reported h true r) as Hfirst.
  { intros s0 Hf0 Hd0 Hi0 Hinc0 Hdue0 Hef0.
    destruct (handleConfigurationChange_no_file_run h s0 d Hf0 Hd0)
      as (s1 & Hrun & Hd1 & Hi1 & Hinc1 & Hin1 & Hef1); [by rewrite Hi0|].
    rewrite Hinc0, Hdue0 in Hinc1. simpl in Hinc1.
    rewrite (defaulted_document_not_due h s0 d Hdue0) in Hd1, Hef1.
    exists s1. rewrite Hinc1, Hef0 in Hef1. rewrite Hi0 in Hi1. by split_and!. }
  assert (0 ≤ currentConfigurationIndex s < array_length (ConfigurationJson.configurations r))
    as Hir by (unfold r; by rewrite (names_length _ _ (resolved_document_names h d))).
  assert (∀ s2,
            propertiesFile s2 = None → configurationJson s2 = Document r →
            currentConfigurationIndex s2 = currentConfigurationIndex s →
            configurationIncomplete s2 = true → defaulting_due s2 = true →
            effects s2 = effects s ++ reported h true r →
            ∃ s3, handleConfigurationChange h s2 = (Normal tt, s3)
                  ∧ configurationJson s3
                    = Document (resolved_document h (defaulted_document h s2 r))
                  ∧ currentConfigurationIndex s3 = currentConfigurationIndex s
                  ∧ configurationIncomplete s3 = false
                  ∧ inputs s3 = inputs s2
                  ∧ effects s3
                    = (effects s ++ reported h true r)
                      ++ reported h false (resolved_document h (defaulted_document h s2 r)))
    as Hsecond.
  { intros s2 Hf2 Hd2 Hi2 Hinc2 Hdue2 Hef2.
    destruct (handleConfigurationChange_no_file_run h s2 r Hf2 Hd2)
      as (s3 & Hrun & Hd3 & Hi3 & Hinc3 & Hin3 & Hef3); [by rewrite Hi2|].
    rewrite Hinc2, Hdue2 in Hinc3. simpl in Hinc3.
    exists s3. rewrite Hinc3, Hef2 in Hef3. rewrite Hi2 in Hi3. by split_and!. }
  (* The defaults first. *)
  destruct (Hfirst (store_CompilerDefaults cd s)) as (a1 & Ha1 & Hda1 & Hia1 & Hinca1 & Hina1 & Hefa1);
    [done|done|done|done| |done|].
  { unfold defaulting_due. simpl. rewrite Hready. by rewrite andb_false_r. }
  set (a2 := set_vcpkg (vcpkgIncludes a1 ++ found) true a1).
  assert (inputs a2
          = inputs (set_vcpkg (vcpkgIncludes s ++ found) true (store_CompilerDefaults cd s)))
    as Hina2 by apply (inputs_set_vcpkg a1 (store_CompilerDefaults cd s) found true Hina1).
  destruct (Hsecond a2) as (a3 & Ha3 & Hda3 & Hia3 & Hinca3 & Hina3 & Hefa3);
    [by rewrite (inputs_propertiesFile _ _ Hina2)|done|done|done| |done|].
  { rewrite (defaulting_due_ext _ _ Hina2)
      by (change (configurationIncomplete a1 = configurationIncomplete s); congruence).
    unfold defaulting_due. simpl. by rewrite Hinc. }
  (* The scan first. *)
  destruct (Hfirst (set_vcpkg (vcpkgIncludes s ++ found) true s))
    as (b1 & Hb1 & Hdb1 & Hib1 & Hincb1 & Hinb1 & Hefb1);
    [done|done|done|done| |done|].
  { unfold defaulting_due. simpl. rewrite Hincl. by rewrite andb_false_r. }
  set (b2 := store_CompilerDefaults cd b1).
  assert (inputs b2
          = inputs (store_CompilerDefaults cd (set_vcpkg (vcpkgIncludes s ++ found) true s)))
    as Hinb2 by apply (inputs_store_CompilerDefaults cd b1 _ Hinb1).
  destruct (Hsecond b2) as (b3 & Hb3 & Hdb3 & Hib3 & Hincb3 & Hinb3 & Hefb3);
    [by rewrite (inputs_propertiesFile _ _ Hinb2)|done|done|done| |done|].
  { rewrite (defaulting_due_ext _ _ Hinb2)
      by (change (configurationIncomplete b1 = configurationIncomplete s); congruence).
    unfold defaulting_due. simpl. by rewrite Hinc. }
  assert (inputs a2 = inputs b2) as Hab by (by rewrite Hina2, Hinb2).
  assert (defaulted_document h a2 r = defaulted_document h b2 r) as Hdef.
  { apply defaulted_document_ext; [done| |].
    - change (currentConfigurationIndex a1 = currentConfigurationIndex b1). congruence.
    - change (configurationIncomplete a1 = configurationIncomplete b1). congruence. }
  assert (a3 = b3) as <-.
  { apply state_eq; [congruence| |congruence|congruence|].
    - by rewrite Hda3, Hdb3, Hdef.
    - by rewrite Hefa3, Hefb3, Hdef. }
  exists a3, (resolved_document h (defaulted_document h a2 r)). eexists _, _.
  split_and!.
  - unfold set_CompilerDefaults.
    rewrite (bind_normal _ _ s tt a1).
    2:{ by rewrite (bind_normal _ _ s tt (store_CompilerDefaults cd s)). }
    unfold buildVcpkgIncludePath.
    rewrite (bind_normal _ _ a1 a1 a1) by done.
    by rewrite (bind_normal _ _ a1 tt a2).
  - unfold buildVcpkgIncludePath.
    rewrite (bind_normal _ _ s tt b1).
    2:{ rewrite (bind_normal _ _ s s s) by done.
        by rewrite (bind_normal _ _ s tt (set_vcpkg (vcpkgIncludes s ++ found) true s)). }
    unfold set_CompilerDefaults.
    by rewrite (bind_normal _ _ b1 tt b2).
  - done.
  - done.
  - unfold inputs in Hina3, Hina2. rewrite Hina2 in Hina3. by injection Hina3.
  - rewrite Hefa3, <- app_assoc. reflexivity.
Qed.

Lemma defaults_and_vcpkg_commute_witness :
  ∃ s',
    (set_CompilerDefaults (sample_host None ReadEmptyString) gcc_defaults
       ≫= fun _ => buildVcpkgIncludePath (sample_host None ReadEmptyString) ["/vcpkg/include"])
      (constructor (sample_host None ReadEmptyString) (-1)).2 = (Normal tt, s')
    ∧ (buildVcpkgIncludePath (sample_host None ReadEmptyString) ["/vcpkg/include"]
         ≫= fun _ => set_CompilerDefaults (sample_host None ReadEmptyString) gcc_defaults)
        (constructor (sample_host None ReadEmptyString) (-1)).2 = (Normal tt, s').
Proof.
  assert (propertiesFile (constructor (sample_host None ReadEmptyString) (-1)).2 = None)
    as Hfile by (vm_compute; reflexivity).
  assert (configurationJson (constructor (sample_host None ReadEmptyString) (-1)).2
          = Document (getDefaultCppProperties (sample_host None ReadEmptyString)))
    as Hd by (vm_compute; reflexivity).
  assert (0 ≤ currentConfigurationIndex (constructor (sample_host None ReadEmptyString) (-1)).2
          < array_length (ConfigurationJson.configurations
                            (getDefaultCppProperties (sample_host None ReadEmptyString))))
    as Hi by (vm_compute; split; [discriminate | reflexivity]).
  assert (configurationIncomplete (constructor (sample_host None ReadEmptyString) (-1)).2
          = true) as Hinc by (vm_compute; reflexivity).
  assert (defaultIncludes (constructor (sample_host None ReadEmptyString) (-1)).2 = None)
    as Hincl by (vm_compute; reflexivity).
  assert (vcpkgPathReady (constructor (sample_host None ReadEmptyString) (-1)).2 = false)
    as Hready by (vm_compute; reflexivity).
  destruct (defaults_and_vcpkg_commute (sample_host None ReadEmptyString) _ _ gcc_defaults
              ["/vcpkg/include"] Hfile Hd Hi Hinc Hincl Hready)
    as (s' & d' & files & files' & Ha & Hb & _).
  exists s'. split; [exact Ha | exact Hb].
Defined.

(** A reset to the defaults followed by a reconciliation, without a
    properties file. *)
Lemma reset_and_reconcile_run h s :
  propertiesFile s = None →
  returns (resetToDefaultSettings h true ≫= fun _ => handleConfigurationChange h) s
    (fun _ s' => reset_outcome h s s').
Proof.
  intros Hfile.
  destruct (resetToDefaultSettings_run h true s) as (s1 & Hr & Hd1 & Hi1 & Hinc1 & Hin1 & Hef1).
  destruct (handleConfigurationChange_no_file_run h s1 (getDefaultCppProperties h))
    as (s2 & Hrun & Hd2 & Hi2 & Hinc2 & Hin2 & Hef2).
  { by rewrite (inputs_propertiesFile _ _ Hin1). }
  { done. }
  { rewrite Hi1. by vm_compute. }
  exists tt, s2. rewrite (bind_normal _ _ _ _ _ Hr). split; [exact Hrun|].
  eexists _, _. split_and!.
  - by rewrite (inputs_propertiesFile _ _ Hin2), (inputs_propertiesFile _ _ Hin1).
  - exact Hd2.
  - by rewrite resolved_document_names, defaulted_document_names.
  - by rewrite Hi2.
  - rewrite Hinc2, Hinc1. unfold defaulting_due. rewrite Hinc1.
    unfold inputs in Hin1. injection Hin1 as _ _ _ _ -> -> _ _ -> _.
    destruct (present (defaultIncludes s)), (present (defaultFrameworks s)),
      (vcpkgPathReady s); simpl; intuition congruence.
  - rewrite Hef2, Hef1. reflexivity.
Qed.

(** X16. The events that discard the properties file never make the store
    throw: after the watcher reports the deletion of the file, after a
    change of the settings of a store without file, and after the periodic
    check fails to find the file of a store that had one, the store has no
    properties file and holds the one default configuration of the
    platform at index 0. Defaulting is complete exactly when the include
    paths, the frameworks and the vcpkg scan had arrived before, and only
    then the change event is sent. *)
Theorem reset_events h s file :
  returns (onDidDelete h) s (fun _ s' => reset_outcome h s s')
  ∧ (propertiesFile s = None →
     returns (onDidChangeSettings h) s (fun _ s' => reset_outcome h s s'))
  ∧ (propertiesFile s ≠ None →
     returns (checkCppProperties h file StatFails) s (fun _ s' => reset_outcome h s s')).
Proof.
  assert (returns (onDidDelete h) s (fun _ s' => reset_outcome h s s')) as Hdelete.
  { destruct (reset_and_reconcile_run h (set_propertiesFile None s) eq_refl)
      as ([] & s' & Hrun & Hout).
    exists tt, s'. split; [|exact Hout].
    unfold onDidDelete. by rewrite (bind_normal _ _ s tt (set_propertiesFile None s)). }
  split_and!; [exact Hdelete| |].
  - intros Hfile. destruct (reset_and_reconcile_run h s Hfile) as ([] & s' & Hrun & Hout).
    exists tt, s'. split; [|exact Hout].
    unfold onDidChangeSettings. rewrite (bind_normal _ _ s s s) by done. by rewrite Hfile.
  - intros Hfile. destruct Hdelete as ([] & s' & Hrun & Hout).
    exists tt, s'. split; [|exact Hout].
    unfold checkCppProperties. rewrite (bind_normal _ _ s s s) by done.
    destruct (propertiesFile s); [exact Hrun|done].
Qed.

End WithoutPropertiesFile.

Section WithPropertiesFile.

Implicit Types (h : Host) (s this : CppProperties) (d : ConfigurationJson.t).
Implicit Types (confs : list Configuration.t) (file : string) (j : ParsedJson.t).
Implicit Types (e : Environment).

Lemma parsed_document_names h s j confs :
  names (ConfigurationJson.configurations (parsed_document h s j confs)) = names confs.
Proof.
  unfold parsed_document. destruct (bool_decide _).
  - rewrite migrate_names. apply checkProviderIds_names.
  - apply checkProviderIds_names.
Qed.

Lemma migrate_version h this d :
  ConfigurationJson.version (migrate h this d).1 = Some configVersion.
Proof. unfold migrate. by destruct (bool_decide (ConfigurationJson.version _ = Some 3)). Qed.

Lemma parsed_document_version h s j confs :
  ConfigurationJson.version (parsed_document h s j confs) = Some configVersion.
Proof.
  unfold parsed_document. case_bool_decide as Hv.
  - apply migrate_version.
  - simpl. by destruct (decide (ParsedJson.version j = Some configVersion)).
Qed.

Lemma parsed_document_env h s j confs :
  ConfigurationJson.env (parsed_document h s j confs)
  = removeDisallowedOverrides <$> ParsedJson.env j.
Proof. unfold parsed_document. destruct (bool_decide _); [by rewrite migrate_env|done]. Qed.

Lemma parsed_index_in_range h s c confs :
  0 ≤ parsed_index h s (c :: confs) < array_length (c :: confs).
Proof. unfold parsed_index. by apply normalized_index_in_range. Qed.

(** The parse of a read that is not accepted shows the message and throws
    again. *)
Lemma parsePropertiesFile_failed h s file err :
  propertiesFile s = Some file →
  failed_read (readPropertiesFile h) = Some err →
  parsePropertiesFile h s
  = (Throw err, add_effect (ShowErrorMessage (FailedToParse file err)) s).
Proof.
  intros Hfile Hread.
  assert (parsePropertiesFile_try h s = (Throw err, s)) as Htry.
  { unfold parsePropertiesFile_try. rewrite (bind_normal _ _ s s s) by done. rewrite Hfile.
    destruct (readPropertiesFile h) as [m| |m|[j|]]; simpl in Hread.
    - by injection Hread as <-.
    - done.
    - by injection Hread as <-.
    - destruct (ParsedJson.configurations j) as [|[|c confs]|]; [| |done|done];
        by injection Hread as <-.
    - by injection Hread as <-. }
  unfold parsePropertiesFile, try_catch. rewrite Htry.
  rewrite (bind_normal _ _ s s s) by done. rewrite Hfile.
  by rewrite (bind_normal _ _ s tt (add_effect (ShowErrorMessage (FailedToParse file err)) s)).
Qed.



(** X18. With a properties file whose read is not accepted, whether
    reading or parsing throws or the content has no configuration, a
    reconciliation throws the same exception after the message about the
    file, and sends nothing else: no watched files and no change event.
    Compiler defaults and vcpkg directories that arrive in this situation
    are stored all the same. *)
Theorem reconcile_failed_read h s file err :
  propertiesFile s = Some file →
  failed_read (readPropertiesFile h) = Some err →
  handleConfigurationChange h s
  = (Throw err, add_effect (ShowErrorMessage (FailedToParse file err)) s)
  ∧ (∀ cd, set_CompilerDefaults h cd s
           = (Throw err, add_effect (ShowErrorMessage (FailedToParse file err))
                           (store_CompilerDefaults cd s)))
  ∧ (∀ found, buildVcpkgIncludePath h found s
              = (Throw err, add_effect (ShowErrorMessage (FailedToParse file err))
                              (set_vcpkg (vcpkgIncludes s ++ found) true s))).
Proof.
  intros Hfile Hread.
  assert (∀ s0, propertiesFile s0 = Some file →
                handleConfigurationChange h s0
                = (Throw err, add_effect (ShowErrorMessage (FailedToParse file err)) s0))
    as Hthrows.
  { intros s0 Hfile0. unfold handleConfigurationChange.
    rewrite (bind_normal _ _ s0 s0 s0) by done. rewrite Hfile0.
    apply bind_throw. apply bind_throw. by apply parsePropertiesFile_failed. }
  split_and!.
  - by apply Hthrows.
  - intros cd. unfold set_CompilerDefaults.
    rewrite (bind_normal _ _ s tt (store_CompilerDefaults cd s)) by done.
    by apply Hthrows.
  - intros found. unfold buildVcpkgIncludePath.
    rewrite (bind_normal _ _ s s s) by done.
    rewrite (bind_normal _ _ s tt (set_vcpkg (vcpkgIncludes s ++ found) true s)) by done.
    by apply Hthrows.
Qed.

Lemma reconcile_failed_read_witness :
  handleConfigurationChange
    (sample_host (Some sample_file) (ParseThrows "Unexpected token")) loaded_state
  = (Throw (SyntaxError "Unexpected token"),
     add_effect (ShowErrorMessage (FailedToParse sample_file (SyntaxError "Unexpected token")))
       loaded_state).
Proof.
  assert (propertiesFile loaded_state = Some sample_file) as Hfile
    by (vm_compute; reflexivity).
  exact (proj1 (reconcile_failed_read
                  (sample_host (Some sample_file) (ParseThrows "Unexpected token"))
                  loaded_state sample_file (SyntaxError "Unexpected token") Hfile eq_refl)).
Defined.

(** X19. The constructor, up to the point where it registers the watcher
    callbacks and starts the vcpkg scan. It throws when the configuration
    folder has a properties file whose read is not accepted; the store was
    then left without a document. Without a file, with an empty file and
    with a file that has an array of at least one configuration, it gets
    there with a document whose index selects a configuration; the
    properties file is the one it found; and a store that still waits for
    its defaults holds the default document of the platform at index 0.
    With a file whose [configurations] is [{}] it neither throws nor takes
    the defaults: a persisted index that is negative becomes [NaN], and
    with any other index the store ends up with the document without
    entries, that index, and no current configuration. *)
Theorem constructor_outcome h (persistedIndex : Z) :
  (∀ file err,
     configFileExists h = Some file →
     failed_read (readPropertiesFile h) = Some err →
     ∃ s, constructor h persistedIndex = (Throw err, s)
          ∧ configurationJson s = JsNull
          ∧ effects s = [ShowErrorMessage (FailedToParse file err)])
  ∧ (configFileExists h = None
     ∨ readPropertiesFile h = ReadEmptyString
     ∨ (∃ newJson c confs,
          readPropertiesFile h = Parsed (Some newJson)
          ∧ ParsedJson.configurations newJson = ArrayOf (c :: confs)) →
     ∃ s, constructor h persistedIndex = (Normal tt, s)
          ∧ well_formed s
          ∧ propertiesFile s = configFileExists h
          ∧ (configurationIncomplete s = true →
             configurationJson s = Document (getDefaultCppProperties h)
             ∧ currentConfigurationIndex s = 0))
  ∧ (∀ file newJson,
       configFileExists h = Some file →
       readPropertiesFile h = Parsed (Some newJson) →
       ParsedJson.configurations newJson = ObjectWithoutEntries →
       (persistedIndex < 0 →
        ∃ s, constructor h persistedIndex = (NotANumber, s)
             ∧ configurationJson s
               = DocumentWithoutEntries (ParsedJson.env newJson) (ParsedJson.version newJson))
       ∧ (0 ≤ persistedIndex →
          ∃ s, constructor h persistedIndex = (Normal tt, s)
               ∧ configurationJson s
                 = DocumentWithoutEntries
                     (removeDisallowedOverrides <$> ParsedJson.env newJson)
                     (Some configVersion)
               ∧ currentConfigurationIndex s = persistedIndex
               ∧ configurationIncomplete s = false
               ∧ ¬ well_formed s
               ∧ CurrentConfiguration s = (Normal None, s))).
Proof.
  assert (∀ s0, configurationJson s0 = JsNull →
                ∃ s, (s ← get_state;
                      match configurationJson s with
                      | Document _ | DocumentWithoutEntries _ _ => mret tt
                      | _ => resetToDefaultSettings h (currentConfigurationIndex s =? -1)
                      end) s0 = (Normal tt, s)
                     ∧ well_formed s
                     ∧ propertiesFile s = propertiesFile s0
                     ∧ (configurationIncomplete s = true →
                        configurationJson s = Document (getDefaultCppProperties h)
                        ∧ currentConfigurationIndex s = 0)) as Hreset.
  { intros s0 Hnull. rewrite (bind_normal _ _ s0 s0 s0) by done. rewrite Hnull.
    destruct (resetToDefaultSettings_run h (currentConfigurationIndex s0 =? -1) s0)
      as (s1 & Hr & Hd1 & Hi1 & Hinc1 & Hin1 & _).
    exists s1. split_and!; [done| |by apply inputs_propertiesFile|done].
    exists (getDefaultCppProperties h). split; [done|]. rewrite Hi1. by vm_compute. }
  unfold constructor. split_and!.
  - intros file err Hexists Hread. rewrite Hexists.
    eexists. split.
    + apply bind_throw.
      rewrite (bind_normal _ _ _ tt (set_propertiesFile (Some file) (initial persistedIndex)))
        by done.
      by apply parsePropertiesFile_failed.
    + done.
  - intros Hok. destruct (configFileExists h) as [file|] eqn:Hexists.
    2:{ rewrite (bind_normal _ _ (initial persistedIndex) tt (initial persistedIndex)) by done.
        by apply Hreset. }
    set (s0 := set_propertiesFile (Some file) (initial persistedIndex)).
    destruct Hok as [[=]|[Hread|(j & c & confs & Hread & Hconfs)]].
    + rewrite (bind_normal _ _ (initial persistedIndex) tt s0).
      2:{ rewrite (bind_normal _ _ _ tt s0) by done.
          by apply (parsePropertiesFile_empty_read h s0 file). }
      by apply Hreset.
    + destruct (parsePropertiesFile_run h s0 file j c confs eq_refl Hread Hconfs)
        as (s1 & Hparse & Hd1 & Hi1 & Hinc1 & Hin1 & _).
      exists s1. split_and!.
      * rewrite (bind_normal _ _ (initial persistedIndex) tt s1).
        2:{ by rewrite (bind_normal _ _ _ tt s0). }
        rewrite (bind_normal _ _ s1 s1 s1) by done. by rewrite Hd1.
      * eexists. split; [exact Hd1|].
        rewrite Hi1, (names_length _ _ (parsed_document_names h s0 j (c :: confs))).
        apply parsed_index_in_range.
      * by rewrite (inputs_propertiesFile _ _ Hin1).
      * congruence.
  - intros file j Hexists Hread Hconfs. rewrite Hexists.
    set (s0 := set_propertiesFile (Some file) (initial persistedIndex)).
    split.
    + intros Hneg. eexists. split.
      * apply bind_nan. rewrite (bind_normal _ _ _ tt s0) by done.
        by apply (parsePropertiesFile_without_entries_NaN h s0 file j).
      * done.
    + intros Hpos.
      destruct (parsePropertiesFile_without_entries_run h s0 file j eq_refl Hread Hconfs Hpos)
        as (s1 & Hparse & Hd1 & Hi1 & Hinc1 & _).
      exists s1. split_and!; [|done|done|done| |].
      * rewrite (bind_normal _ _ (initial persistedIndex) tt s1).
        2:{ by rewrite (bind_normal _ _ _ tt s0). }
        rewrite (bind_normal _ _ s1 s1 s1) by done. by rewrite Hd1.
      * intros (d & Hd & _). congruence.
      * unfold CurrentConfiguration. rewrite (bind_normal _ _ s1 [] s1).
        2:{ unfold Configurations. rewrite (bind_normal _ _ s1 s1 s1) by done.
            by rewrite Hd1. }
        rewrite (bind_normal _ _ s1 s1 s1) by done. unfold array_get.
        by destruct (_ <? 0).
Qed.

End WithPropertiesFile.

Section FileRoundTrip.

Implicit Types (h : Host) (s this : CppProperties) (d : ConfigurationJson.t).
Implicit Types (confs : list Configuration.t) (file : string) (j : ParsedJson.t).
Implicit Types (e : Environment) (ps : Registry.Providers).

Lemma removeDisallowedOverrides_lookup e (k : string) :
  removeDisallowedOverrides e !! k
  = if bool_decide (k ∈ reserved_variables) then None else e !! k.
Proof.
  unfold removeDisallowedOverrides, reserved_variables.
  case_bool_decide as Hk.
  - apply lookup_delete_None.
    destruct (decide ("default" = k)) as [|Hn1]; [by left|right].
    apply lookup_delete_None.
    destruct (decide ("workspaceFolderBasename" = k)) as [|Hn2]; [by left|right].
    apply lookup_delete_None.
    destruct (decide ("workspaceFolder" = k)) as [|Hn3]; [by left|right].
    apply lookup_delete_None. left.
    rewrite !elem_of_cons, elem_of_nil in Hk. intuition congruence.
  - rewrite !elem_of_cons, elem_of_nil in Hk.
    rewrite !lookup_delete_ne by intuition congruence. done.
Qed.


Lemma checkProviderIds_spec ps l :
  checkProviderIds ps l
  = (bool_decide (Exists (fun c => Registry.checkId ps (Configuration.configurationProvider c)
                                   ≠ Configuration.configurationProvider c) l),
     (fun c => if bool_decide (Registry.checkId ps (Configuration.configurationProvider c)
                               ≠ Configuration.configurationProvider c)
               then Configuration.set_configurationProvider
                      (Registry.checkId ps (Configuration.configurationProvider c)) c
               else c) <$> l).
Proof.
  induction l as [|c l IH]; simpl.
  { done. }
  rewrite IH. csimpl.
  destruct (decide (Registry.checkId ps (Configuration.configurationProvider c)
                    ≠ Configuration.configurationProvider c)) as [Hc|Hc].
  - rewrite !(bool_decide_eq_true_2 _ Hc). f_equal.
    symmetry. apply bool_decide_eq_true. by left.
  - rewrite !(bool_decide_eq_false_2 _ Hc). f_equal.
    apply bool_decide_ext. rewrite Exists_cons. tauto.
Qed.

Lemma checkProviderIds_fixed ps l :
  Forall (fun c => Registry.checkId ps (Configuration.configurationProvider c)
                   = Configuration.configurationProvider c) l →
  checkProviderIds ps l = (false, l).
Proof.
  intros Hfixed. rewrite checkProviderIds_spec. f_equal.
  - apply bool_decide_eq_false. rewrite Exists_exists. intros (c & Hc & Hne).
    by apply Hne, (proj1 (Forall_forall _ _) Hfixed).
  - rewrite <- (list_fmap_id l) at 2. apply Forall_fmap_ext_1.
    eapply Forall_impl; [exact Hfixed|]. intros c Hc. simpl.
    by rewrite bool_decide_eq_false_2 by (by intros ?).
Qed.







(** X21. A parse that accepts the file writes the file back only when it
    changed the document: when the version is the current one and every
    provider id is what [checkId] returns for it, the store takes over the
    configurations as they are and there is no write and no message;
    otherwise the last thing the parse does is to write the document of
    the store, which has the current version, or to warn that it could
    not, possibly after the message about an unknown version. *)
Theorem file_written_only_when_changed h s file j c confs :
  propertiesFile s = Some file →
  readPropertiesFile h = Parsed (Some j) →
  ParsedJson.configurations j = ArrayOf (c :: confs) →
  ∃ s' d',
    parsePropertiesFile h s = (Normal tt, s')
    ∧ configurationJson s' = Document d'
    ∧ ConfigurationJson.version d' = Some configVersion
    ∧ let unchanged :=
        ParsedJson.version j = Some configVersion
        ∧ ∀ c', c' ∈ c :: confs →
                Registry.checkId (providerCollection h) (Configuration.configurationProvider c')
                = Configuration.configurationProvider c' in
      (unchanged →
       effects s' = effects s ∧ ConfigurationJson.configurations d' = c :: confs)
      ∧ (¬ unchanged →
         ∃ pre,
           effects s'
           = effects s ++ pre
             ++ [if writeSucceeds h then WriteFileSync file d'
                 else ShowWarningMessage (UpdateFailed file)]
           ∧ (pre = [] ∨ pre = [ShowErrorMessage UnknownVersionNumber])).
Proof.
  intros Hfile Hread Hconfs.
  destruct (parsePropertiesFile_run h s file j c confs Hfile Hread Hconfs)
    as (s' & Hparse & Hd' & _ & _ & _ & Hef').
  exists s', (parsed_document h s j (c :: confs)).
  split_and!; [done|done|apply parsed_document_version|].
  intros unchanged. split.
  - intros [Hv Hfixed].
    assert (checkProviderIds (providerCollection h) (c :: confs) = (false, c :: confs))
      as Hchecked by (apply checkProviderIds_fixed, Forall_forall; exact Hfixed).
    rewrite Hef'. unfold parsed_effects, parsed_document, parsed_unmigrated. cbv zeta.
    rewrite Hv, bool_decide_eq_false_2 by (by intros ?). rewrite Hchecked.
    by rewrite app_nil_r.
  - intros Hchanged. rewrite Hef'. unfold parsed_effects. cbv zeta.
    assert ((checkProviderIds (providerCollection h) (c :: confs)).1
            || bool_decide (ParsedJson.version j ≠ Some configVersion) = true) as ->.
    { apply orb_true_iff.
      destruct (decide (ParsedJson.version j = Some configVersion)) as [Hv|Hv].
      2:{ right. by apply bool_decide_eq_true. }
      left. rewrite checkProviderIds_spec. apply bool_decide_eq_true.
      apply not_Forall_Exists; [intros c'; apply _|].
      intros Hall. apply Hchanged. split; [done|].
      intros c' Hc'. apply (proj1 (Forall_forall _ _) Hall) in Hc'.
      by destruct (decide (Registry.checkId (providerCollection h)
                             (Configuration.configurationProvider c')
                           = Configuration.configurationProvider c')). }
    eexists. split; [reflexivity|].
    destruct (_ && _); [by right|by left].
Qed.

Lemma file_written_only_when_changed_witness :
  ∃ s',
    parsePropertiesFile
      (sample_host (Some sample_file) (Parsed (Some (parsed_with ["B"; "Linux"]))))
      loaded_state = (Normal tt, s')
    ∧ effects s' = effects loaded_state.
Proof.
  assert (propertiesFile loaded_state = Some sample_file) as Hfile
    by (vm_compute; reflexivity).
  assert (∀ c', c' ∈ [Configuration.named "B"; Configuration.named "Linux"] →
                Registry.checkId ∅ (Configuration.configurationProvider c')
                = Configuration.configurationProvider c') as Hfixed.
  { intros c' Hc'. apply elem_of_cons in Hc' as [->|Hc']; [reflexivity|].
    apply elem_of_cons in Hc' as [->|Hc']; [reflexivity|].
    by apply elem_of_nil in Hc'. }
  destruct (file_written_only_when_changed
              (sample_host (Some sample_file) (Parsed (Some (parsed_with ["B"; "Linux"]))))
              loaded_state sample_file (parsed_with ["B"; "Linux"])
              (Configuration.named "B") [Configuration.named "Linux"]
              Hfile eq_refl eq_refl)
    as (s' & d' & Hparse & _ & _ & Hunchanged & _).
  exists s'. split; [exact Hparse|].
  exact (proj1 (Hunchanged (conj eq_refl Hfixed))).
Defined.

(** X22. A write that fails does not fail the parse: whether the write
    succeeds or not, the parse returns with the same document, index and
    flags; the only difference is that the warning takes the place of the
    write. *)
Theorem write_failure_not_fatal h s file j c confs :
  propertiesFile s = Some file →
  readPropertiesFile h = Parsed (Some j) →
  ParsedJson.configurations j = ArrayOf (c :: confs) →
  ∃ s1 s2 pre,
    parsePropertiesFile (with_write true h) s = (Normal tt, s1)
    ∧ parsePropertiesFile (with_write false h) s = (Normal tt, s2)
    ∧ configurationJson s2 = configurationJson s1
    ∧ currentConfigurationIndex s2 = currentConfigurationIndex s1
    ∧ configurationIncomplete s2 = configurationIncomplete s1
    ∧ inputs s2 = inputs s1
    ∧ ((effects s1 = effects s ++ pre ∧ effects s2 = effects s ++ pre)
       ∨ (∃ d, configurationJson s1 = Document d
               ∧ effects s1 = effects s ++ pre ++ [WriteFileSync file d]
               ∧ effects s2 = effects s ++ pre ++ [ShowWarningMessage (UpdateFailed file)])).
Proof.
  intros Hfile Hread Hconfs.
  destruct (parsePropertiesFile_run (with_write true h) s file j c confs Hfile Hread Hconfs)
    as (s1 & Hparse1 & Hd1 & Hi1 & Hinc1 & Hin1 & Hef1).
  destruct (parsePropertiesFile_run (with_write false h) s file j c confs Hfile Hread Hconfs)
    as (s2 & Hparse2 & Hd2 & Hi2 & Hinc2 & Hin2 & Hef2).
  set (pre := if bool_decide (ParsedJson.version j ≠ Some configVersion)
                 && (migrate h s (parsed_unmigrated h j (c :: confs))).2
              then [ShowErrorMessage UnknownVersionNumber] else []).
  set (dirty := (checkProviderIds (providerCollection h) (c :: confs)).1
                || bool_decide (ParsedJson.version j ≠ Some configVersion)).
  change (parsed_document (with_write true h) s j (c :: confs))
    with (parsed_document h s j (c :: confs)) in Hd1.
  change (parsed_document (with_write false h) s j (c :: confs))
    with (parsed_document h s j (c :: confs)) in Hd2.
  change (parsed_index (with_write true h) s (c :: confs))
    with (parsed_index h s (c :: confs)) in Hi1.
  change (parsed_index (with_write false h) s (c :: confs))
    with (parsed_index h s (c :: confs)) in Hi2.
  change (parsed_effects (with_write true h) s file j (c :: confs))
    with (pre ++ if dirty then [WriteFileSync file (parsed_document h s j (c :: confs))]
                 else []) in Hef1.
  change (parsed_effects (with_write false h) s file j (c :: confs))
    with (pre ++ if dirty then [ShowWarningMessage (UpdateFailed file)] else []) in Hef2.
  exists s1, s2, pre.
  split_and!; [done|done|by rewrite Hd1, Hd2|by rewrite Hi1, Hi2|by rewrite Hinc1, Hinc2
              |by rewrite Hin1, Hin2|].
  rewrite Hef1, Hef2. destruct dirty.
  - right. eexists. split; [exact Hd1|]. by split.
  - left. rewrite app_nil_r. by split.
Qed.

Lemma write_failure_not_fatal_witness :
  ∃ s1 s2,
    parsePropertiesFile
      (with_write true
         (sample_host (Some sample_file) (Parsed (Some (parsed_with ["B"; "Linux"])))))
      loaded_state = (Normal tt, s1)
    ∧ parsePropertiesFile
        (with_write false
           (sample_host (Some sample_file) (Parsed (Some (parsed_with ["B"; "Linux"])))))
        loaded_state = (Normal tt, s2)
    ∧ configurationJson s2 = configurationJson s1.
Proof.
  assert (propertiesFile loaded_state = Some sample_file) as Hfile
    by (vm_compute; reflexivity).
  destruct (write_failure_not_fatal
              (sample_host (Some sample_file) (Parsed (Some (parsed_with ["B"; "Linux"]))))
              loaded_state sample_file (parsed_with ["B"; "Linux"])
              (Configuration.named "B") [Configuration.named "Linux"]
              Hfile eq_refl eq_refl)
    as (s1 & s2 & pre & Hparse1 & Hparse2 & Hd & _).
  exists s1, s2. split; [exact Hparse1|]. split; [exact Hparse2 | exact Hd].
Defined.

(** X23. After a parse that accepts the file, the environment used for
    variable resolution gives the base name of the workspace folder as the
    system knows it, has none of the other reserved names, and has every
    other name as the file defines it. *)
Theorem reserved_variables_removed h s file j c confs :
  propertiesFile s = Some file →
  readPropertiesFile h = Parsed (Some j) →
  ParsedJson.configurations j = ArrayOf (c :: confs) →
  ∃ s' env,
    parsePropertiesFile h s = (Normal tt, s')
    ∧ ExtendedEnvironment h s' = (Normal env, s')
    ∧ env !! "workspaceFolderBasename" = Some (EnvString (workspaceFolderBasename h))
    ∧ ∀ k, k ≠ "workspaceFolderBasename" →
           env !! k = if bool_decide (k ∈ reserved_variables) then None
                      else default ∅ (ParsedJson.env j) !! k.
Proof.
  intros Hfile Hread Hconfs.
  destruct (parsePropertiesFile_run h s file j c confs Hfile Hread Hconfs)
    as (s' & Hparse & Hd' & _).
  eexists s', _. split; [exact Hparse|]. split; [by apply ExtendedEnvironment_eq|].
  split; [by rewrite lookup_insert_eq|].
  intros k Hk. rewrite lookup_insert_ne by done.
  rewrite parsed_document_env.
  destruct (ParsedJson.env j) as [e|]; simpl.
  - apply removeDisallowedOverrides_lookup.
  - rewrite lookup_empty. by destruct (bool_decide _).
Qed.

Lemma reserved_variables_removed_witness :
  ∃ s' env,
    parsePropertiesFile
      (sample_host (Some sample_file) (Parsed (Some (parsed_with ["B"; "Linux"]))))
      loaded_state = (Normal tt, s')
    ∧ ExtendedEnvironment
        (sample_host (Some sample_file) (Parsed (Some (parsed_with ["B"; "Linux"])))) s'
      = (Normal env, s')
    ∧ env !! "workspaceFolderBasename" = Some (EnvString "project").
Proof.
  assert (propertiesFile loaded_state = Some sample_file) as Hfile
    by (vm_compute; reflexivity).
  destruct (reserved_variables_removed
              (sample_host (Some sample_file) (Parsed (Some (parsed_with ["B"; "Linux"]))))
              loaded_state sample_file (parsed_with ["B"; "Linux"])
              (Configuration.named "B") [Configuration.named "Linux"]
              Hfile eq_refl eq_refl)
    as (s' & env & Hparse & Henv & Hbase & _).
  exists s', env. split; [exact Hparse|]. split; [exact Henv | exact Hbase].
Defined.

End FileRoundTrip.

Section MigrationFills.

Implicit Types (h : Host) (s this : CppProperties) (d : ConfigurationJson.t).

Lemma migrate_configurations h this d :
  ConfigurationJson.configurations (migrate h this d).1
  = if bool_decide (ConfigurationJson.version d = None ∨ ConfigurationJson.version d = Some 2)
    then updateToVersion4_configuration h this
           <$> (updateToVersion3_configuration h <$> ConfigurationJson.configurations d)
    else if bool_decide (ConfigurationJson.version d = Some 3)
         then updateToVersion4_configuration h this <$> ConfigurationJson.configurations d
         else ConfigurationJson.configurations d.
Proof.
  unfold migrate. destruct d as [l e [v|]]; simpl.
  - destruct (decide (v = 2)) as [->|Hv2]; [done|].
    destruct (decide (v = 3)) as [->|Hv3]; [done|].
    rewrite (bool_decide_eq_false_2 (Some v = Some 2)) by congruence. simpl.
    rewrite (bool_decide_eq_false_2 (Some v = Some 3)) by congruence. simpl.
    rewrite (bool_decide_eq_false_2 (_ ∨ _)) by (intros [|]; congruence). done.
  - done.
Qed.

(** X24. What the migration of a file of an older version fills in: when
    the setting for the IntelliSense mode is not set, every configuration
    has a mode afterwards, its own when it had one and else the mode for
    its name, which is one of three; a file older than version 3 gets the
    system framework paths in its Mac configurations that had none, and
    only there; a file of version 3 keeps its framework paths. *)
Theorem migration_fills_missing h this d :
  ConfigurationJson.version d = None ∨ ConfigurationJson.version d = Some 2
  ∨ ConfigurationJson.version d = Some 3 →
  let migrated := ConfigurationJson.configurations (migrate h this d).1 in
  (truthy (CppSettings.defaultIntelliSenseMode (settings h)) = false →
   Configuration.intelliSenseMode <$> migrated
   = (fun c => Some (default (getIntelliSenseModeForPlatform h (Configuration.name c))
                       (Configuration.intelliSenseMode c)))
       <$> ConfigurationJson.configurations d)
  ∧ (∀ name, getIntelliSenseModeForPlatform h name ∈ ["gcc-x64"; "clang-x64"; "msvc-x64"])
  ∧ Configuration.macFrameworkPath <$> migrated
    = (fun c => if mac_configuration h c
                   && negb (bool_decide (ConfigurationJson.version d = Some 3))
                then Some (default system_frameworks (Configuration.macFrameworkPath c))
                else Configuration.macFrameworkPath c)
        <$> ConfigurationJson.configurations d.
Proof.
  intros Hv migrated.
  assert (∀ c, Configuration.intelliSenseMode (updateToVersion3_configuration h c)
               = Configuration.intelliSenseMode c
               ∧ Configuration.name (updateToVersion3_configuration h c)
                 = Configuration.name c) as H3.
  { intros c. by destruct (updateToVersion3_configuration_cases h c) as [-> | ->]. }
  assert (∀ c, Configuration.macFrameworkPath (updateToVersion3_configuration h c)
               = if mac_configuration h c
                 then Some (default system_frameworks (Configuration.macFrameworkPath c))
                 else Configuration.macFrameworkPath c) as H3m.
  { intros c. unfold updateToVersion3_configuration, mac_configuration.
    destruct (_ || _); [|done]. by destruct (Configuration.macFrameworkPath c) eqn:Hm. }
  split_and!.
  - intros Hsetting. unfold migrated. rewrite migrate_configurations.
    assert (∀ c, Configuration.intelliSenseMode (updateToVersion4_configuration h this c)
                 = Some (default (getIntelliSenseModeForPlatform h (Configuration.name c))
                           (Configuration.intelliSenseMode c))) as H4.
    { intros c. unfold updateToVersion4_configuration. simpl. rewrite Hsetting.
      by destruct (Configuration.intelliSenseMode c). }
    case_bool_decide as Hold.
    + rewrite <- !list_fmap_compose. apply list_fmap_ext. intros i c _. unfold compose.
      rewrite H4. by destruct (H3 c) as [-> ->].
    + rewrite bool_decide_eq_true_2 by tauto.
      rewrite <- !list_fmap_compose. apply list_fmap_ext. intros i c _. unfold compose. apply H4.
  - intros name. unfold getIntelliSenseModeForPlatform.
    repeat (destruct (String.eqb _ _)); try destruct (platform h);
      rewrite !elem_of_cons; tauto.
  - unfold migrated. rewrite migrate_configurations.
    case_bool_decide as Hold.
    + rewrite bool_decide_eq_false_2 by (destruct Hold; congruence).
      rewrite <- !list_fmap_compose. apply list_fmap_ext. intros i c _. unfold compose.
      rewrite andb_true_r. apply H3m.
    + assert (ConfigurationJson.version d = Some 3) as H33 by tauto.
      rewrite !(bool_decide_eq_true_2 _ H33).
      rewrite <- !list_fmap_compose. apply list_fmap_ext. intros i c _. unfold compose.
      by rewrite andb_false_r.
Qed.

Lemma migration_fills_missing_witness :
  Configuration.intelliSenseMode
    <$> ConfigurationJson.configurations
          (migrate (sample_host None ReadEmptyString) (initial 0)
             {| ConfigurationJson.configurations := [Configuration.named "Mac"];
                ConfigurationJson.env := None; ConfigurationJson.version := Some 2 |}).1
  = [Some "clang-x64"].
Proof.
  exact (proj1 (migration_fills_missing (sample_host None ReadEmptyString) (initial 0)
                  {| ConfigurationJson.configurations := [Configuration.named "Mac"];
                     ConfigurationJson.env := None; ConfigurationJson.version := Some 2 |}
                  (or_intror (or_introl eq_refl))) eq_refl).
Defined.

End MigrationFills.

Section Selection.

Implicit Types (h : Host) (s this : CppProperties) (d : ConfigurationJson.t).

(** X25. [select] stores the index it is given without looking at the
    range, and announces it: the current configuration is then the entry
    of that index, whose provider, or the setting when it has none, is the
    current provider; for an index outside of the array there is no
    current configuration, and asking for its provider throws. With the
    index one past the last, [select] keeps the selection and asks for
    the configurations to be edited. *)
Theorem select_then_current h s d :
  configurationJson s = Document d →
  select (array_length (ConfigurationJson.configurations d)) s
  = (Normal tt, add_effect EditConfigurationsRequested s)
  ∧ ∀ index,
      index ≠ array_length (ConfigurationJson.configurations d) →
      ∃ s',
        select index s = (Normal tt, s')
        ∧ currentConfigurationIndex s' = index
        ∧ effects s' = effects s ++ [FireSelectionChanged index]
        ∧ CurrentConfiguration s'
          = (Normal (array_get (ConfigurationJson.configurations d) index), s')
        ∧ (∀ c, array_get (ConfigurationJson.configurations d) index = Some c →
                CurrentConfigurationProvider h s'
                = (Normal (if truthy (Configuration.configurationProvider c)
                           then Configuration.configurationProvider c
                           else CppSettings.defaultConfigurationProvider (settings h)), s'))
        ∧ (0 ≤ index < array_length (ConfigurationJson.configurations d) →
           is_Some (array_get (ConfigurationJson.configurations d) index))
        ∧ (¬ 0 ≤ index < array_length (ConfigurationJson.configurations d) →
           CurrentConfigurationProvider h s' = (Throw TypeError, s')).
Proof.
  intros Hd. split.
  - unfold select. rewrite (bind_normal _ _ s s s) by done. rewrite Hd.
    rewrite (bind_normal _ _ _ _ _ (Configurations_eq s d Hd)).
    by rewrite Z.eqb_refl.
  - intros index Hindex. unfold select.
    rewrite (bind_normal _ _ s s s) by done. rewrite Hd.
    rewrite (bind_normal _ _ _ _ _ (Configurations_eq s d Hd)).
    apply Z.eqb_neq in Hindex as ->.
    set (s1 := set_currentConfigurationIndex index s).
    rewrite (bind_normal _ _ s tt s1) by done.
    set (s2 := add_effect (FireSelectionChanged index) s1).
    assert (CurrentConfiguration s2
            = (Normal (array_get (ConfigurationJson.configurations d) index), s2)) as Hcur
      by (by apply (CurrentConfiguration_eq s2 d)).
    exists s2. split_and!; try done.
    + intros c Hc. unfold CurrentConfigurationProvider.
      rewrite (bind_normal _ _ _ _ _ Hcur), Hc.
      by destruct (truthy _).
    + intros Hrange. destruct (array_get_in_range _ _ Hrange) as [c Hc]. by exists c.
    + intros Hrange. unfold CurrentConfigurationProvider.
      rewrite (bind_normal _ _ _ _ _ Hcur).
      assert (array_get (ConfigurationJson.configurations d) index = None) as ->; [|done].
      unfold array_get, array_length in *.
      destruct (index <? 0) eqn:Hneg; [done|]. apply Z.ltb_ge in Hneg.
      apply lookup_ge_None. lia.
Qed.

Lemma select_then_current_witness :
  select 3 loaded_state = (Normal tt, add_effect EditConfigurationsRequested loaded_state).
Proof.
  assert (configurationJson loaded_state
          = Document (ConfigurationJson.set_version (Some 4)
                        {| ConfigurationJson.configurations :=
                             Configuration.named <$> ["A"; "Linux"; "B"];
                           ConfigurationJson.env := None;
                           ConfigurationJson.version := Some 4 |})) as Hd
    by (vm_compute; reflexivity).
  exact (proj1 (select_then_current (sample_host None ReadEmptyString) loaded_state _ Hd)).
Defined.

Lemma CurrentConfiguration_cases s :
  (∃ d, configurationJson s = Document d
        ∧ CurrentConfiguration s
          = (Normal (array_get (ConfigurationJson.configurations d)
                       (currentConfigurationIndex s)), s))
  ∨ ((∀ d, configurationJson s ≠ Document d)
     ∧ (CurrentConfiguration s = (Normal None, s)
        ∨ CurrentConfiguration s = (Throw TypeError, s))).
Proof.
  destruct (configurationJson s) as [| |d|env0 version0] eqn:Hd.
  - right. split; [done|]. right. unfold CurrentConfiguration, Configurations.
    apply bind_throw. rewrite (bind_normal _ _ s s s) by done. by rewrite Hd.
  - right. split; [done|]. right. unfold CurrentConfiguration, Configurations.
    apply bind_throw. rewrite (bind_normal _ _ s s s) by done. by rewrite Hd.
  - left. exists d. split; [done|]. by apply CurrentConfiguration_eq.
  - right. split; [done|]. left. unfold CurrentConfiguration.
    rewrite (bind_normal _ _ s [] s).
    2:{ unfold Configurations. rewrite (bind_normal _ _ s s s) by done. by rewrite Hd. }
    rewrite (bind_normal _ _ s s s) by done. unfold array_get. by destruct (_ <? 0).
Qed.

(** X26. The defaulting pass runs once. A pass that returns has cleared
    the flag when it was due and has left the store as it was otherwise,
    and a second pass right after it returns and leaves the store as it
    is. A pass throws only when it was due, with a [TypeError], and has
    then not touched the store: the flag is still set, and the next pass
    tries again. *)
Theorem defaulting_runs_once h s :
  match applyDefaultIncludePathsAndFrameworks h s with
  | (Normal _, s1) =>
      applyDefaultIncludePathsAndFrameworks h s1 = (Normal tt, s1)
      ∧ (defaulting_due s = true → configurationIncomplete s1 = false)
      ∧ (defaulting_due s = false → s1 = s)
  | (Throw e, s1) => s1 = s ∧ e = TypeError ∧ defaulting_due s = true
  | (NotANumber, _) => False
  end.
Proof.
  assert (∀ s', defaulting_due s' = false →
                applyDefaultIncludePathsAndFrameworks h s' = (Normal tt, s')) as Hskip.
  { intros s' Hdue. unfold applyDefaultIncludePathsAndFrameworks.
    rewrite (bind_normal _ _ s' s' s') by done.
    fold (defaulting_due s'). by rewrite Hdue. }
  assert (∀ s', configurationIncomplete s' = false → defaulting_due s' = false) as Hdone.
  { intros s' Hinc. unfold defaulting_due. by rewrite Hinc. }
  destruct (defaulting_due s) eqn:Hdue.
  2:{ rewrite (Hskip s Hdue). split_and!; [by apply Hskip|done|done]. }
  unfold applyDefaultIncludePathsAndFrameworks.
  rewrite (bind_normal _ _ s s s) by done. fold (defaulting_due s). rewrite Hdue.
  destruct (CurrentConfiguration_cases s) as [(d & Hd & Hcur)|[Hd [Hcur|Hcur]]].
  - rewrite (bind_normal _ _ _ _ _ Hcur).
    destruct (array_get _ _) as [c|].
    + rewrite (bind_normal _ _ _ _ _ (update_document_eq _ s d Hd)).
      split_and!; [by apply Hskip, Hdone|done|done].
    + destruct (applyDefaults_assigns h s); [done|].
      split_and!; [by apply Hskip, Hdone|done|done].
  - rewrite (bind_normal _ _ _ _ _ Hcur).
    destruct (applyDefaults_assigns h s); [done|].
    split_and!; [by apply Hskip, Hdone|done|done].
  - by rewrite (bind_throw _ _ _ _ _ Hcur).
Qed.

End Selection.
